(** * ChartPredictor: the analytical core, embedded and verified

    A shallow embedding of the analytical pipeline of the ChartPredictor
    repository:

    - [src/core/chart_extractor.py]: the data model ([OHLCData],
      [ChartData]), the data-quality validator and the indicator engine;
    - [src/core/predictor.py]: pattern detection entry point, the vote-based
      predictor, the trading-signal generator with its two filters, and the
      backtester;
    - [src/config/settings.py]: the configuration records read by the above.

    Conventions of the embedding.

    - A Python [float] is a value of [pyfloat]: a rational, or one of the
      IEEE special values [+inf], [-inf], [nan].  Arithmetic on finite values
      is exact (binary rounding, overflow and the sign of zero are not
      modelled); the special values follow IEEE 754.
    - A Python [dict] with string keys is a [gmap string _]; [d.get(k)] is
      [d !! k]; [None] is the [None] of [option].
    - Code that can raise returns a [result]; [try]/[except] is a match on
      it.
    - Enumerations carried as strings in the source ("UP", "BUY", "Strong",
      ...) are inductive types.
    - Logging calls have no effect on any returned value and are left out. *)

From Stdlib Require Import QArith Qabs Qround Qminmax Lqa ZArith Lia.
From stdpp Require Import gmap strings list pretty.

Open Scope Q_scope.

(* ===================================================================== *)
(** * Python values *)
(* ===================================================================== *)

Module Py.

(** ** Floats *)

Inductive pyfloat : Type :=
| Fin (q : Q)
| PInf
| NInf
| NaN.

Definition Qlt_bool (a b : Q) : bool := negb (Qle_bool b a).

Definition of_Z (z : Z) : pyfloat := Fin (inject_Z z).
Definition of_nat (n : nat) : pyfloat := Fin (inject_Z (Z.of_nat n)).

Definition fneg (x : pyfloat) : pyfloat :=
  match x with
  | Fin q => Fin (- q)
  | PInf => NInf
  | NInf => PInf
  | NaN => NaN
  end.

Definition fabs (x : pyfloat) : pyfloat :=
  match x with
  | Fin q => Fin (Qabs q)
  | PInf | NInf => PInf
  | NaN => NaN
  end.

Definition fadd (x y : pyfloat) : pyfloat :=
  match x, y with
  | NaN, _ | _, NaN => NaN
  | Fin a, Fin b => Fin (a + b)
  | PInf, NInf | NInf, PInf => NaN
  | PInf, _ | _, PInf => PInf
  | NInf, _ | _, NInf => NInf
  end.

Definition fsub (x y : pyfloat) : pyfloat := fadd x (fneg y).

(** The infinity with the sign of [a], or [nan] when [a] is zero. *)
Definition inf_signed (a : Q) (positive : bool) : pyfloat :=
  match Qcompare a 0 with
  | Eq => NaN
  | Gt => if positive then PInf else NInf
  | Lt => if positive then NInf else PInf
  end.

Definition fmul (x y : pyfloat) : pyfloat :=
  match x, y with
  | NaN, _ | _, NaN => NaN
  | Fin a, Fin b => Fin (a * b)
  | Fin a, PInf | PInf, Fin a => inf_signed a true
  | Fin a, NInf | NInf, Fin a => inf_signed a false
  | PInf, PInf | NInf, NInf => PInf
  | PInf, NInf | NInf, PInf => NInf
  end.

(** IEEE division, as numpy and pandas perform it: a zero divisor gives an
    infinity or [nan], never an exception. *)
Definition fdiv (x y : pyfloat) : pyfloat :=
  match x, y with
  | NaN, _ | _, NaN => NaN
  | Fin a, Fin b => if Qeq_bool b 0 then inf_signed a true else Fin (a / b)
  | Fin _, (PInf | NInf) => Fin 0
  | (PInf | NInf), (PInf | NInf) => NaN
  | PInf, Fin b => if Qle_bool 0 b then PInf else NInf
  | NInf, Fin b => if Qle_bool 0 b then NInf else PInf
  end.

(** Comparisons; every comparison with [nan] is false. *)
Definition flt (x y : pyfloat) : bool :=
  match x, y with
  | NaN, _ | _, NaN => false
  | Fin a, Fin b => Qlt_bool a b
  | _, NInf => false
  | NInf, _ => true
  | PInf, _ => false
  | _, PInf => true
  end.

Definition fle (x y : pyfloat) : bool :=
  match x, y with
  | NaN, _ | _, NaN => false
  | Fin a, Fin b => Qle_bool a b
  | NInf, _ => true
  | _, PInf => true
  | _, NInf => false
  | PInf, _ => false
  end.

Definition fgt (x y : pyfloat) : bool := flt y x.
Definition fge (x y : pyfloat) : bool := fle y x.

Definition feq (x y : pyfloat) : bool :=
  match x, y with
  | Fin a, Fin b => Qeq_bool a b
  | PInf, PInf | NInf, NInf => true
  | _, _ => false
  end.

Definition isnan (x : pyfloat) : bool :=
  match x with NaN => true | _ => false end.

(** [bool(x)]: a float is falsy exactly when it is zero. *)
Definition truthy (x : pyfloat) : bool :=
  match x with
  | Fin q => negb (Qeq_bool q 0)
  | _ => true
  end.

(** [bool(o)] for an [Optional[float]]: [None] and zero are falsy. *)
Definition otruthy (o : option pyfloat) : bool :=
  match o with
  | Some x => truthy x
  | None => false
  end.

(** The builtins [min(a, b)] and [max(a, b)]: the first argument is kept
    unless the second is strictly smaller (larger). *)
Definition min2 (a b : pyfloat) : pyfloat := if flt b a then b else a.
Definition max2 (a b : pyfloat) : pyfloat := if flt a b then b else a.

(** Nearest integer, ties to the even one. *)
Definition round_half_even (q : Q) : Z :=
  let f := Qfloor q in
  match Qcompare (q - inject_Z f) (1 # 2) with
  | Lt => f
  | Gt => (f + 1)%Z
  | Eq => if Z.even f then f else (f + 1)%Z
  end.

Definition pow10 (d : nat) : Z := (10 ^ Z.of_nat d)%Z.

(** [round(x, d)]. *)
Definition round (x : pyfloat) (d : nat) : pyfloat :=
  match x with
  | Fin q => Fin (inject_Z (round_half_even (q * inject_Z (pow10 d))) / inject_Z (pow10 d))
  | _ => x
  end.

(** ** Exceptions *)

Inductive exn : Type :=
| ZeroDivisionError
| AttributeError (attr : string)
| TypeError
| IndexError
| OtherError (msg : string).

Inductive result (A : Type) : Type :=
| Ok (a : A)
| Raise (e : exn).

Arguments Ok {A} a.
Arguments Raise {A} e.

#[global] Instance result_ret : MRet result := @Ok.

#[global] Instance result_bind : MBind result := fun A B k r =>
  match r with
  | Ok a => k a
  | Raise e => Raise e
  end.

(** The operator [/] on Python floats raises on a zero divisor. *)
Definition truediv (x y : pyfloat) : result pyfloat :=
  match y with
  | Fin b => if Qeq_bool b 0 then Raise ZeroDivisionError else Ok (fdiv x y)
  | _ => Ok (fdiv x y)
  end.

(** ** String formatting *)

Fixpoint zeros (n : nat) : string :=
  match n with
  | O => ""
  | S n' => "0" +:+ zeros n'
  end.

(** [s] padded with zeros on the left to [width] characters. *)
Definition zero_pad (width : nat) (s : string) : string :=
  zeros (width - String.length s) +:+ s.

(** The format specifier [.<d>f]. *)
Definition format_f (d : nat) (x : pyfloat) : string :=
  match x with
  | Fin q =>
      let n := Z.abs (round_half_even (q * inject_Z (pow10 d))) in
      let sign := if Qlt_bool q 0 then "-" else "" in
      let whole := pretty (n / pow10 d)%Z in
      match d with
      | O => sign +:+ whole
      | _ => sign +:+ whole +:+ "." +:+ zero_pad d (pretty (n mod pow10 d)%Z)
      end
  | PInf => "inf"
  | NInf => "-inf"
  | NaN => "nan"
  end.

(** The format specifier [.<d>%]. *)
Definition format_pct (d : nat) (x : pyfloat) : string :=
  format_f d (fmul x (Fin 100)) +:+ "%".

End Py.

Import Py.

(* ===================================================================== *)
(** * Data model ([chart_extractor.py]) *)
(* ===================================================================== *)

(** One OHLCV sample.  The timestamp is the bar's time in seconds. *)
Record OHLCData : Type := mkOHLC {
  timestamp : Z;
  open : pyfloat;
  high : pyfloat;
  low : pyfloat;
  close : pyfloat;
  volume : pyfloat
}.

Record ChartData : Type := mkChartData {
  ohlc_data : list OHLCData;
  price_levels : gmap string pyfloat;
  timeframe : string;
  symbol : string;
  extraction_confidence : pyfloat
}.

(* ===================================================================== *)
(** * The data-quality validator *)
(* ===================================================================== *)

Module Validator.

Record ValidationResults : Type := mkValidation {
  is_valid : bool;
  warnings : list string;
  errors : list string;
  quality_score : pyfloat
}.

(** The loop over [range(1, len(ohlc_data))]: the relative gap between each
    bar's open and the previous bar's close.  The division is Python's and
    raises when the previous close is zero. *)
Fixpoint price_changes (prev : OHLCData) (rest : list OHLCData)
  : result (list pyfloat) :=
  match rest with
  | [] => Ok []
  | cur :: rest' =>
      change_pct ← truediv (fabs (fsub (open cur) (close prev))) (close prev);
      tl ← price_changes cur rest';
      Ok (change_pct :: tl)
  end.

Definition is_extreme (x : pyfloat) : bool := fgt x (Fin 0.20).

(** [low <= min(open, close) <= max(open, close) <= high]. *)
Definition consistent (ohlc : OHLCData) : bool :=
  fle (low ohlc) (min2 (open ohlc) (close ohlc))
  && fle (min2 (open ohlc) (close ohlc)) (max2 (open ohlc) (close ohlc))
  && fle (max2 (open ohlc) (close ohlc)) (high ohlc).

Definition validate_extracted_data (chart_data : ChartData)
  : result ValidationResults :=
  match ohlc_data chart_data with
  | [] =>
      Ok {| is_valid := false; warnings := [];
            errors := ["No OHLC data extracted"]; quality_score := Fin 0 |}
  | first :: rest =>
      changes ← price_changes first rest;
      let extreme_changes := List.filter is_extreme changes in
      let warnings1 :=
        if fgt (of_nat (length extreme_changes))
               (fmul (of_nat (length changes)) (Fin 0.1))
        then ["High number of extreme price changes detected: "
                +:+ pretty (length extreme_changes)]
        else [] in
      let inconsistent_candles :=
        length (List.filter (fun ohlc => negb (consistent ohlc))
                            (ohlc_data chart_data)) in
      let warnings2 :=
        if (0 <? inconsistent_candles)%nat
        then warnings1 ++ ["Found " +:+ pretty inconsistent_candles
                             +:+ " candles with inconsistent OHLC values"]
        else warnings1 in
      let base_score := Fin 1 in
      let base_score :=
        fsub base_score (fmul (of_nat (length extreme_changes)) (Fin 0.05)) in
      let base_score :=
        fsub base_score (fmul (of_nat inconsistent_candles) (Fin 0.1)) in
      let base_score := max2 (Fin 0) (min2 (Fin 1) base_score) in
      if flt base_score (Fin 0.5)
      then Ok {| is_valid := false; warnings := warnings2;
                 errors := ["Data quality score below acceptable threshold"];
                 quality_score := base_score |}
      else Ok {| is_valid := true; warnings := warnings2; errors := [];
                 quality_score := base_score |}
  end.

(** A bar whose four prices are all [p]. *)
Definition flat_bar (t : Z) (p : Q) : OHLCData :=
  mkOHLC t (Fin p) (Fin p) (Fin p) (Fin p) (Fin 1000).

(** Two flat, internally consistent bars with a 30% gap between them. *)
Definition gap_series : ChartData :=
  mkChartData [flat_bar 0 100; flat_bar 3600 130] ∅ "1h" "TEST" (Fin 1).

(** Three flat bars within 2% of one another. *)
Definition steady_series : ChartData :=
  mkChartData [flat_bar 0 100; flat_bar 3600 101; flat_bar 7200 99]
              ∅ "1h" "TEST" (Fin 1).

(** The relative gap between the open of [cur] and the close of [prev], as
    the validator computes it when [prev] closes away from zero. *)
Definition gap (prev cur : OHLCData) : pyfloat :=
  fdiv (fabs (fsub (open cur) (close prev))) (close prev).

(** Consecutive bars of [l] never gap by more than 20%, and no bar that
    has a successor closes at zero. *)
Definition calm (l : list OHLCData) : Prop :=
  forall (i : nat) (prev cur : OHLCData),
    l !! i = Some prev -> l !! S i = Some cur ->
    truthy (close prev) = true /\ is_extreme (gap prev cur) = false.

End Validator.

(* ===================================================================== *)
(** * Configuration ([config/settings.py]) *)
(* ===================================================================== *)

Record ModelConfig : Type := mkModelConfig {
  confidence_threshold : pyfloat;
  prediction_horizon : Z
}.

Record TechnicalAnalysisConfig : Type := mkTechConfig {
  indicators : gmap string bool;
  rsi_period : nat;
  macd_periods : nat * nat * nat;
  bb_period : nat;
  bb_std_dev : pyfloat;
  ma_periods : list nat
}.

Record TradingConfig : Type := mkTradingConfig {
  risk_tolerance : string;
  max_risk_per_trade : pyfloat;
  stop_loss_multiplier : pyfloat;
  take_profit_multiplier : pyfloat;
  signal_filters : gmap string bool
}.

(** The defaults of [settings.py]. *)
Definition default_model_config : ModelConfig :=
  mkModelConfig (Fin 0.7) 24.

Definition default_technical_config : TechnicalAnalysisConfig :=
  mkTechConfig
    (list_to_map [("rsi", true); ("macd", true); ("bollinger_bands", true);
                  ("moving_averages", true); ("volume", true);
                  ("stochastic", true); ("williams_r", true);
                  ("cci", false); ("atr", false)])
    14 (12, 26, 9)%nat 20 (Fin 2) [9; 21; 50; 200]%nat.

Definition default_trading_config : TradingConfig :=
  mkTradingConfig "medium" (Fin 0.02) (Fin 2) (Fin 3)
    (list_to_map [("trend_confirmation", true); ("volume_confirmation", true);
                  ("multiple_timeframe", false); ("momentum_filter", true)]).

(** [d.get(key, False)] on a dictionary of flags. *)
Definition flag (d : gmap string bool) (key : string) : bool :=
  default false (d !! key).

(* ===================================================================== *)
(** * The pandas operations used by the indicator engine *)
(* ===================================================================== *)

Module Pandas.

(** [s.diff()]: the first element is missing. *)
Fixpoint diff_from (prev : pyfloat) (s : list pyfloat) : list pyfloat :=
  match s with
  | [] => []
  | x :: s' => fsub x prev :: diff_from x s'
  end.

Definition diff (s : list pyfloat) : list pyfloat :=
  match s with
  | [] => []
  | x :: s' => NaN :: diff_from x s'
  end.

(** [s.where(cond, other)]: keep the values where [cond] holds. *)
Definition where_ (cond : pyfloat -> bool) (other : pyfloat)
  (s : list pyfloat) : list pyfloat :=
  map (fun x => if cond x then x else other) s.

(** The observations of a rolling window are its finite values: [nan] is
    missing, and pandas turns infinities into [nan] before rolling. *)
Definition observation (x : pyfloat) : option Q :=
  match x with
  | Fin q => Some q
  | _ => None
  end.

Definition Qsum (l : list Q) : Q := foldr Qplus 0 l.

(** The mean of one window; [min_periods] defaults to the window size. *)
Definition window_mean (window : nat) (w : list pyfloat) : pyfloat :=
  let obs := omap observation w in
  if (length obs <? window)%nat || (length obs =? 0)%nat
  then NaN
  else Fin (Qsum obs / inject_Z (Z.of_nat (length obs))).

(** The last [n] elements of [l]. *)
Definition last_n {A} (n : nat) (l : list A) : list A :=
  drop (length l - n) l.

(** [s.rolling(window=window).mean()]. *)
Definition rolling_mean (window : nat) (s : list pyfloat) : list pyfloat :=
  map (fun i => window_mean window (last_n window (take (S i) s)))
      (seq 0 (length s)).

(** [s.iloc[-1]]. *)
Definition iloc_last (s : list pyfloat) : result pyfloat :=
  match last s with
  | Some x => Ok x
  | None => Raise IndexError
  end.

End Pandas.

Import Pandas.

(* ===================================================================== *)
(** * The indicator engine ([ChartExtractor]) *)
(* ===================================================================== *)

Module ChartExtractor.

(** The dictionary under construction: a value may be [None] until the
    final comprehension drops those entries. *)
Abbreviation Indicators := (gmap string (option pyfloat)).

(** The body of the [try] block mutates [indicators] and may raise: what
    was written before an exception stays written. *)
Definition Try (A : Type) : Type := Indicators -> result A * Indicators.

#[global] Instance Try_ret : MRet Try := fun A a d => (Ok a, d).

#[global] Instance Try_bind : MBind Try := fun A B k m d =>
  match m d with
  | (Ok a, d') => k a d'
  | (Raise e, d') => (Raise e, d')
  end.

(** [indicators[key] = v]. *)
Definition setitem (key : string) (v : option pyfloat) : Try unit :=
  fun d => (Ok tt, <[key := v]> d).

(** [indicators[key]] read back as a float. *)
Definition getitem (key : string) : Try pyfloat :=
  fun d => match d !! key with
           | Some (Some x) => (Ok x, d)
           | Some None => (Raise TypeError, d)
           | None => (Raise (OtherError "KeyError"), d)
           end.

Definition lift {A} (r : result A) : Try A := fun d => (r, d).

Definition when (b : bool) (body : Try unit) : Try unit :=
  if b then body else mret tt.

Fixpoint for_each {A} (l : list A) (body : A -> Try unit) : Try unit :=
  match l with
  | [] => mret tt
  | x :: l' => body x ≫= fun _ => for_each l' body
  end.

(** [x[-1] if not np.isnan(x[-1]) else None] on an array from TA-Lib. *)
Definition last_or_none (x : list pyfloat) : result (option pyfloat) :=
  v ← iloc_last x;
  Ok (if isnan v then None else Some v).

(** TA-Lib is a third-party package; its four functions used here are
    parameters of the model.  [TALIB_AVAILABLE] holds when the import
    succeeded, that is when a [TaLib] is at hand. *)
Record TaLib : Type := mkTaLib {
  RSI : list pyfloat -> nat -> result (list pyfloat);
  MACD : list pyfloat -> nat -> nat -> nat
         -> result (list pyfloat * list pyfloat * list pyfloat);
  BBANDS : list pyfloat -> nat -> pyfloat -> pyfloat
           -> result (list pyfloat * list pyfloat * list pyfloat);
  STOCH : list pyfloat -> list pyfloat -> list pyfloat
          -> result (list pyfloat * list pyfloat)
}.

(** The fallbacks for MACD, Bollinger bands and the stochastic oscillator
    depend on exponential weighting and square roots; each returns a
    dictionary with a fixed set of keys, kept here as a tuple of optional
    values in the order of the source's dictionary literal. *)
Record ManualIndicators : Type := mkManual {
  _calculate_macd_manual :
    list pyfloat -> nat -> nat -> nat
    -> option pyfloat * option pyfloat * option pyfloat;
  _calculate_bollinger_bands_manual :
    list pyfloat -> nat -> pyfloat
    -> option pyfloat * option pyfloat * option pyfloat;
  _calculate_stochastic_manual :
    list pyfloat -> list pyfloat -> list pyfloat
    -> option pyfloat * option pyfloat
}.

(** The rolling mean gain and mean loss of [_calculate_rsi_manual]. *)
Definition rsi_gain (prices : list pyfloat) (period : nat) : list pyfloat :=
  let delta := diff prices in
  rolling_mean period (where_ (fun d => fgt d (Fin 0)) (Fin 0) delta).

Definition rsi_loss (prices : list pyfloat) (period : nat) : list pyfloat :=
  let delta := diff prices in
  rolling_mean period
    (map fneg (where_ (fun d => flt d (Fin 0)) (Fin 0) delta)).

Definition _calculate_rsi_manual (prices : list pyfloat) (period : nat)
  : option pyfloat :=
  let gain := rsi_gain prices period in
  let loss := rsi_loss prices period in
  let rs := zip_with fdiv gain loss in
  let rsi :=
    map (fun r => fsub (Fin 100) (fdiv (Fin 100) (fadd (Fin 1) r))) rs in
  match iloc_last rsi with
  | Ok v => if isnan v then None else Some (round v 2)
  | Raise _ => None
  end.

Section Engine.

Variable talib : option TaLib.
Variable manual : ManualIndicators.
Variable tech_config : TechnicalAnalysisConfig.

Definition TALIB_AVAILABLE : bool :=
  match talib with Some _ => true | None => false end.

Definition moving_averages (closes : list pyfloat) : Try unit :=
  when (flag (indicators tech_config) "moving_averages")
    (for_each (ma_periods tech_config) (fun period =>
       when (period <=? length closes)%nat
         (v ← lift (iloc_last (rolling_mean period closes));
          setitem ("MA_" +:+ pretty period) (Some v)))).

Definition rsi (closes : list pyfloat) : Try unit :=
  when (flag (indicators tech_config) "rsi"
        && (rsi_period tech_config <=? length closes)%nat)
    match talib with
    | Some ta =>
        rsi_values ← lift (RSI ta closes (rsi_period tech_config));
        v ← lift (last_or_none rsi_values);
        setitem "RSI" v
    | None =>
        setitem "RSI" (_calculate_rsi_manual closes (rsi_period tech_config))
    end.

Definition macd (closes : list pyfloat) : Try unit :=
  when (flag (indicators tech_config) "macd")
    (let '(fast, slow, signal) := macd_periods tech_config in
     when (slow <=? length closes)%nat
       match talib with
       | Some ta =>
           '(macd, macd_signal, macd_hist) ←
             lift (MACD ta closes fast slow signal);
           v ← lift (last_or_none macd); setitem "MACD" v;;
           v ← lift (last_or_none macd_signal); setitem "MACD_Signal" v;;
           v ← lift (last_or_none macd_hist); setitem "MACD_Histogram" v
       | None =>
           let '(m, s, h) :=
             _calculate_macd_manual manual closes fast slow signal in
           setitem "MACD" m;;
           setitem "MACD_Signal" s;;
           setitem "MACD_Histogram" h
       end).

Definition bollinger_bands (closes : list pyfloat) : Try unit :=
  when (flag (indicators tech_config) "bollinger_bands")
    (when (bb_period tech_config <=? length closes)%nat
       match talib with
       | Some ta =>
           '(upper, middle, lower) ←
             lift (BBANDS ta closes (bb_period tech_config)
                     (bb_std_dev tech_config) (bb_std_dev tech_config));
           v ← lift (last_or_none upper); setitem "BB_Upper" v;;
           v ← lift (last_or_none middle); setitem "BB_Middle" v;;
           v ← lift (last_or_none lower); setitem "BB_Lower" v
       | None =>
           let '(u, m, l) :=
             _calculate_bollinger_bands_manual manual closes
               (bb_period tech_config) (bb_std_dev tech_config) in
           setitem "BB_Upper" u;;
           setitem "BB_Middle" m;;
           setitem "BB_Lower" l
       end).

Definition volume_indicators (volumes : list pyfloat) : Try unit :=
  when (flag (indicators tech_config) "volume"
        && (10 <=? length volumes)%nat)
    (v ← lift (iloc_last (rolling_mean 10 volumes));
     setitem "Volume_MA" (Some v);;
     cur ← lift (iloc_last volumes);
     avg ← getitem "Volume_MA";
     setitem "Volume_Ratio" (Some (fdiv cur avg))).

Definition stochastic (highs lows closes : list pyfloat) : Try unit :=
  when (flag (indicators tech_config) "stochastic"
        && (14 <=? length closes)%nat)
    match talib with
    | Some ta =>
        '(slowk, slowd) ← lift (STOCH ta highs lows closes);
        v ← lift (last_or_none slowk); setitem "Stoch_K" v;;
        v ← lift (last_or_none slowd); setitem "Stoch_D" v
    | None =>
        let '(k, d) := _calculate_stochastic_manual manual highs lows closes in
        setitem "Stoch_K" k;;
        setitem "Stoch_D" d
    end.

(** The [try] block of [calculate_technical_indicators]. *)
Definition try_block (df : list OHLCData) : Try unit :=
  moving_averages (map close df);;
  rsi (map close df);;
  macd (map close df);;
  bollinger_bands (map close df);;
  volume_indicators (map volume df);;
  stochastic (map high df) (map low df) (map close df).

Definition calculate_technical_indicators (chart_data : ChartData)
  : gmap string pyfloat :=
  match ohlc_data chart_data with
  | [] => ∅
  | _ =>
      (* [except Exception]: log, keep what was written *)
      let indicators := snd (try_block (ohlc_data chart_data) ∅) in
      (* remove None values *)
      omap id indicators
  end.

End Engine.

(** Fifteen bars, each closing one above the previous one. *)
Definition rising_bar (i : nat) : OHLCData :=
  let p := Fin (inject_Z (Z.of_nat (100 + i))) in
  mkOHLC (Z.of_nat i * 3600) p p p p (Fin 1000).

Definition rising_series : ChartData :=
  mkChartData (map rising_bar (seq 0 15)) ∅ "1h" "TEST" (Fin 1).

Definition flat_series : ChartData :=
  mkChartData (map (fun i => Validator.flat_bar (Z.of_nat i * 3600) 100)
                   (seq 0 30)) ∅ "1h" "TEST" (Fin 1).

(** A configuration with the RSI family alone enabled. *)
Definition rsi_only_config : TechnicalAnalysisConfig :=
  mkTechConfig {["rsi" := true]} 14 (12, 26, 9)%nat 20 (Fin 2)
               [9; 21; 50; 200]%nat.

(** Fallbacks that report every value as not computable. *)
Definition no_manual : ManualIndicators :=
  mkManual (fun _ _ _ _ => (None, None, None))
           (fun _ _ _ => (None, None, None))
           (fun _ _ _ => (None, None)).

(** A step of the [try] block leaves the entry under [key] alone. *)
Definition preserves {A} (key : string) (m : Try A) : Prop :=
  forall d, snd (m d) !! key = d !! key.

(** A step of the [try] block never raises. *)
Definition succeeds (m : Try unit) : Prop :=
  forall d, fst (m d) = Ok tt.

End ChartExtractor.

(* ===================================================================== *)
(** * The prediction engine ([predictor.py]) *)
(* ===================================================================== *)

Module ChartPredictor.

Inductive PatternType : Type := bullish | bearish | neutral.

Record Pattern : Type := mkPattern {
  name : string;
  pattern_confidence : pyfloat;
  start_time : string;
  end_time : string;
  pattern_type : PatternType;
  description : string
}.

Inductive Direction : Type := UP | DOWN | SIDEWAYS.

Record Prediction : Type := mkPrediction {
  direction : Direction;
  confidence : pyfloat;
  target_price : option pyfloat;
  time_horizon : string;
  reasoning : string
}.

Inductive Action : Type := BUY | SELL | HOLD.

Inductive Strength : Type := Strong | Medium | Weak.

Record TradingSignal : Type := mkSignal {
  action : Action;
  strength : Strength;
  entry_price : option pyfloat;
  stop_loss : option pyfloat;
  take_profit : option pyfloat;
  risk_reward_ratio : pyfloat;
  signal_reasoning : string
}.

#[global] Instance Direction_eq_dec : EqDecision Direction.
Proof. solve_decision. Defined.

#[global] Instance Action_eq_dec : EqDecision Action.
Proof. solve_decision. Defined.

#[global] Instance Strength_eq_dec : EqDecision Strength.
Proof. solve_decision. Defined.

(** The order Strong > Medium > Weak. *)
Definition strength_rank (s : Strength) : nat :=
  match s with
  | Strong => 2
  | Medium => 1
  | Weak => 0
  end.

(** ** Pattern detection *)

(** The six detectors work on numpy arrays (linear regression, percentiles)
    and are parameters here; [detect_patterns] is their caller. *)
Record Detectors : Type := mkDetectors {
  _detect_double_bottom :
    list pyfloat -> list pyfloat -> list pyfloat -> ChartData
    -> result (list Pattern);
  _detect_double_top :
    list pyfloat -> list pyfloat -> list pyfloat -> ChartData
    -> result (list Pattern);
  _detect_head_shoulders :
    list pyfloat -> list pyfloat -> list pyfloat -> ChartData
    -> result (list Pattern);
  _detect_triangles :
    list pyfloat -> list pyfloat -> list pyfloat -> ChartData
    -> result (list Pattern);
  _detect_breakouts :
    list pyfloat -> list pyfloat -> list pyfloat -> list pyfloat -> ChartData
    -> result (list Pattern);
  _detect_trend_channels :
    list pyfloat -> ChartData -> result (list Pattern)
}.

Definition detect_patterns (det : Detectors) (chart_data : ChartData)
  : result (list Pattern) :=
  let patterns := [] in
  if bool_decide (ohlc_data chart_data = [])
     || (length (ohlc_data chart_data) <? 20)%nat
  then Ok patterns
  else
    let closes := map close (ohlc_data chart_data) in
    let highs := map high (ohlc_data chart_data) in
    let lows := map low (ohlc_data chart_data) in
    let volumes := map volume (ohlc_data chart_data) in
    double_bottom_patterns ← _detect_double_bottom det closes highs lows chart_data;
    double_top_patterns ← _detect_double_top det closes highs lows chart_data;
    head_shoulders_patterns ← _detect_head_shoulders det closes highs lows chart_data;
    triangle_patterns ← _detect_triangles det closes highs lows chart_data;
    breakout_patterns ← _detect_breakouts det closes highs lows volumes chart_data;
    trend_channel_patterns ← _detect_trend_channels det closes chart_data;
    Ok (patterns ++ double_bottom_patterns ++ double_top_patterns
          ++ head_shoulders_patterns ++ triangle_patterns
          ++ breakout_patterns ++ trend_channel_patterns).

(** ** Prediction *)

(** The two counters [bullish_signals] and [bearish_signals]. *)
Record Votes : Type := mkVotes {
  bullish_signals : Z;
  bearish_signals : Z
}.

Definition add_bullish (v : Votes) : Votes :=
  mkVotes (bullish_signals v + 1) (bearish_signals v).

Definition add_bearish (v : Votes) : Votes :=
  mkVotes (bullish_signals v) (bearish_signals v + 1).

(** RSI analysis. *)
Definition rsi_vote (technical_analysis : gmap string pyfloat) (v : Votes)
  : Votes :=
  match technical_analysis !! "RSI" with
  | Some rsi =>
      if truthy rsi then
        if flt rsi (Fin 30) then add_bullish v
        else if fgt rsi (Fin 70) then add_bearish v
        else v
      else v
  | None => v
  end.

(** MACD analysis: [if macd and macd_signal:]. *)
Definition macd_vote (technical_analysis : gmap string pyfloat) (v : Votes)
  : Votes :=
  let macd := technical_analysis !! "MACD" in
  let macd_signal := technical_analysis !! "MACD_Signal" in
  match macd, macd_signal with
  | Some m, Some s =>
      if truthy m && truthy s then
        if fgt m s then add_bullish v else add_bearish v
      else v
  | _, _ => v
  end.

(** [chart_data.price_levels.get('current_price', 150.0)]. *)
Definition current_price_of (chart_data : ChartData) : pyfloat :=
  default (Fin 150) (price_levels chart_data !! "current_price").

(** Moving average analysis. *)
Definition ma_vote (current_price : pyfloat)
  (technical_analysis : gmap string pyfloat) (v : Votes) : Votes :=
  let ma_9 := technical_analysis !! "MA_9" in
  let ma_21 := technical_analysis !! "MA_21" in
  match ma_9, ma_21 with
  | Some m9, Some m21 =>
      if truthy m9 && truthy m21 then
        if fgt m9 m21 && fgt current_price m9 then add_bullish v
        else if flt m9 m21 && flt current_price m9 then add_bearish v
        else v
      else v
  | _, _ => v
  end.

Definition count_votes (chart_data : ChartData)
  (technical_analysis : gmap string pyfloat) : Votes :=
  let v := mkVotes 0 0 in
  let v := rsi_vote technical_analysis v in
  let v := macd_vote technical_analysis v in
  ma_vote (current_price_of chart_data) technical_analysis v.

(** [round(target_price, 2) if target_price else None]. *)
Definition round_if (x : pyfloat) : option pyfloat :=
  if truthy x then Some (round x 2) else None.

Definition predict_price_movement (model_config : ModelConfig)
  (chart_data : ChartData) (technical_analysis : gmap string pyfloat)
  : Prediction :=
  let v := count_votes chart_data technical_analysis in
  let bullish_signals := bullish_signals v in
  let bearish_signals := bearish_signals v in
  let current_price := current_price_of chart_data in
  let time_horizon := pretty (prediction_horizon model_config) +:+ "h" in
  if (bearish_signals <? bullish_signals)%Z then
    let confidence :=
      min2 (Fin 0.9)
           (fadd (Fin 0.5)
                 (fmul (of_Z (bullish_signals - bearish_signals)) (Fin 0.15))) in
    let target_price := fmul current_price (Fin 1.05) in
    mkPrediction UP confidence (round_if target_price) time_horizon
      ("Bullish signals: " +:+ pretty bullish_signals
         +:+ ", Bearish signals: " +:+ pretty bearish_signals)
  else if (bullish_signals <? bearish_signals)%Z then
    let confidence :=
      min2 (Fin 0.9)
           (fadd (Fin 0.5)
                 (fmul (of_Z (bearish_signals - bullish_signals)) (Fin 0.15))) in
    let target_price := fmul current_price (Fin 0.95) in
    mkPrediction DOWN confidence (round_if target_price) time_horizon
      ("Bearish signals: " +:+ pretty bearish_signals
         +:+ ", Bullish signals: " +:+ pretty bullish_signals)
  else
    let confidence := Fin 0.5 in
    let target_price := current_price in
    mkPrediction SIDEWAYS confidence (round_if target_price) time_horizon
      "Equal bullish and bearish signals suggest sideways movement".

(** ** Trading signals *)

(** [f(x) if x else None] for an optional float [x]. *)
Definition if_truthy (x : option pyfloat) (f : pyfloat -> pyfloat)
  : option pyfloat :=
  match x with
  | Some v => if truthy v then Some (f v) else None
  | None => None
  end.

Definition _apply_trend_filter (signal : TradingSignal)
  (technical_analysis : gmap string pyfloat) : TradingSignal :=
  let ma_9 := technical_analysis !! "MA_9" in
  let ma_21 := technical_analysis !! "MA_21" in
  let ma_50 := technical_analysis !! "MA_50" in
  match ma_9, ma_21, ma_50 with
  | Some m9, Some m21, Some m50 =>
      if negb (truthy m9 && truthy m21 && truthy m50) then signal
      else
        match action signal with
        | BUY =>
            if negb (fgt m9 m21 && fgt m21 m50) then
              mkSignal (action signal) Weak (entry_price signal)
                (stop_loss signal) (take_profit signal)
                (risk_reward_ratio signal)
                (signal_reasoning signal +:+
                 " (Trend filter: Moving averages not aligned for uptrend)")
            else signal
        | SELL =>
            if negb (flt m9 m21 && flt m21 m50) then
              mkSignal (action signal) Weak (entry_price signal)
                (stop_loss signal) (take_profit signal)
                (risk_reward_ratio signal)
                (signal_reasoning signal +:+
                 " (Trend filter: Moving averages not aligned for downtrend)")
            else signal
        | HOLD => signal
        end
  | _, _, _ => signal
  end.

Definition _apply_volume_filter (signal : TradingSignal)
  (technical_analysis : gmap string pyfloat) : TradingSignal :=
  match technical_analysis !! "Volume_Ratio" with
  | Some volume_ratio =>
      if negb (truthy volume_ratio) then signal
      else
        match action signal with
        | BUY | SELL =>
            if flt volume_ratio (Fin 1.2) then
              let strength' :=
                match strength signal with
                | Strong => Medium
                | Medium => Weak
                | Weak => Weak
                end in
              mkSignal (action signal) strength' (entry_price signal)
                (stop_loss signal) (take_profit signal)
                (risk_reward_ratio signal)
                (signal_reasoning signal +:+
                 " (Volume filter: Volume ratio " +:+ format_f 1 volume_ratio
                 +:+ " below confirmation threshold)")
            else signal
        | HOLD => signal
        end
  | None => signal
  end.

(** The signal before the filters. *)
Definition base_signal (trading_config : TradingConfig)
  (prediction : Prediction) : result TradingSignal :=
  let risk := max_risk_per_trade trading_config in
  let stop_mult := stop_loss_multiplier trading_config in
  let profit_mult := take_profit_multiplier trading_config in
  if flt (confidence prediction) (Fin 0.6) then
    Ok (mkSignal HOLD Weak None None None (Fin 0)
          "Low prediction confidence suggests waiting for clearer signals")
  else
    match direction prediction with
    | UP =>
        let entry_price :=
          if_truthy (target_price prediction) (fun t => fmul t (Fin 0.98)) in
        let stop_loss :=
          if_truthy entry_price
            (fun e => fmul e (fsub (Fin 1) (fmul risk stop_mult))) in
        let take_profit :=
          if_truthy entry_price
            (fun e => fmul e (fadd (Fin 1) (fmul risk profit_mult))) in
        risk_reward_ratio ←
          match entry_price, stop_loss, take_profit with
          | Some e, Some s, Some t =>
              if truthy e && truthy s && truthy t
              then truediv (fsub t e) (fsub e s)
              else Ok (Fin 0)
          | _, _, _ => Ok (Fin 0)
          end;
        let strength :=
          if fgt (confidence prediction) (Fin 0.8) then Strong else Medium in
        Ok (mkSignal BUY strength
              (if_truthy entry_price (fun e => round e 2))
              (if_truthy stop_loss (fun s => round s 2))
              (if_truthy take_profit (fun t => round t 2))
              (round risk_reward_ratio 2)
              ("Bullish prediction with "
                 +:+ format_pct 1 (confidence prediction)
                 +:+ " confidence. " +:+ reasoning prediction))
    | DOWN =>
        let entry_price :=
          if_truthy (target_price prediction) (fun t => fmul t (Fin 1.02)) in
        let stop_loss :=
          if_truthy entry_price
            (fun e => fmul e (fadd (Fin 1) (fmul risk stop_mult))) in
        let take_profit :=
          if_truthy entry_price
            (fun e => fmul e (fsub (Fin 1) (fmul risk profit_mult))) in
        risk_reward_ratio ←
          match entry_price, stop_loss, take_profit with
          | Some e, Some s, Some t =>
              if truthy e && truthy s && truthy t
              then truediv (fsub e t) (fsub s e)
              else Ok (Fin 0)
          | _, _, _ => Ok (Fin 0)
          end;
        let strength :=
          if fgt (confidence prediction) (Fin 0.8) then Strong else Medium in
        Ok (mkSignal SELL strength
              (if_truthy entry_price (fun e => round e 2))
              (if_truthy stop_loss (fun s => round s 2))
              (if_truthy take_profit (fun t => round t 2))
              (round risk_reward_ratio 2)
              ("Bearish prediction with "
                 +:+ format_pct 1 (confidence prediction)
                 +:+ " confidence. " +:+ reasoning prediction))
    | SIDEWAYS =>
        Ok (mkSignal HOLD Medium None None None (Fin 0)
              ("Sideways movement predicted. " +:+ reasoning prediction))
    end.

Definition generate_trading_signals (trading_config : TradingConfig)
  (prediction : Prediction) (technical_analysis : gmap string pyfloat)
  : result TradingSignal :=
  signal ← base_signal trading_config prediction;
  let signal :=
    if flag (signal_filters trading_config) "trend_confirmation"
    then _apply_trend_filter signal technical_analysis
    else signal in
  let signal :=
    if flag (signal_filters trading_config) "volume_confirmation"
    then _apply_volume_filter signal technical_analysis
    else signal in
  Ok signal.

(** ** Backtesting *)

Record BacktestResults : Type := mkBacktest {
  accuracy : pyfloat;
  total_predictions : Z;
  correct_predictions : Z;
  up_accuracy : pyfloat;
  down_accuracy : pyfloat;
  precision : pyfloat;
  recall : pyfloat;
  profit_loss : pyfloat;
  total_trades : Z;
  winning_trades : Z;
  losing_trades : Z;
  win_rate : pyfloat;
  avg_win : pyfloat;
  avg_loss : pyfloat;
  max_drawdown : pyfloat;
  sharpe_ratio : pyfloat;
  backtest_period : string
}.

Definition _get_empty_backtest_results : BacktestResults :=
  mkBacktest (Fin 0) 0 0 (Fin 0) (Fin 0) (Fin 0) (Fin 0) (Fin 0) 0 0 0
             (Fin 0) (Fin 0) (Fin 0) (Fin 0) (Fin 0) "No data".

(** The values an attribute of a [Prediction] can hold. *)
Inductive pyvalue : Type :=
| VStr (s : string)
| VFloat (x : pyfloat)
| VInt (z : Z)
| VNone.

Definition direction_str (d : Direction) : string :=
  match d with
  | UP => "UP"
  | DOWN => "DOWN"
  | SIDEWAYS => "SIDEWAYS"
  end.

(** [prediction.<attr>]: the dataclass has the five fields of its
    declaration and nothing else. *)
Definition getattr (prediction : Prediction) (attr : string)
  : result pyvalue :=
  if bool_decide (attr = "direction")
  then Ok (VStr (direction_str (direction prediction)))
  else if bool_decide (attr = "confidence")
  then Ok (VFloat (confidence prediction))
  else if bool_decide (attr = "target_price")
  then Ok (match target_price prediction with
           | Some x => VFloat x
           | None => VNone
           end)
  else if bool_decide (attr = "time_horizon")
  then Ok (VStr (time_horizon prediction))
  else if bool_decide (attr = "reasoning")
  then Ok (VStr (reasoning prediction))
  else Raise (AttributeError attr).

(** An operand of integer arithmetic that ends up in [range] or in an
    index: anything but an [int] is a [TypeError]. *)
Definition as_int (v : pyvalue) : result Z :=
  match v with
  | VInt z => Ok z
  | _ => Raise TypeError
  end.

(** [a[k]] with Python's negative indices. *)
Definition array_getitem (a : list pyfloat) (k : Z) : result pyfloat :=
  let n := Z.of_nat (length a) in
  let k' := if (k <? 0)%Z then (n + k)%Z else k in
  if (k' <? 0)%Z then Raise IndexError
  else match a !! Z.to_nat k' with
       | Some x => Ok x
       | None => Raise IndexError
       end.

(** The parts of numpy that leave the rationals or the deterministic
    world: the standard deviation, the square root, and the successive
    draws of [np.random.uniform(0.5, 1.0)]. *)
Record Numpy : Type := mkNumpy {
  np_std : list pyfloat -> pyfloat;
  np_sqrt : pyfloat -> pyfloat;
  random_uniform : nat -> pyfloat
}.

Definition is_finite (x : pyfloat) : bool :=
  match x with Fin _ => true | _ => false end.

Definition fsum (l : list pyfloat) : pyfloat := foldl fadd (Fin 0) l.

Definition np_mean (l : list pyfloat) : pyfloat :=
  fdiv (fsum l) (of_nat (length l)).

(** [np.polyfit(range(10), y, 1)[0]]: the least-squares slope of [y]
    against 0..9; a [nan] or an infinity among the values makes the slope
    [nan]. *)
Definition polyfit_slope10 (y : list pyfloat) : result pyfloat :=
  if negb (length y =? 10)%nat then Raise TypeError
  else if negb (forallb is_finite y) then Ok NaN
  else
    let x := map of_nat (seq 0 10) in
    let n := Fin 10 in
    let sxy := fsum (zip_with fmul x y) in
    let sx := fsum x in
    let sy := fsum y in
    let sxx := fsum (zip_with fmul x x) in
    Ok (fdiv (fsub (fmul n sxy) (fmul sx sy))
             (fsub (fmul n sxx) (fmul sx sx))).

(** Returns the predicted direction and the number of random draws made
    so far. *)
Definition _simulate_prediction (np : Numpy) (historical_prices : list pyfloat)
  (draws : nat) : result Direction * nat :=
  if (length historical_prices <? 10)%nat then (Ok SIDEWAYS, draws)
  else
    match polyfit_slope10 (last_n 10 historical_prices) with
    | Raise e => (Raise e, draws)
    | Ok recent_trend =>
        let confidence_factor := random_uniform np draws in
        let d :=
          if fgt recent_trend (fmul (Fin 0.001) confidence_factor) then UP
          else if flt recent_trend (fmul (fneg (Fin 0.001)) confidence_factor)
          then DOWN
          else SIDEWAYS in
        (Ok d, S draws)
    end.

Record Trade : Type := mkTrade {
  pnl : pyfloat;
  return_pct : pyfloat;
  trade_entry_price : pyfloat;
  exit_price : pyfloat;
  predicted_direction : option Direction
}.

(** The prices come from a numpy array, so the divisions are numpy's. *)
Definition _simulate_trade (predicted_direction : Direction)
  (entry_price exit_price risk_per_trade : pyfloat) : Trade :=
  let position_size := fmul (Fin 1000) risk_per_trade in
  match predicted_direction with
  | UP =>
      let shares := fdiv position_size entry_price in
      mkTrade (fmul shares (fsub exit_price entry_price))
              (fdiv (fsub exit_price entry_price) entry_price)
              entry_price exit_price (Some predicted_direction)
  | DOWN =>
      let shares := fdiv position_size entry_price in
      mkTrade (fmul shares (fsub entry_price exit_price))
              (fdiv (fsub entry_price exit_price) entry_price)
              entry_price exit_price (Some predicted_direction)
  | SIDEWAYS => mkTrade (Fin 0) (Fin 0) entry_price exit_price None
  end.

Definition count {A} (f : A -> bool) (l : list A) : Z :=
  Z.of_nat (length (List.filter f l)).

(** [np.cumsum] and [np.maximum.accumulate]. *)
Fixpoint scan (f : pyfloat -> pyfloat -> pyfloat) (acc : pyfloat)
  (l : list pyfloat) : list pyfloat :=
  match l with
  | [] => []
  | x :: l' => f acc x :: scan f (f acc x) l'
  end.

Definition np_maximum (a b : pyfloat) : pyfloat :=
  if isnan a || isnan b then NaN else if flt a b then b else a.

Definition cumsum (l : list pyfloat) : list pyfloat := scan fadd (Fin 0) l.

Definition maximum_accumulate (l : list pyfloat) : list pyfloat :=
  match l with
  | [] => []
  | x :: l' => x :: scan np_maximum x l'
  end.

Definition np_max (l : list pyfloat) : pyfloat :=
  match l with
  | [] => NaN
  | x :: l' => foldl np_maximum x l'
  end.

Definition _calculate_backtest_metrics (np : Numpy)
  (predictions actuals : list Direction) (trades : list Trade)
  : BacktestResults :=
  let pairs := zip predictions actuals in
  let correct_predictions :=
    count (fun pa => bool_decide (fst pa = snd pa)) pairs in
  let total_predictions := Z.of_nat (length predictions) in
  let accuracy :=
    if (0 <? total_predictions)%Z
    then fdiv (of_Z correct_predictions) (of_Z total_predictions)
    else Fin 0 in
  let actuals_for d :=
    map snd (List.filter (fun pa => bool_decide (fst pa = d)) pairs) in
  let accuracy_for d :=
    match actuals_for d with
    | [] => Fin 0
    | acts => fdiv (of_Z (count (fun a => bool_decide (a = d)) acts))
                   (of_nat (length acts))
    end in
  let up_accuracy := accuracy_for UP in
  let down_accuracy := accuracy_for DOWN in
  let profitable_trades := List.filter (fun t => fgt (pnl t) (Fin 0)) trades in
  let losing_trades := List.filter (fun t => flt (pnl t) (Fin 0)) trades in
  let stats :=
    match trades with
    | [] => (Fin 0, Fin 0, Fin 0, Fin 0, Fin 0, Fin 0)
    | _ =>
        let total_pnl := fsum (map pnl trades) in
        let returns := map return_pct trades in
        let win_rate :=
          fdiv (of_nat (length profitable_trades)) (of_nat (length trades)) in
        let avg_win :=
          match profitable_trades with
          | [] => Fin 0
          | _ => np_mean (map pnl profitable_trades)
          end in
        let avg_loss :=
          match losing_trades with
          | [] => Fin 0
          | _ => np_mean (map pnl losing_trades)
          end in
        let cumulative_returns := cumsum returns in
        let running_max := maximum_accumulate cumulative_returns in
        let drawdowns := zip_with fsub running_max cumulative_returns in
        let max_drawdown :=
          if (0 <? length drawdowns)%nat then np_max drawdowns else Fin 0 in
        let sharpe_ratio :=
          if (1 <? length returns)%nat then
            if fgt (np_std np returns) (Fin 0)
            then fmul (fdiv (np_mean returns) (np_std np returns))
                      (np_sqrt np (Fin 252))
            else Fin 0
          else Fin 0 in
        (total_pnl, win_rate, avg_win, avg_loss, max_drawdown, sharpe_ratio)
    end in
  let '(total_pnl, win_rate, avg_win, avg_loss, max_drawdown, sharpe_ratio) :=
    stats in
  mkBacktest accuracy total_predictions correct_predictions
             up_accuracy down_accuracy
             win_rate accuracy total_pnl
             (Z.of_nat (length trades))
             (Z.of_nat (length profitable_trades))
             (Z.of_nat (length losing_trades))
             win_rate avg_win avg_loss max_drawdown sharpe_ratio
             (pretty total_predictions +:+ " predictions").

(** The lists filled by the simulation loop, and the random draws used. *)
Record Simulation : Type := mkSimulation {
  predictions_made : list Direction;
  actual_outcomes : list Direction;
  trades : list Trade;
  draws : nat
}.

(** One iteration of the loop; its body sits in a [try] whose handler
    moves on to the next index. *)
Definition simulate_at (np : Numpy) (trading_config : TradingConfig)
  (prices : list pyfloat) (prediction : Prediction) (i : Z)
  (st : Simulation) : Simulation :=
  let historical_prices := take (Z.to_nat i) prices in
  let '(predicted, draws') :=
    _simulate_prediction np historical_prices (draws st) in
  let skipped :=
    mkSimulation (predictions_made st) (actual_outcomes st) (trades st)
                 draws' in
  let body : result Simulation :=
    predicted_direction ← predicted;
    current_price ← array_getitem prices i;
    horizon ← getattr prediction "time_horizon_hours" ≫= as_int;
    future_price ←
      array_getitem prices (Z.min (i + horizon) (Z.of_nat (length prices) - 1));
    let actual_direction :=
      if fgt future_price current_price then UP
      else if flt future_price current_price then DOWN
      else SIDEWAYS in
    let trades' :=
      if bool_decide (predicted_direction ≠ SIDEWAYS)
      then trades st ++ [_simulate_trade predicted_direction current_price
                           future_price (max_risk_per_trade trading_config)]
      else trades st in
    Ok (mkSimulation (predictions_made st ++ [predicted_direction])
                     (actual_outcomes st ++ [actual_direction])
                     trades' draws') in
  match body with
  | Ok st' => st'
  | Raise _ => skipped
  end.

Definition _run_backtest_simulation (np : Numpy)
  (trading_config : TradingConfig) (prices : list pyfloat)
  (timestamps : list Z) (prediction : Prediction)
  : result BacktestResults :=
  let lookback_window := 20%Z in
  let min_data_points := 30%nat in
  if (length prices <? min_data_points)%nat
  then Ok _get_empty_backtest_results
  else
    (* the bounds of [range] are evaluated before the loop is entered *)
    horizon ← getattr prediction "time_horizon_hours" ≫= as_int;
    let stop := (Z.of_nat (length prices) - horizon)%Z in
    let st :=
      foldl (fun st i => simulate_at np trading_config prices prediction i st)
            (mkSimulation [] [] [] 0)
            (seqZ lookback_window (stop - lookback_window)) in
    match predictions_made st with
    | [] => Ok _get_empty_backtest_results
    | _ => Ok (_calculate_backtest_metrics np (predictions_made st)
                 (actual_outcomes st) (trades st))
    end.

(** [actual_data] is a list of bars or a list of prices. *)
Inductive ActualData : Type :=
| Bars (data : list OHLCData)
| Prices (data : list pyfloat).

Definition data_length (d : ActualData) : nat :=
  match d with
  | Bars l => length l
  | Prices l => length l
  end.

Definition backtest_prediction (np : Numpy) (trading_config : TradingConfig)
  (prediction : Prediction) (actual_data : option ActualData)
  : BacktestResults :=
  match actual_data with
  | None => _get_empty_backtest_results
  | Some data =>
      if (data_length data <? 10)%nat then _get_empty_backtest_results
      else
        let '(prices, timestamps) :=
          match data with
          | Bars l => (map close l, map timestamp l)
          | Prices l => (l, seqZ 0 (Z.of_nat (length l)))
          end in
        match _run_backtest_simulation np trading_config prices timestamps
                prediction with
        | Ok results => results
        | Raise _ => _get_empty_backtest_results
        end
  end.

(** A numpy stand-in for closed examples: constant draws of 0.75. *)
Definition fixed_numpy : Numpy :=
  mkNumpy (fun _ => Fin 1) (fun x => x) (fun _ => Fin 0.75).

Definition up_prediction : Prediction :=
  mkPrediction UP (Fin 0.65) (Some (Fin 105)) "24h"
               "Bullish signals: 1, Bearish signals: 0".

(** Sixty prices rising by one from 100. *)
Definition rising_prices : list pyfloat :=
  map (fun i => of_nat (100 + i)) (seq 0 60).

(** An indicator map whose MACD is exactly zero, above its signal line. *)
Definition zero_macd_analysis : gmap string pyfloat :=
  {["MACD" := Fin 0; "MACD_Signal" := Fin (-0.5)]}.

(** A series that carries no price levels. *)
Definition no_levels_series : ChartData :=
  mkChartData [mkOHLC 0 (Fin 100) (Fin 101) (Fin 99) (Fin 100) (Fin 1000)]
              ∅ "1h" "TEST" (Fin 1).

(** Detectors that all fail. *)
Definition failing_detectors : Detectors :=
  mkDetectors (fun _ _ _ _ => Raise (OtherError "LinAlgError"))
              (fun _ _ _ _ => Raise (OtherError "LinAlgError"))
              (fun _ _ _ _ => Raise (OtherError "LinAlgError"))
              (fun _ _ _ _ => Raise (OtherError "LinAlgError"))
              (fun _ _ _ _ _ => Raise (OtherError "LinAlgError"))
              (fun _ _ => Raise (OtherError "LinAlgError")).

(** The target price expected from a current price of 150.0. *)
Definition default_target (d : Direction) : pyfloat :=
  match d with
  | UP => Fin 157.5
  | DOWN => Fin 142.5
  | SIDEWAYS => Fin 150
  end.

(** [after] is [before] with at most a lower strength and a longer
    reasoning: what a confirmation filter may do to a signal. *)
Definition downgrade_of (before after : TradingSignal) : Prop :=
  action after = action before
  /\ entry_price after = entry_price before
  /\ stop_loss after = stop_loss before
  /\ take_profit after = take_profit before
  /\ risk_reward_ratio after = risk_reward_ratio before
  /\ (strength_rank (strength after) <= strength_rank (strength before))%nat
  /\ exists appended,
       signal_reasoning after = signal_reasoning before +:+ appended.

(** A Strong buy signal, as the generator builds it from an UP prediction
    with confidence 0.85 and target 110.0 under the default risk
    settings. *)
Definition strong_buy : TradingSignal :=
  mkSignal BUY Strong (Some (Fin 107.8)) (Some (Fin 103.49))
           (Some (Fin 114.27)) (Fin 1.5)
           "Bullish prediction with 85.0% confidence.".

(** Moving averages out of line for an uptrend, on thin volume. *)
Definition weak_market : gmap string pyfloat :=
  {["MA_9" := Fin 100; "MA_21" := Fin 101; "MA_50" := Fin 102;
    "Volume_Ratio" := Fin 0.8]}.

Definition low_confidence_prediction : Prediction :=
  mkPrediction UP (Fin 0.5) (Some (Fin 105)) "24h"
               "Bullish signals: 1, Bearish signals: 0".

End ChartPredictor.

(* ===================================================================== *)
(** * Sample data *)
(* ===================================================================== *)

Module Samples.

Import Validator ChartExtractor ChartPredictor.

(** A bar whose high lies below its low. *)
Definition crossed_bar (i : nat) : OHLCData :=
  mkOHLC (Z.of_nat i * 3600) (Fin 100) (Fin 99) (Fin 101) (Fin 100)
         (Fin 1000).

Definition crossed_series : ChartData :=
  mkChartData (map crossed_bar (seq 0 6)) ∅ "1h" "TEST" (Fin 1).

(** Twelve flat bars without volume, as for an index or a currency
    pair. *)
Definition zero_volume_bar (i : nat) : OHLCData :=
  mkOHLC (Z.of_nat i * 3600) (Fin 100) (Fin 100) (Fin 100) (Fin 100) (Fin 0).

Definition zero_volume_series : ChartData :=
  mkChartData (map zero_volume_bar (seq 0 12)) ∅ "1h" "TEST" (Fin 1).

(** The key under which the moving average of a period is stored. *)
Definition ma_key (period : nat) : string := "MA_" +:+ pretty period.

(** A float that is not a negative number. *)
Definition fin_nonneg (x : pyfloat) : Prop :=
  match x with
  | Fin q => 0 <= q
  | _ => True
  end.

(** Fifteen prices that gain 4 and lose 2 in turn. *)
Definition zigzag_prices : list pyfloat :=
  map (fun i => Fin (inject_Z (if Nat.even i
                               then 100 + Z.of_nat i
                               else 103 + Z.of_nat i)))
      (seq 0 15).

(** [after] is [before] with at most one more vote. *)
Definition one_more_vote (before after : Votes) : Prop :=
  after = before \/ after = add_bullish before \/ after = add_bearish before.

(** The action that goes with a direction. *)
Definition action_for (d : Direction) : Action :=
  match d with
  | UP => BUY
  | DOWN => SELL
  | SIDEWAYS => HOLD
  end.

(** Moving averages in line for an uptrend below 150, and nothing else. *)
Definition ma_uptrend : gmap string pyfloat :=
  {["MA_9" := Fin 140; "MA_21" := Fin 130]}.

(** The series without levels, given a current price of 135. *)
Definition priced_series : ChartData :=
  mkChartData (ohlc_data no_levels_series) {["current_price" := Fin 135]}
              "1h" "TEST" (Fin 1).

(** An indicator map on which all three votes are bullish. *)
Definition bullish_analysis : gmap string pyfloat :=
  {["RSI" := Fin 25; "MACD" := Fin 1.2; "MACD_Signal" := Fin 0.8;
    "MA_9" := Fin 140; "MA_21" := Fin 130]}.

End Samples.

(* ===================================================================== *)
(** * The fallback indicators of [chart_extractor.py] *)
(* ===================================================================== *)

(** The MACD and stochastic fallbacks, which the indicator engine above
    takes as parameters, written out.  (The Bollinger fallback needs a
    square root and stays a parameter.) *)
Module Manual.

(** [s.rolling(window=window).<agg>()] for an aggregate of one window. *)
Definition rolling (agg : nat -> list pyfloat -> pyfloat) (window : nat)
  (s : list pyfloat) : list pyfloat :=
  map (fun i => agg window (last_n window (take (S i) s)))
      (seq 0 (length s)).

Definition Qmin_list (x : Q) (l : list Q) : Q := foldl Qmin x l.
Definition Qmax_list (x : Q) (l : list Q) : Q := foldl Qmax x l.

(** The minimum and the maximum of one window; as for the mean, a window
    with fewer observations than its size gives [nan]. *)
Definition window_min (window : nat) (w : list pyfloat) : pyfloat :=
  match omap observation w with
  | [] => NaN
  | x :: obs =>
      if (length (x :: obs) <? window)%nat then NaN
      else Fin (Qmin_list x obs)
  end.

Definition window_max (window : nat) (w : list pyfloat) : pyfloat :=
  match omap observation w with
  | [] => NaN
  | x :: obs =>
      if (length (x :: obs) <? window)%nat then NaN
      else Fin (Qmax_list x obs)
  end.

(** The loop of pandas' exponentially weighted mean ([adjust=True],
    [ignore_na=False]): [weighted] is the running mean and [old_wt] the
    weight it carries. *)
Fixpoint ewm_scan (alpha : Q) (weighted old_wt : pyfloat)
  (vals : list pyfloat) : list pyfloat :=
  match vals with
  | [] => []
  | cur :: vals' =>
      let is_observation := negb (isnan cur) in
      let '(weighted', old_wt') :=
        if negb (isnan weighted) then
          let old_wt := fmul old_wt (Fin (1 - alpha)) in
          if is_observation then
            let weighted :=
              if negb (feq weighted cur)
              then fdiv (fadd (fmul old_wt weighted) (fmul (Fin 1) cur))
                        (fadd old_wt (Fin 1))
              else weighted in
            (weighted, fadd old_wt (Fin 1))
          else (weighted, old_wt)
        else if is_observation then (cur, old_wt)
        else (weighted, old_wt) in
      weighted' :: ewm_scan alpha weighted' old_wt' vals'
  end.

(** Pandas turns infinities into missing values before it applies a
    window function. *)
Definition prep_value (x : pyfloat) : pyfloat :=
  match x with
  | Fin q => Fin q
  | _ => NaN
  end.

(** [s.ewm(span=span).mean()]; a span below 1 is a [ValueError]. *)
Definition ewm_mean (span : nat) (s : list pyfloat)
  : result (list pyfloat) :=
  if (span <? 1)%nat then Raise (OtherError "ValueError")
  else
    let alpha := 2 / (inject_Z (Z.of_nat span) + 1) in
    match map prep_value s with
    | [] => Ok []
    | x :: vals => Ok (x :: ewm_scan alpha x (Fin 1) vals)
    end.

(** [round(x, d) if not pd.isna(x) else None]. *)
Definition round_or_none (x : pyfloat) (d : nat) : option pyfloat :=
  if isnan x then None else Some (round x d).

Definition _calculate_macd_manual (prices : list pyfloat)
  (fast slow signal : nat)
  : option pyfloat * option pyfloat * option pyfloat :=
  let body : result (option pyfloat * option pyfloat * option pyfloat) :=
    ema_fast ← ewm_mean fast prices;
    ema_slow ← ewm_mean slow prices;
    let macd_line := zip_with fsub ema_fast ema_slow in
    signal_line ← ewm_mean signal macd_line;
    let histogram := zip_with fsub macd_line signal_line in
    m ← iloc_last macd_line;
    s ← iloc_last signal_line;
    h ← iloc_last histogram;
    Ok (round_or_none m 4, round_or_none s 4, round_or_none h 4) in
  match body with
  | Ok r => r
  | Raise _ => (None, None, None)
  end.

Definition _calculate_stochastic_manual (high low close : list pyfloat)
  : option pyfloat * option pyfloat :=
  let k_period := 14%nat in
  let d_period := 3%nat in
  let lowest_low := rolling window_min k_period low in
  let highest_high := rolling window_max k_period high in
  let k_percent :=
    map (fmul (Fin 100))
        (zip_with fdiv (zip_with fsub close lowest_low)
                       (zip_with fsub highest_high lowest_low)) in
  let d_percent := rolling window_mean d_period k_percent in
  let body : result (option pyfloat * option pyfloat) :=
    k ← iloc_last k_percent;
    d ← iloc_last d_percent;
    Ok (round_or_none k 2, round_or_none d 2) in
  match body with
  | Ok r => r
  | Raise _ => (None, None)
  end.

(** The fallbacks put together, for a given Bollinger fallback. *)
Definition indicators
  (bollinger : list pyfloat -> nat -> pyfloat
               -> option pyfloat * option pyfloat * option pyfloat)
  : ChartExtractor.ManualIndicators :=
  ChartExtractor.mkManual _calculate_macd_manual bollinger
                          _calculate_stochastic_manual.

(** A float that is a number: neither [nan] nor an infinity. *)
Definition is_finite (x : pyfloat) : bool :=
  match x with
  | Fin _ => true
  | _ => false
  end.

(** Thirty flat bars at 100 and twenty bars swinging between 95 and 105. *)
Definition flat_prices : list pyfloat := replicate 30 (Fin 100).

Definition swing_highs : list pyfloat :=
  map (fun i => Fin (inject_Z (if Nat.even i then 103 else 105))) (seq 0 20).

Definition swing_lows : list pyfloat :=
  map (fun i => Fin (inject_Z (if Nat.even i then 95 else 97))) (seq 0 20).

Definition swing_closes : list pyfloat :=
  map (fun i => Fin (inject_Z (if Nat.even i then 96 else 104))) (seq 0 20).

End Manual.

(* ===================================================================== *)
(** * The reversal-pattern detectors ([predictor.py]) *)
(* ===================================================================== *)

Module Patterns.

Import ChartPredictor.

Section Detectors.

(** [str(timestamp.date())]: the calendar date of a bar, as text. *)
Variable date_str : Z -> string.

Definition window : nat := 5.

(** [a[i]], for an index inside the array: the loops below keep [i - j]
    and [i + j] inside it. *)
Definition item (a : list pyfloat) (i : nat) : pyfloat :=
  default NaN (a !! i).

(** [a[start:stop]]. *)
Definition slice (a : list pyfloat) (start stop : nat) : list pyfloat :=
  take (stop - start) (drop start a).

(** The builtins [max] and [min] on a sequence: the first item is kept
    unless a later one compares strictly above (below) it; an empty
    sequence is a [ValueError]. *)
Definition py_max (l : list pyfloat) : result pyfloat :=
  match l with
  | [] => Raise (OtherError "ValueError")
  | x :: l' => Ok (foldl max2 x l')
  end.

Definition py_min (l : list pyfloat) : result pyfloat :=
  match l with
  | [] => Raise (OtherError "ValueError")
  | x :: l' => Ok (foldl min2 x l')
  end.

(** [str(chart_data.ohlc_data[i].timestamp.date())]. *)
Definition bar_date (chart_data : ChartData) (i : nat) : result string :=
  match ohlc_data chart_data !! i with
  | Some bar => Ok (date_str (timestamp bar))
  | None => Raise IndexError
  end.

(** The local minima: [(i, lows[i])] for the [i] in
    [range(window, len(lows) - window)] at which no low of the five bars
    before and the five bars after is smaller. *)
Definition local_mins (lows : list pyfloat) : list (nat * pyfloat) :=
  map (fun i => (i, item lows i))
    (List.filter
       (fun i =>
          forallb (fun j => fle (item lows i) (item lows (i - j)))
                  (seq 1 window)
          && forallb (fun j => fle (item lows i) (item lows (i + j)))
                     (seq 1 window))
       (seq window (length lows - window - window))).

Definition local_maxs (highs : list pyfloat) : list (nat * pyfloat) :=
  map (fun i => (i, item highs i))
    (List.filter
       (fun i =>
          forallb (fun j => fge (item highs i) (item highs (i - j)))
                  (seq 1 window)
          && forallb (fun j => fge (item highs i) (item highs (i + j)))
                     (seq 1 window))
       (seq window (length highs - window - window))).

(** The inner loop of [_detect_double_bottom], for the first bottom
    [local_mins[i]] and the later bottoms [local_mins[j]], [j = i + gap]
    onwards: the first pair that qualifies gives a pattern and ends the
    loop. *)
Fixpoint double_bottom_second (highs : list pyfloat) (chart_data : ChartData)
  (first : nat * pyfloat) (gap : nat) (later : list (nat * pyfloat))
  : result (option Pattern) :=
  match later with
  | [] => Ok None
  | second :: later' =>
      let '(idx1, low1) := first in
      let '(idx2, low2) := second in
      if flt (fdiv (fabs (fsub low1 low2)) low1) (Fin 0.02) then
        between_high ← py_max (slice highs idx1 idx2);
        if fgt (fdiv (fsub between_high (min2 low1 low2)) (min2 low1 low2))
               (Fin 0.05)
        then
          let confidence :=
            min2 (Fin 0.85)
                 (fadd (Fin 0.5)
                       (fmul (Fin (inject_Z (Z.of_nat gap))) (Fin 0.05))) in
          start ← bar_date chart_data idx1;
          stop ← bar_date chart_data idx2;
          Ok (Some (mkPattern "Double Bottom" confidence start stop bullish
                      ("Double bottom at $" +:+ format_f 2 low1
                       +:+ " and $" +:+ format_f 2 low2)))
        else double_bottom_second highs chart_data first (S gap) later'
      else double_bottom_second highs chart_data first (S gap) later'
  end.

(** The outer loop: every bottom but the last one is tried as the first
    bottom of a pair. *)
Fixpoint double_bottom_pairs (highs : list pyfloat) (chart_data : ChartData)
  (mins : list (nat * pyfloat)) : result (list Pattern) :=
  match mins with
  | [] => Ok []
  | first :: later =>
      found ← double_bottom_second highs chart_data first 1 later;
      patterns ← double_bottom_pairs highs chart_data later;
      Ok (option_list found ++ patterns)
  end.

Definition _detect_double_bottom (closes highs lows : list pyfloat)
  (chart_data : ChartData) : result (list Pattern) :=
  if (length lows <? 20)%nat then Ok []
  else double_bottom_pairs highs chart_data (local_mins lows).

Fixpoint double_top_second (lows : list pyfloat) (chart_data : ChartData)
  (first : nat * pyfloat) (gap : nat) (later : list (nat * pyfloat))
  : result (option Pattern) :=
  match later with
  | [] => Ok None
  | second :: later' =>
      let '(idx1, high1) := first in
      let '(idx2, high2) := second in
      if flt (fdiv (fabs (fsub high1 high2)) high1) (Fin 0.02) then
        between_low ← py_min (slice lows idx1 idx2);
        if fgt (fdiv (fsub (min2 high1 high2) between_low) between_low)
               (Fin 0.05)
        then
          let confidence :=
            min2 (Fin 0.85)
                 (fadd (Fin 0.5)
                       (fmul (Fin (inject_Z (Z.of_nat gap))) (Fin 0.05))) in
          start ← bar_date chart_data idx1;
          stop ← bar_date chart_data idx2;
          Ok (Some (mkPattern "Double Top" confidence start stop bearish
                      ("Double top at $" +:+ format_f 2 high1
                       +:+ " and $" +:+ format_f 2 high2)))
        else double_top_second lows chart_data first (S gap) later'
      else double_top_second lows chart_data first (S gap) later'
  end.

Fixpoint double_top_pairs (lows : list pyfloat) (chart_data : ChartData)
  (maxs : list (nat * pyfloat)) : result (list Pattern) :=
  match maxs with
  | [] => Ok []
  | first :: later =>
      found ← double_top_second lows chart_data first 1 later;
      patterns ← double_top_pairs lows chart_data later;
      Ok (option_list found ++ patterns)
  end.

Definition _detect_double_top (closes highs lows : list pyfloat)
  (chart_data : ChartData) : result (list Pattern) :=
  if (length highs <? 20)%nat then Ok []
  else double_top_pairs lows chart_data (local_maxs highs).

(** One candidate of [_detect_head_shoulders]: three consecutive peaks. *)
Definition head_shoulders_candidate (chart_data : ChartData)
  (left_shoulder head right_shoulder : nat * pyfloat)
  : result (list Pattern) :=
  let left_height := snd left_shoulder in
  let head_height := snd head in
  let right_height := snd right_shoulder in
  if fgt head_height (fmul left_height (Fin 1.02))
     && fgt head_height (fmul right_height (Fin 1.02))
     && flt (fdiv (fabs (fsub left_height right_height)) left_height)
            (Fin 0.08)
  then
    let spacing1 := (Z.of_nat (fst head) - Z.of_nat (fst left_shoulder))%Z in
    let spacing2 := (Z.of_nat (fst right_shoulder) - Z.of_nat (fst head))%Z in
    if (3 <? spacing1)%Z && (3 <? spacing2)%Z then
      let confidence :=
        min2 (Fin 0.8)
             (fadd (Fin 0.6)
                   (fmul (fsub (fdiv head_height
                                     (max2 left_height right_height))
                               (Fin 1))
                         (Fin 5))) in
      start ← bar_date chart_data (fst left_shoulder);
      stop ← bar_date chart_data (fst right_shoulder);
      Ok [mkPattern "Head and Shoulders" confidence start stop bearish
            ("Head at $" +:+ format_f 2 head_height
             +:+ ", shoulders at $" +:+ format_f 2 left_height
             +:+ " and $" +:+ format_f 2 right_height)]
    else Ok []
  else Ok [].

(** The loop over [range(len(local_maxs) - 2)]. *)
Fixpoint head_shoulders_scan (chart_data : ChartData)
  (maxs : list (nat * pyfloat)) : result (list Pattern) :=
  match maxs with
  | [] => Ok []
  | left_shoulder :: rest =>
      match rest with
      | head :: right_shoulder :: _ =>
          found ← head_shoulders_candidate chart_data left_shoulder head
                    right_shoulder;
          patterns ← head_shoulders_scan chart_data rest;
          Ok (found ++ patterns)
      | _ => Ok []
      end
  end.

Definition _detect_head_shoulders (closes highs lows : list pyfloat)
  (chart_data : ChartData) : result (list Pattern) :=
  if (length highs <? 25)%nat then Ok []
  else
    let local_maxs := local_maxs highs in
    if (3 <=? length local_maxs)%nat
    then head_shoulders_scan chart_data local_maxs
    else Ok [].

End Detectors.

(** A series that rises, or falls, from every bar to the next. *)
Fixpoint rising (a : list pyfloat) : bool :=
  match a with
  | [] => true
  | x :: a' =>
      match a' with
      | [] => true
      | y :: _ => flt x y && rising a'
      end
  end.

Fixpoint falling (a : list pyfloat) : bool :=
  match a with
  | [] => true
  | x :: a' =>
      match a' with
      | [] => true
      | y :: _ => flt y x && falling a'
      end
  end.

(** Thirty bars that rise by one from bar to bar. *)
Definition rising_lows : list pyfloat :=
  map (fun i => Fin (inject_Z (100 + Z.of_nat i))) (seq 0 30).

Definition rising_highs : list pyfloat :=
  map (fun x => fadd x (Fin 2)) rising_lows.

Definition rising_bars : ChartData :=
  mkChartData
    (map (fun i => mkOHLC (Z.of_nat i * 86400) (item rising_lows i)
                     (item rising_highs i) (item rising_lows i)
                     (item rising_highs i) (Fin 1000))
         (seq 0 30))
    ∅ "1d" "TEST" (Fin 1).

(** A float that is a positive number. *)
Definition is_price (x : pyfloat) : bool :=
  match x with
  | Fin q => Qlt_bool 0 q
  | _ => false
  end.

(** Twenty-five bars: lows that bottom at 100 on bars 6 and 18 with a
    peak of 112 between them, highs one above the lows. *)
Definition w_lows : list pyfloat :=
  map (fun i => Fin (inject_Z (100 + 2 * Z.abs (Z.of_nat i
                                                 - (if (i <=? 12)%nat
                                                    then 6 else 18)))))
      (seq 0 25).

Definition w_highs : list pyfloat := map (fun x => fadd x (Fin 1)) w_lows.

Definition w_bar (i : nat) : OHLCData :=
  mkOHLC (Z.of_nat i * 86400) (item w_lows i) (item w_highs i)
         (item w_lows i) (item w_highs i) (Fin 1000).

Definition w_series : ChartData :=
  mkChartData (map w_bar (seq 0 25)) ∅ "1d" "TEST" (Fin 1).

(** The same shape upside down: highs that top at 120 on bars 6 and 18. *)
Definition m_highs : list pyfloat :=
  map (fun i => Fin (inject_Z (120 - 2 * Z.abs (Z.of_nat i
                                                 - (if (i <=? 12)%nat
                                                    then 6 else 18)))))
      (seq 0 25).

Definition m_lows : list pyfloat := map (fun x => fsub x (Fin 1)) m_highs.

Definition m_bar (i : nat) : OHLCData :=
  mkOHLC (Z.of_nat i * 86400) (item m_highs i) (item m_highs i)
         (item m_lows i) (item m_lows i) (Fin 1000).

Definition m_series : ChartData :=
  mkChartData (map m_bar (seq 0 25)) ∅ "1d" "TEST" (Fin 1).

(** Thirty-one bars with peaks of 110, 120 and 111 on bars 7, 15 and
    23. *)
Definition hs_highs : list pyfloat :=
  map (fun i =>
         Fin (inject_Z
                (if (i <=? 11)%nat then 110 - 2 * Z.abs (Z.of_nat i - 7)
                 else if (i <=? 19)%nat
                      then 120 - 4 * Z.abs (Z.of_nat i - 15)
                      else 111 - 2 * Z.abs (Z.of_nat i - 23))))
      (seq 0 31).

Definition hs_bar (i : nat) : OHLCData :=
  mkOHLC (Z.of_nat i * 86400) (item hs_highs i) (item hs_highs i)
         (item hs_highs i) (item hs_highs i) (Fin 1000).

Definition hs_series : ChartData :=
  mkChartData (map hs_bar (seq 0 31)) ∅ "1d" "TEST" (Fin 1).

(** Dates as day numbers. *)
Definition day_number (t : Z) : string := pretty (t / 86400)%Z.

End Patterns.

(* ===================================================================== *)
(** * The market-data fetcher ([live_data_fetcher.py]) *)
(* ===================================================================== *)

Module LiveDataFetcher.

Import ChartPredictor.

Record MarketDataRequest : Type := mkRequest {
  symbol : string;
  period : string;
  interval : string;
  source : string
}.

(** One row of the frame [ticker.history] returns; the volume column may
    be missing. *)
Record HistoryRow : Type := mkRow {
  row_timestamp : Z;
  Open : pyfloat;
  High : pyfloat;
  Low : pyfloat;
  Close : pyfloat;
  Volume : option pyfloat
}.

(** [Series.max()] and [Series.min()]: missing values are skipped, and a
    series without values gives [nan]. *)
Definition series_max (s : list pyfloat) : pyfloat :=
  match List.filter (fun x => negb (isnan x)) s with
  | [] => NaN
  | x :: l => foldl max2 x l
  end.

Definition series_min (s : list pyfloat) : pyfloat :=
  match List.filter (fun x => negb (isnan x)) s with
  | [] => NaN
  | x :: l => foldl min2 x l
  end.

Definition _map_interval_to_timeframe (interval : string) : string :=
  let mapping : gmap string string :=
    list_to_map
      [("1m", "1m"); ("2m", "2m"); ("5m", "5m"); ("15m", "15m");
       ("30m", "30m"); ("60m", "1h"); ("90m", "1h30m"); ("1h", "1h");
       ("1d", "1d"); ("5d", "5d"); ("1wk", "1w"); ("1mo", "1M");
       ("3mo", "3M")] in
  default interval (mapping !! interval).

Section Fetcher.

(** [yf.Ticker(symbol).history(period=..., interval=...)], the rows of the
    frame in order, and [str.upper] are parameters. *)
Variable history : string -> string -> string -> result (list HistoryRow).
Variable upper : string -> string.

Definition _fetch_yahoo_data (request : MarketDataRequest)
  : result ChartData :=
  hist ← history (symbol request) (period request) (interval request);
  match hist with
  | [] => Raise (OtherError "ValueError")
  | _ :: _ =>
      let ohlc_data :=
        map (fun row =>
               mkOHLC (row_timestamp row) (Open row) (High row) (Low row)
                      (Close row) (default (Fin 0) (Volume row)))
            hist in
      current_price ← iloc_last (map Close hist);
      let high_price := series_max (map High hist) in
      let low_price := series_min (map Low hist) in
      let price_levels : gmap string pyfloat :=
        <["current_price" := current_price]>
        (<["high_52w" := high_price]>
        (<["low_52w" := low_price]>
        (<["support_1" := fmul current_price (Fin 0.95)]>
        (<["resistance_1" := fmul current_price (Fin 1.05)]> ∅)))) in
      let timeframe := _map_interval_to_timeframe (interval request) in
      Ok (mkChartData ohlc_data price_levels timeframe
            (upper (symbol request)) (Fin 1))
  end.

Definition fetch_chart_data (request : MarketDataRequest)
  : result ChartData :=
  if String.eqb (source request) "yahoo"
  then _fetch_yahoo_data request
  else Raise (OtherError "ValueError").

End Fetcher.

(** ** [TradingViewURLParser] *)

(** Python strings are kept as their UTF-8 bytes; the separators below are
    ASCII, so searching bytes and searching characters agree. *)

(** [sub in s]. *)
Fixpoint contains (sub s : string) : bool :=
  String.prefix sub s
  || match s with
     | EmptyString => false
     | String _ s' => contains sub s'
     end.

(** [s.split(sep)] for a non-empty [sep], scanning from the left: [cur] is
    the piece being read and [skip] the number of characters of a
    separator still to pass over. *)
Fixpoint split_from (sep : string) (skip : nat) (cur s : string)
  : list string :=
  match s with
  | EmptyString => [cur]
  | String c s' =>
      match skip with
      | S skip' => split_from sep skip' cur s'
      | O =>
          if String.prefix sep s
          then cur :: split_from sep (String.length sep - 1) "" s'
          else split_from sep 0 (cur +:+ String c "") s'
      end
  end.

Definition split (sep s : string) : list string := split_from sep 0 "" s.

(** Every exception inside [parse_url] is caught and gives [None]. *)
Definition parse_url (url : string) : option MarketDataRequest :=
  if negb (contains "tradingview.com" url) then None
  else if contains "symbol=" url then
    match split "symbol=" url !! 1%nat with
    | None => None
    | Some after =>
        match head (split "&" after) with
        | None => None
        | Some symbol_part =>
            match last (split ":" symbol_part) with
            | None => None
            | Some symbol => Some (mkRequest symbol "1mo" "1h" "yahoo")
            end
        end
    end
  else None.

(** Three days of quotes, and a source that knows one ticker. *)
Definition sample_rows : list HistoryRow :=
  [mkRow 0 (Fin 100) (Fin 104) (Fin 99) (Fin 103) (Some (Fin 5000));
   mkRow 86400 (Fin 103) (Fin 108) (Fin 102) (Fin 107) (Some (Fin 6000));
   mkRow 172800 (Fin 107) (Fin 107.5) (Fin 101) (Fin 102) None].

Definition sample_history (symbol period interval : string)
  : result (list HistoryRow) :=
  if String.eqb symbol "AAPL" then Ok sample_rows
  else Ok [].

Definition sample_request : MarketDataRequest :=
  mkRequest "AAPL" "1mo" "60m" "yahoo".

(** The chart data fetched for [sample_request], and its last bar. *)
Definition sample_last_bar : OHLCData :=
  mkOHLC 172800 (Fin 107) (Fin 107.5) (Fin 101) (Fin 102) (Fin 0).

Definition sample_chart : ChartData :=
  mkChartData
    [mkOHLC 0 (Fin 100) (Fin 104) (Fin 99) (Fin 103) (Fin 5000);
     mkOHLC 86400 (Fin 103) (Fin 108) (Fin 102) (Fin 107) (Fin 6000);
     sample_last_bar]
    (<["current_price" := Fin 102]>
     (<["high_52w" := Fin 108]>
      (<["low_52w" := Fin 99]>
       (<["support_1" := fmul (Fin 102) (Fin 0.95)]>
        (<["resistance_1" := fmul (Fin 102) (Fin 1.05)]> ∅)))))
    "1h" "AAPL" (Fin 1).

End LiveDataFetcher.

(* ===================================================================== *)
(** * The analysis pipeline ([LiveDataWorker.run], [main_window.py]) *)
(* ===================================================================== *)

Module LiveDataWorker.

Import ChartExtractor ChartPredictor.

(** The [results] dictionary. *)
Record AnalysisResults : Type := mkResults {
  data_source : string;
  symbol : string;
  chart_data : ChartData;
  technical_analysis : gmap string pyfloat;
  patterns : list Pattern;
  predictions : Prediction;
  signals : TradingSignal;
  timestamp : string
}.

Section Worker.

Variable history
  : string -> string -> string -> result (list LiveDataFetcher.HistoryRow).
Variable upper : string -> string.
Variable talib : option TaLib.
Variable manual : ManualIndicators.
Variable detectors : Detectors.
Variable tech_config : TechnicalAnalysisConfig.
Variable model_config : ModelConfig.
Variable trading_config : TradingConfig.

(** [datetime.now().isoformat()]. *)
Variable now : string.

(** The five steps of [run]; an exception of any step ends the run with
    [error_occurred].  The progress signals are left out. *)
Definition run (request : LiveDataFetcher.MarketDataRequest)
  : result AnalysisResults :=
  chart_data ← LiveDataFetcher.fetch_chart_data history upper request;
  let technical_analysis :=
    calculate_technical_indicators talib manual tech_config chart_data in
  patterns ← detect_patterns detectors chart_data;
  let predictions :=
    predict_price_movement model_config chart_data technical_analysis in
  signals ←
    generate_trading_signals trading_config predictions technical_analysis;
  Ok (mkResults "live_api" (LiveDataFetcher.symbol request) chart_data
        technical_analysis patterns predictions signals now).

End Worker.

(** Thirty rows of a market that does not move. *)
Definition flat_rows : list LiveDataFetcher.HistoryRow :=
  map (fun i => LiveDataFetcher.mkRow (Z.of_nat i * 3600) (Fin 100)
                  (Fin 100) (Fin 100) (Fin 100) (Some (Fin 1000)))
      (seq 0 30).

Definition flat_history (symbol period interval : string)
  : result (list LiveDataFetcher.HistoryRow) := Ok flat_rows.

(** The three reversal detectors of [Patterns], with the three
    regression-based detectors reporting nothing. *)
Definition reversal_detectors : Detectors :=
  mkDetectors (Patterns._detect_double_bottom Patterns.day_number)
              (Patterns._detect_double_top Patterns.day_number)
              (Patterns._detect_head_shoulders Patterns.day_number)
              (fun _ _ _ _ => Ok [])
              (fun _ _ _ _ _ => Ok [])
              (fun _ _ => Ok []).

End LiveDataWorker.

(* ===================================================================== *)
(** * Properties *)
(* ===================================================================== *)

Import Validator ChartExtractor ChartPredictor Samples.

(** ** Floats and formatting on sample values *)

Example format_f_negative : format_f 2 (Fin (-0.004)) = "-0.00".
Proof. vm_compute. reflexivity. Qed.

Example format_f_up : format_f 2 (Fin 3.007) = "3.01".
Proof. vm_compute. reflexivity. Qed.

Example format_pct_confidence : format_pct 1 (Fin 0.65) = "65.0%".
Proof. vm_compute. reflexivity. Qed.

Example round_stop_loss : feq (round (Fin 103.488) 2) (Fin 103.49) = true.
Proof. vm_compute. reflexivity. Qed.

Lemma truediv_truthy (x y : pyfloat) :
  truthy y = true -> truediv x y = Ok (fdiv x y).
Proof.
  destruct y as [b| | |]; simpl; try reflexivity.
  intros H. apply negb_true_iff in H. now rewrite H.
Qed.

Lemma truediv_zero (x : pyfloat) (b : Q) :
  Qeq_bool b 0 = true -> truediv x (Fin b) = Raise ZeroDivisionError.
Proof. intros H. simpl. now rewrite H. Qed.

(** ** The data-quality validator *)

Lemma calm_tail (prev cur : OHLCData) (rest : list OHLCData) :
  calm (prev :: cur :: rest) -> calm (cur :: rest).
Proof. intros H i p c Hp Hc. exact (H (S i) p c Hp Hc). Qed.

Lemma price_changes_calm (rest : list OHLCData) :
  forall prev : OHLCData,
    calm (prev :: rest) ->
    exists changes,
      price_changes prev rest = Ok changes
      /\ List.filter is_extreme changes = [].
Proof.
  induction rest as [|cur rest IH]; intros prev Hcalm.
  - exists []. split; reflexivity.
  - destruct (Hcalm 0%nat prev cur eq_refl eq_refl) as [Hclose Hgap].
    destruct (IH cur (calm_tail _ _ _ Hcalm)) as (tl & Htl & Hfilter).
    exists (gap prev cur :: tl). split.
    + cbn [price_changes]. rewrite (truediv_truthy _ _ Hclose).
      cbn. rewrite Htl. reflexivity.
    + cbn [List.filter]. rewrite Hgap. exact Hfilter.
Qed.

Lemma no_inconsistent (l : list OHLCData) :
  Forall (fun ohlc => consistent ohlc = true) l ->
  List.filter (fun ohlc => negb (consistent ohlc)) l = [].
Proof.
  induction 1 as [|x l Hx _ IH]; [reflexivity|].
  cbn [List.filter]. rewrite Hx. exact IH.
Qed.

(** C1, as stated, fails on two flat bars 30% apart: each bar is
    internally consistent, yet the score is 0.95. *)
Lemma quality_score_gap_series :
  ohlc_data gap_series <> []
  /\ Forall (fun ohlc => consistent ohlc = true) (ohlc_data gap_series)
  /\ exists r,
       validate_extracted_data gap_series = Ok r
       /\ feq (quality_score r) (Fin 0.95) = true
       /\ feq (quality_score r) (Fin 1) = false.
Proof.
  split; [discriminate|]. split.
  - repeat constructor.
  - eexists. split; [vm_compute; reflexivity|]. split; reflexivity.
Qed.

(** C1 (amended): on a non-empty series whose bars all satisfy
    [low <= min(open, close) <= max(open, close) <= high], whose bars never
    open more than 20% away from the previous close, and where no previous
    close is zero, the validator returns and its [quality_score] is exactly
    1.0. *)
Theorem quality_score_consistent_calm (chart_data : ChartData) :
  ohlc_data chart_data <> [] ->
  Forall (fun ohlc => consistent ohlc = true) (ohlc_data chart_data) ->
  calm (ohlc_data chart_data) ->
  exists r,
    validate_extracted_data chart_data = Ok r /\ quality_score r = Fin 1.
Proof.
  intros Hne Hcons Hcalm. unfold validate_extracted_data.
  destruct (ohlc_data chart_data) as [|first rest] eqn:Hdata; [congruence|].
  destruct (price_changes_calm rest first Hcalm) as (changes & Hch & Hfilter).
  rewrite Hch. cbn [mbind result_bind].
  rewrite Hfilter, (no_inconsistent _ Hcons). cbn [length].
  match goal with
  | |- context [if ?c then [?w] else []] => destruct c
  end; eexists; (split; [vm_compute; reflexivity | reflexivity]).
Qed.

Lemma quality_score_consistent_calm_witness :
  exists r,
    validate_extracted_data steady_series = Ok r /\ quality_score r = Fin 1.
Proof.
  apply (quality_score_consistent_calm steady_series).
  - discriminate.
  - repeat constructor.
  - intros [|[|[|i]]] prev cur Hp Hc; cbn in Hp, Hc;
      try discriminate; injection Hp as <-; injection Hc as <-;
      split; reflexivity.
Defined.

(** ** Lists as pandas series *)

Lemma map_fmap {A B} (f : A -> B) (l : list A) : map f l = f <$> l.
Proof. induction l as [|x l IH]; [reflexivity|]. cbn. now rewrite IH. Qed.

Lemma last_map {A B} (f : A -> B) (l : list A) :
  last (map f l) = f <$> last l.
Proof. rewrite map_fmap. apply fmap_last. Qed.

Lemma last_zip_with {A B C} (f : A -> B -> C) (l : list A) (k : list B)
  (x : A) (y : B) :
  length l = length k -> last l = Some x -> last k = Some y ->
  last (zip_with f l k) = Some (f x y).
Proof.
  intros Hlen Hl Hk.
  rewrite last_lookup in Hl. rewrite last_lookup in Hk. rewrite last_lookup.
  rewrite lookup_zip_with, length_zip_with, <- Hlen, Nat.min_id.
  rewrite Hl. cbn. rewrite Hlen, Hk. reflexivity.
Qed.

Lemma length_diff_from (s : list pyfloat) :
  forall prev, length (diff_from prev s) = length s.
Proof. induction s as [|x s IH]; intros prev; cbn; [|rewrite IH]; reflexivity. Qed.

Lemma length_diff (s : list pyfloat) : length (diff s) = length s.
Proof. destruct s; cbn; [|rewrite length_diff_from]; reflexivity. Qed.

Lemma length_rolling_mean (window : nat) (s : list pyfloat) :
  length (rolling_mean window s) = length s.
Proof. unfold rolling_mean. now rewrite length_map, length_seq. Qed.

Lemma length_rsi_gain (prices : list pyfloat) (period : nat) :
  length (rsi_gain prices period) = length prices.
Proof.
  unfold rsi_gain, where_.
  now rewrite length_rolling_mean, length_map, length_diff.
Qed.

Lemma length_rsi_loss (prices : list pyfloat) (period : nat) :
  length (rsi_loss prices period) = length prices.
Proof.
  unfold rsi_loss, where_.
  now rewrite length_rolling_mean, !length_map, length_diff.
Qed.

Lemma iloc_last_nonempty (s : list pyfloat) :
  s <> [] -> exists x, iloc_last s = Ok x.
Proof.
  intros Hne. unfold iloc_last.
  destruct (last s) as [x|] eqn:Hlast; [eauto|].
  apply last_None in Hlast. congruence.
Qed.

(** ** The [try] block of the indicator engine *)

Lemma preserves_ret {A} (key : string) (a : A) : preserves key (mret a).
Proof. intros d. reflexivity. Qed.

Lemma preserves_lift {A} (key : string) (r : result A) :
  preserves key (lift r).
Proof. intros d. reflexivity. Qed.

Lemma preserves_getitem (key k : string) : preserves key (getitem k).
Proof.
  intros d. unfold getitem. destruct (d !! k) as [[x|]|]; reflexivity.
Qed.

Lemma preserves_setitem (key k : string) (v : option pyfloat) :
  k <> key -> preserves key (setitem k v).
Proof. intros Hne d. cbn. now rewrite lookup_insert_ne. Qed.

Lemma preserves_bind {A B} (key : string) (m : Try A) (k : A -> Try B) :
  preserves key m -> (forall a, preserves key (k a)) ->
  preserves key (m ≫= k).
Proof.
  intros Hm Hk d. unfold mbind, Try_bind.
  specialize (Hm d). destruct (m d) as [[a|e] d']; cbn in *.
  - now rewrite Hk.
  - exact Hm.
Qed.

Lemma preserves_when (key : string) (b : bool) (body : Try unit) :
  preserves key body -> preserves key (when b body).
Proof. intros H. destruct b; [exact H | apply preserves_ret]. Qed.

Lemma preserves_for_each {A} (key : string) (l : list A)
  (body : A -> Try unit) :
  (forall x, preserves key (body x)) -> preserves key (for_each l body).
Proof.
  intros H. induction l as [|x l IH]; cbn [for_each].
  - apply preserves_ret.
  - apply preserves_bind; [apply H | intros _; exact IH].
Qed.

Lemma succeeds_for_each {A} (l : list A) (body : A -> Try unit) :
  (forall x, succeeds (body x)) -> succeeds (for_each l body).
Proof.
  intros H. induction l as [|x l IH]; intros d; cbn [for_each].
  - reflexivity.
  - unfold mbind, Try_bind. specialize (H x d).
    destruct (body x d) as [[[]|e] d']; cbn in H; [apply IH | discriminate].
Qed.

(** Running [m ;; k] when [m] does not raise. *)
Lemma run_then (m k : Try unit) (d : Indicators) :
  fst (m d) = Ok tt -> (m ;; k) d = k (snd (m d)).
Proof.
  intros H. unfold mbind, Try_bind.
  destruct (m d) as [[[]|e] d']; cbn in *; [reflexivity | discriminate].
Qed.

Ltac preserve :=
  repeat first
    [ apply preserves_when
    | apply preserves_ret
    | apply preserves_lift
    | apply preserves_getitem
    | apply preserves_setitem; discriminate
    | apply preserves_for_each; intros ?
    | apply preserves_bind; [|intros ?]
    | match goal with
      | |- preserves _ (match ?x with _ => _ end) => destruct x
      | |- preserves _ (let '_ := ?x in _) => destruct x
      end ].

Section EngineFacts.

Variable talib : option TaLib.
Variable manual : ManualIndicators.
Variable tech_config : TechnicalAnalysisConfig.

Lemma moving_averages_preserves_rsi (closes : list pyfloat) :
  preserves "RSI" (moving_averages tech_config closes).
Proof using Type. unfold moving_averages. preserve. Qed.

Lemma macd_preserves_rsi (closes : list pyfloat) :
  preserves "RSI" (macd talib manual tech_config closes).
Proof using Type. unfold macd. preserve. Qed.

Lemma bollinger_bands_preserves_rsi (closes : list pyfloat) :
  preserves "RSI" (bollinger_bands talib manual tech_config closes).
Proof using Type. unfold bollinger_bands. preserve. Qed.

Lemma volume_indicators_preserves_rsi (volumes : list pyfloat) :
  preserves "RSI" (volume_indicators tech_config volumes).
Proof using Type. unfold volume_indicators. preserve. Qed.

Lemma stochastic_preserves_rsi (highs lows closes : list pyfloat) :
  preserves "RSI" (stochastic talib manual tech_config highs lows closes).
Proof using Type. unfold stochastic. preserve. Qed.

Lemma moving_averages_succeeds (closes : list pyfloat) :
  closes <> [] -> succeeds (moving_averages tech_config closes).
Proof using Type.
  intros Hne. unfold moving_averages.
  destruct (flag _ _); cbn [when]; [|intros d; reflexivity].
  apply succeeds_for_each. intros period d.
  destruct (period <=? length closes)%nat; cbn [when]; [|reflexivity].
  destruct (iloc_last_nonempty (rolling_mean period closes)) as [x Hx].
  - intros Hnil. apply (f_equal length) in Hnil.
    rewrite length_rolling_mean in Hnil. destruct closes; [congruence|].
    discriminate.
  - unfold mbind, Try_bind, lift. rewrite Hx. reflexivity.
Qed.

End EngineFacts.

(** Without TA-Lib, with the RSI family enabled and enough bars, the
    ["RSI"] entry of the result is what [_calculate_rsi_manual] returned,
    and is absent when that was [None]. *)
Lemma rsi_entry (manual : ManualIndicators)
  (tech_config : TechnicalAnalysisConfig) (chart_data : ChartData) :
  flag (indicators tech_config) "rsi" = true ->
  (rsi_period tech_config <= length (ohlc_data chart_data))%nat ->
  ohlc_data chart_data <> [] ->
  calculate_technical_indicators None manual tech_config chart_data !! "RSI"
  = _calculate_rsi_manual (map close (ohlc_data chart_data))
      (rsi_period tech_config).
Proof.
  intros Hflag Hlen Hne. unfold calculate_technical_indicators.
  destruct (ohlc_data chart_data) as [|b df] eqn:Hdata; [congruence|].
  rewrite lookup_omap. unfold try_block.
  set (closes := map close (b :: df)).
  rewrite run_then
    by (apply moving_averages_succeeds; subst closes; discriminate).
  set (d1 := snd (moving_averages tech_config closes ∅)).
  assert (Hrsi : rsi None tech_config closes d1
                 = (Ok tt, <["RSI" := _calculate_rsi_manual closes
                                         (rsi_period tech_config)]> d1)).
  { unfold rsi. rewrite Hflag.
    replace (rsi_period tech_config <=? length closes)%nat with true
      by (symmetry; apply Nat.leb_le; subst closes;
          rewrite length_map; exact Hlen).
    reflexivity. }
  rewrite run_then by (rewrite Hrsi; reflexivity).
  rewrite Hrsi. cbn [snd].
  assert (Hrest : preserves "RSI"
            (macd None manual tech_config closes;;
             bollinger_bands None manual tech_config closes;;
             volume_indicators tech_config (map volume (b :: df));;
             stochastic None manual tech_config (map high (b :: df))
               (map low (b :: df)) closes)).
  { apply preserves_bind; [apply macd_preserves_rsi | intros _].
    apply preserves_bind; [apply bollinger_bands_preserves_rsi | intros _].
    apply preserves_bind; [apply volume_indicators_preserves_rsi | intros _].
    apply stochastic_preserves_rsi. }
  rewrite Hrest, lookup_insert_eq. cbn.
  destruct (_calculate_rsi_manual _ _); reflexivity.
Qed.

(** ** RSI when the average loss is zero *)

(** The value [_calculate_rsi_manual] returns, from the last mean gain and
    mean loss. *)
Lemma rsi_manual_from_means (prices : list pyfloat) (period : nat)
  (gain loss : pyfloat) :
  last (rsi_gain prices period) = Some gain ->
  last (rsi_loss prices period) = Some loss ->
  _calculate_rsi_manual prices period
  = let v := fsub (Fin 100)
                  (fdiv (Fin 100) (fadd (Fin 1) (fdiv gain loss))) in
    if isnan v then None else Some (round v 2).
Proof.
  intros Hg Hl. unfold _calculate_rsi_manual, iloc_last.
  rewrite last_map.
  rewrite (last_zip_with fdiv _ _ gain loss); [reflexivity | | exact Hg | exact Hl].
  now rewrite length_rsi_gain, length_rsi_loss.
Qed.

(** C3, as stated, fails on fifteen bars that each close one above the
    previous one: the RSI family is enabled, there are at least
    [rsi_period] bars, the mean loss over the period is zero, and the
    result carries ["RSI"] with the value 100. *)
Lemma rsi_present_on_rising_series :
  flag (indicators rsi_only_config) "rsi" = true
  /\ (rsi_period rsi_only_config <= length (ohlc_data rising_series))%nat
  /\ (exists l,
        last (rsi_loss (map close (ohlc_data rising_series))
                       (rsi_period rsi_only_config)) = Some (Fin l)
        /\ l == 0)
  /\ exists v,
       calculate_technical_indicators None no_manual rsi_only_config
         rising_series !! "RSI" = Some v
       /\ feq v (Fin 100) = true.
Proof.
  split; [reflexivity|]. split; [vm_compute; lia|]. split.
  - eexists. split; [vm_compute; reflexivity | reflexivity].
  - eexists. split; [vm_compute; reflexivity | reflexivity].
Qed.

(** C3 (amended): without TA-Lib, for a series with at least [rsi_period]
    bars and RSI enabled, when the mean loss over the RSI period is zero
    the ["RSI"] key is omitted exactly when the mean gain is zero as well;
    when the mean gain is positive the key is present with the value
    100. *)
Theorem rsi_zero_average_loss (manual : ManualIndicators)
  (tech_config : TechnicalAnalysisConfig) (chart_data : ChartData)
  (g l : Q) :
  let closes := map close (ohlc_data chart_data) in
  let result :=
    calculate_technical_indicators None manual tech_config chart_data in
  flag (indicators tech_config) "rsi" = true ->
  (rsi_period tech_config <= length (ohlc_data chart_data))%nat ->
  last (rsi_gain closes (rsi_period tech_config)) = Some (Fin g) ->
  last (rsi_loss closes (rsi_period tech_config)) = Some (Fin l) ->
  l == 0 ->
  (g == 0 -> result !! "RSI" = None)
  /\ (0 < g -> exists v, result !! "RSI" = Some v /\ feq v (Fin 100) = true).
Proof.
  intros closes result Hflag Hlen Hg Hl Hzero.
  assert (Hne : ohlc_data chart_data <> []).
  { intros Hnil. subst closes. rewrite Hnil in Hg. discriminate. }
  subst result. rewrite (rsi_entry _ _ _ Hflag Hlen Hne).
  fold closes. rewrite (rsi_manual_from_means _ _ _ _ Hg Hl).
  assert (Hdiv : fdiv (Fin g) (Fin l) = inf_signed g true).
  { cbn. apply Qeq_bool_iff in Hzero. now rewrite Hzero. }
  rewrite Hdiv. unfold inf_signed. split.
  - intros Hg0. apply Qeq_alt in Hg0. rewrite Hg0. reflexivity.
  - intros Hpos. apply Qgt_alt in Hpos. rewrite Hpos.
    eexists. split; reflexivity.
Qed.

Lemma rsi_zero_average_loss_witness :
  (14 # 14 == 0 ->
   calculate_technical_indicators None no_manual rsi_only_config
     rising_series !! "RSI" = None)
  /\ (0 < 14 # 14 ->
      exists v,
        calculate_technical_indicators None no_manual rsi_only_config
          rising_series !! "RSI" = Some v
        /\ feq v (Fin 100) = true).
Proof.
  apply (rsi_zero_average_loss no_manual rsi_only_config rising_series
           (14 # 14) (0 # 14)).
  - reflexivity.
  - vm_compute. lia.
  - vm_compute. reflexivity.
  - vm_compute. reflexivity.
  - reflexivity.
Defined.

(** ** Votes of the predictor *)

Lemma rsi_vote_delete_macd (ta : gmap string pyfloat) (v : Votes) :
  rsi_vote (delete "MACD" ta) v = rsi_vote ta v.
Proof. unfold rsi_vote. now rewrite lookup_delete_ne. Qed.

Lemma ma_vote_delete_macd (cp : pyfloat) (ta : gmap string pyfloat)
  (v : Votes) :
  ma_vote cp (delete "MACD" ta) v = ma_vote cp ta v.
Proof. unfold ma_vote. now rewrite !lookup_delete_ne. Qed.

Lemma macd_vote_delete_macd (ta : gmap string pyfloat) (v : Votes) :
  macd_vote (delete "MACD" ta) v = v.
Proof. unfold macd_vote. now rewrite lookup_delete_eq. Qed.

Lemma ma_vote_add_bullish (cp : pyfloat) (ta : gmap string pyfloat)
  (v : Votes) :
  ma_vote cp ta (add_bullish v) = add_bullish (ma_vote cp ta v).
Proof.
  unfold ma_vote.
  repeat match goal with
         | |- context [match ?x with _ => _ end] => destruct x
         end; reflexivity.
Qed.

Lemma ma_vote_add_bearish (cp : pyfloat) (ta : gmap string pyfloat)
  (v : Votes) :
  ma_vote cp ta (add_bearish v) = add_bearish (ma_vote cp ta v).
Proof.
  unfold ma_vote.
  repeat match goal with
         | |- context [match ?x with _ => _ end] => destruct x
         end; reflexivity.
Qed.

(** C4, as stated, fails when the MACD is exactly zero: both keys are
    present and the MACD is above its signal line, yet no vote is cast and
    the prediction is SIDEWAYS. *)
Lemma macd_zero_casts_no_vote :
  (exists m s,
     zero_macd_analysis !! "MACD" = Some m
     /\ zero_macd_analysis !! "MACD_Signal" = Some s
     /\ fgt m s = true)
  /\ macd_vote zero_macd_analysis (mkVotes 0 0) = mkVotes 0 0
  /\ count_votes no_levels_series zero_macd_analysis = mkVotes 0 0
  /\ direction (predict_price_movement default_model_config
                  no_levels_series zero_macd_analysis) = SIDEWAYS.
Proof.
  split; [|repeat split; vm_compute; reflexivity].
  eexists _, _. repeat split; vm_compute; reflexivity.
Qed.

(** C4 (amended): in [predict_price_movement], when both ["MACD"] and
    ["MACD_Signal"] are present with non-zero values, the vote count is the
    count without any MACD vote plus exactly one vote, bullish if
    MACD > MACD_Signal and bearish otherwise; when either key is absent or
    either value is zero, no MACD vote is cast. *)
Theorem macd_vote_in_count (chart_data : ChartData)
  (technical_analysis : gmap string pyfloat) :
  let without_macd :=
    count_votes chart_data (delete "MACD" technical_analysis) in
  count_votes chart_data technical_analysis
  = match technical_analysis !! "MACD",
          technical_analysis !! "MACD_Signal" with
    | Some macd, Some macd_signal =>
        if truthy macd && truthy macd_signal then
          if fgt macd macd_signal
          then add_bullish without_macd
          else add_bearish without_macd
        else without_macd
    | _, _ => without_macd
    end.
Proof.
  intros without_macd. subst without_macd. unfold count_votes.
  rewrite rsi_vote_delete_macd, macd_vote_delete_macd, ma_vote_delete_macd.
  unfold macd_vote at 1.
  destruct (technical_analysis !! "MACD") as [m|];
    destruct (technical_analysis !! "MACD_Signal") as [s|]; try reflexivity.
  destruct (truthy m && truthy s); [|reflexivity].
  destruct (fgt m s);
    [apply ma_vote_add_bullish | apply ma_vote_add_bearish].
Qed.

(** ** Direction and confidence *)

Lemma Qmult_comm_eq (a b : Q) : a * b = b * a.
Proof. unfold Qmult. f_equal; [apply Z.mul_comm | apply Pos.mul_comm]. Qed.

(** C5: the prediction is SIDEWAYS exactly when the bullish and bearish
    vote counts are equal, with confidence 0.5 in that case; otherwise the
    confidence is [min(0.9, 0.5 + 0.15 * |vote difference|)]. *)
Theorem prediction_direction_confidence (model_config : ModelConfig)
  (chart_data : ChartData) (technical_analysis : gmap string pyfloat) :
  let v := count_votes chart_data technical_analysis in
  let p := predict_price_movement model_config chart_data
             technical_analysis in
  (direction p = SIDEWAYS <-> bullish_signals v = bearish_signals v)
  /\ confidence p
     = if bool_decide (bullish_signals v = bearish_signals v)
       then Fin 0.5
       else min2 (Fin 0.9)
                 (fadd (Fin 0.5)
                       (fmul (Fin 0.15)
                             (of_Z (Z.abs (bullish_signals v
                                           - bearish_signals v))))).
Proof.
  intros v p. subst p. unfold predict_price_movement. fold v.
  destruct (Z.ltb_spec (bearish_signals v) (bullish_signals v)) as [Hup|Hnup].
  - cbn [direction confidence]. split; [split; [discriminate | lia]|].
    rewrite bool_decide_eq_false_2 by lia.
    rewrite Z.abs_eq by lia. cbn [fmul of_Z].
    now rewrite Qmult_comm_eq.
  - destruct (Z.ltb_spec (bullish_signals v) (bearish_signals v))
      as [Hdown|Hndown].
    + cbn [direction confidence]. split; [split; [discriminate | lia]|].
      rewrite bool_decide_eq_false_2 by lia.
      replace (Z.abs (bullish_signals v - bearish_signals v))
        with (bearish_signals v - bullish_signals v)%Z by lia.
      cbn [fmul of_Z]. now rewrite Qmult_comm_eq.
    + cbn [direction confidence]. split; [split; [lia | reflexivity]|].
      rewrite bool_decide_eq_true_2 by lia. reflexivity.
Qed.

(** ** The default current price *)

(** C10: without a ["current_price"] level, the current price is 150.0
    whatever the bars are.  The moving-average vote is taken against
    150.0: with both averages present and non-zero it is bullish when
    MA_9 > MA_21 and 150.0 > MA_9, bearish when MA_9 < MA_21 and
    150.0 < MA_9, and no vote otherwise.  The target price is 157.5 for
    UP, 142.5 for DOWN and 150.0 for SIDEWAYS. *)
Theorem default_current_price (model_config : ModelConfig)
  (chart_data : ChartData) (technical_analysis : gmap string pyfloat) :
  price_levels chart_data !! "current_price" = None ->
  let p := predict_price_movement model_config chart_data
             technical_analysis in
  let other_votes :=
    macd_vote technical_analysis
      (rsi_vote technical_analysis (mkVotes 0 0)) in
  count_votes chart_data technical_analysis
  = match technical_analysis !! "MA_9", technical_analysis !! "MA_21" with
    | Some ma_9, Some ma_21 =>
        if truthy ma_9 && truthy ma_21 then
          if fgt ma_9 ma_21 && fgt (Fin 150) ma_9
          then add_bullish other_votes
          else if flt ma_9 ma_21 && flt (Fin 150) ma_9
               then add_bearish other_votes
               else other_votes
        else other_votes
    | _, _ => other_votes
    end
  /\ exists t,
       target_price p = Some t
       /\ feq t (default_target (direction p)) = true.
Proof.
  intros Hnone p other_votes. subst p other_votes.
  unfold predict_price_movement, count_votes, current_price_of.
  rewrite Hnone. cbn [default]. split.
  - unfold ma_vote. cbv zeta.
    destruct (technical_analysis !! "MA_9") as [ma_9|]; [|reflexivity].
    destruct (technical_analysis !! "MA_21") as [ma_21|]; reflexivity.
  - repeat match goal with
           | |- context [if ?c then _ else _] => destruct c
           end; eexists; split; reflexivity.
Qed.

Lemma default_current_price_witness :
  let p := predict_price_movement default_model_config no_levels_series
             ma_uptrend in
  let other_votes := macd_vote ma_uptrend (rsi_vote ma_uptrend (mkVotes 0 0)) in
  count_votes no_levels_series ma_uptrend
  = match ma_uptrend !! "MA_9", ma_uptrend !! "MA_21" with
    | Some ma_9, Some ma_21 =>
        if truthy ma_9 && truthy ma_21 then
          if fgt ma_9 ma_21 && fgt (Fin 150) ma_9
          then add_bullish other_votes
          else if flt ma_9 ma_21 && flt (Fin 150) ma_9
               then add_bearish other_votes
               else other_votes
        else other_votes
    | _, _ => other_votes
    end
  /\ exists t,
       target_price p = Some t
       /\ feq t (default_target (direction p)) = true.
Proof.
  apply (default_current_price default_model_config no_levels_series
           ma_uptrend).
  reflexivity.
Defined.

(** The same averages give one bullish vote, and the target 157.5,
    against the default price, and no vote against a current price of
    135. *)
Example ma_vote_against_default_price :
  count_votes no_levels_series ma_uptrend = mkVotes 1 0
  /\ direction (predict_price_movement default_model_config
                  no_levels_series ma_uptrend) = UP
  /\ (exists t,
        target_price (predict_price_movement default_model_config
                        no_levels_series ma_uptrend) = Some t
        /\ feq t (Fin 157.5) = true)
  /\ count_votes priced_series ma_uptrend = mkVotes 0 0
  /\ direction (predict_price_movement default_model_config
                  priced_series ma_uptrend) = SIDEWAYS.
Proof.
  split; [vm_compute; reflexivity|]. split; [vm_compute; reflexivity|].
  split; [eexists; split; vm_compute; reflexivity|].
  split; vm_compute; reflexivity.
Qed.

(** ** The confirmation filters *)

Lemma append_empty_r (s : string) : s +:+ "" = s.
Proof.
  induction s as [|a s IH]; [reflexivity|].
  change (String a (s +:+ "") = String a s). now rewrite IH.
Qed.

Lemma append_assoc (s t u : string) : (s +:+ t) +:+ u = s +:+ (t +:+ u).
Proof.
  induction s as [|a s IH]; [reflexivity|].
  change (String a ((s +:+ t) +:+ u) = String a (s +:+ (t +:+ u))).
  now rewrite IH.
Qed.

Lemma downgrade_refl (s : TradingSignal) : downgrade_of s s.
Proof.
  repeat split; try reflexivity. exists "". now rewrite append_empty_r.
Qed.

Lemma downgrade_trans (s1 s2 s3 : TradingSignal) :
  downgrade_of s1 s2 -> downgrade_of s2 s3 -> downgrade_of s1 s3.
Proof.
  intros (Ha & He & Hs & Ht & Hr & Hk & a1 & Ha1)
         (Ha' & He' & Hs' & Ht' & Hr' & Hk' & a2 & Ha2).
  repeat split; try congruence; try lia.
  exists (a1 +:+ a2). now rewrite Ha2, Ha1, append_assoc.
Qed.

Lemma trend_filter_downgrade (signal : TradingSignal)
  (technical_analysis : gmap string pyfloat) :
  downgrade_of signal (_apply_trend_filter signal technical_analysis).
Proof.
  unfold _apply_trend_filter.
  destruct (technical_analysis !! "MA_9") as [m9|]; [|apply downgrade_refl].
  destruct (technical_analysis !! "MA_21") as [m21|]; [|apply downgrade_refl].
  destruct (technical_analysis !! "MA_50") as [m50|]; [|apply downgrade_refl].
  destruct (negb _); [apply downgrade_refl|].
  destruct (action signal) eqn:Haction; try apply downgrade_refl;
    (destruct (negb _); [|apply downgrade_refl]);
    (repeat split; cbn; try (symmetry; exact Haction); try reflexivity;
     [lia | eexists; reflexivity]).
Qed.

Lemma volume_filter_downgrade (signal : TradingSignal)
  (technical_analysis : gmap string pyfloat) :
  downgrade_of signal (_apply_volume_filter signal technical_analysis).
Proof.
  unfold _apply_volume_filter.
  destruct (technical_analysis !! "Volume_Ratio") as [volume_ratio|];
    [|apply downgrade_refl].
  destruct (negb (truthy volume_ratio)); [apply downgrade_refl|].
  destruct (action signal) eqn:Haction; try apply downgrade_refl;
    (destruct (flt volume_ratio (Fin 1.2)); [|apply downgrade_refl]);
    (repeat split; cbn; try (symmetry; exact Haction); try reflexivity;
     [destruct (strength signal); cbn; lia | eexists; reflexivity]).
Qed.

(** C7: each confirmation filter, and the two applied in the order of
    [generate_trading_signals], leave the action, the entry, stop-loss and
    take-profit prices and the risk/reward ratio unchanged, never raise the
    strength in the order Strong > Medium > Weak, and only append to the
    reasoning. *)
Theorem filters_only_downgrade (signal : TradingSignal)
  (technical_analysis : gmap string pyfloat) :
  Forall
    (fun filtered =>
       action filtered = action signal
       /\ entry_price filtered = entry_price signal
       /\ stop_loss filtered = stop_loss signal
       /\ take_profit filtered = take_profit signal
       /\ risk_reward_ratio filtered = risk_reward_ratio signal
       /\ (strength_rank (strength filtered)
           <= strength_rank (strength signal))%nat
       /\ exists appended,
            signal_reasoning filtered
            = signal_reasoning signal +:+ appended)
    [ _apply_trend_filter signal technical_analysis;
      _apply_volume_filter signal technical_analysis;
      _apply_volume_filter (_apply_trend_filter signal technical_analysis)
        technical_analysis ].
Proof.
  constructor; [apply trend_filter_downgrade|].
  constructor; [apply volume_filter_downgrade|].
  constructor; [|constructor].
  apply (downgrade_trans _ (_apply_trend_filter signal technical_analysis)).
  - apply trend_filter_downgrade.
  - apply volume_filter_downgrade.
Qed.

Example filters_on_strong_buy :
  _apply_volume_filter (_apply_trend_filter strong_buy weak_market)
    weak_market
  = mkSignal BUY Weak (Some (Fin 107.8)) (Some (Fin 103.49))
      (Some (Fin 114.27)) (Fin 1.5)
      ("Bullish prediction with 85.0% confidence."
       +:+ " (Trend filter: Moving averages not aligned for uptrend)"
       +:+ " (Volume filter: Volume ratio 0.8 below confirmation threshold)").
Proof. vm_compute. reflexivity. Qed.

(** ** Trading signals *)

Lemma base_signal_low_confidence (trading_config : TradingConfig)
  (prediction : Prediction) :
  flt (confidence prediction) (Fin 0.6) = true ->
  exists signal,
    base_signal trading_config prediction = Ok signal
    /\ action signal = HOLD.
Proof.
  intros Hlow. unfold base_signal. rewrite Hlow.
  eexists. split; reflexivity.
Qed.

Lemma if_truthy_none (x : option pyfloat) (f : pyfloat -> pyfloat) :
  if_truthy x f = None -> otruthy x = false.
Proof.
  destruct x as [v|]; cbn; [|reflexivity].
  destruct (truthy v); [discriminate | reflexivity].
Qed.

(** The ratio computed when the entry price is [None] or zero. *)
Lemma ratio_without_entry (entry stop take : option pyfloat)
  (num den : pyfloat -> pyfloat -> pyfloat -> pyfloat) :
  otruthy entry = false ->
  match entry, stop, take with
  | Some e, Some s, Some t =>
      if truthy e && truthy s && truthy t
      then truediv (num e s t) (den e s t)
      else Ok (Fin 0)
  | _, _, _ => Ok (Fin 0)
  end = Ok (Fin 0).
Proof.
  intros H. destruct entry as [e|]; [|reflexivity]. cbn in H. rewrite H.
  destruct stop, take; reflexivity.
Qed.

Lemma base_signal_no_entry (trading_config : TradingConfig)
  (prediction : Prediction) (signal : TradingSignal) :
  base_signal trading_config prediction = Ok signal ->
  entry_price signal = None ->
  feq (risk_reward_ratio signal) (Fin 0) = true.
Proof.
  unfold base_signal.
  destruct (flt (confidence prediction) (Fin 0.6));
    [intros [= <-] _; reflexivity|].
  destruct (direction prediction).
  - set (entry := if_truthy (target_price prediction) _).
    destruct (otruthy entry) eqn:Hentry.
    + intros H Hnone. exfalso.
      destruct (_ : result pyfloat) as [r|e] in H; [|discriminate].
      cbn in H. injection H as <-. cbn in Hnone.
      apply if_truthy_none in Hnone. congruence.
    + rewrite (ratio_without_entry entry _ _
                 (fun e s t => fsub t e) (fun e s t => fsub e s) Hentry).
      intros [= <-] _. reflexivity.
  - set (entry := if_truthy (target_price prediction) _).
    destruct (otruthy entry) eqn:Hentry.
    + intros H Hnone. exfalso.
      destruct (_ : result pyfloat) as [r|e] in H; [|discriminate].
      cbn in H. injection H as <-. cbn in Hnone.
      apply if_truthy_none in Hnone. congruence.
    + rewrite (ratio_without_entry entry _ _
                 (fun e s t => fsub e t) (fun e s t => fsub s e) Hentry).
      intros [= <-] _. reflexivity.
  - intros [= <-] _. reflexivity.
Qed.

(** The signal returned is the base signal after the enabled filters. *)
Lemma generate_downgrades_base (trading_config : TradingConfig)
  (prediction : Prediction) (technical_analysis : gmap string pyfloat)
  (base : TradingSignal) :
  base_signal trading_config prediction = Ok base ->
  exists signal,
    generate_trading_signals trading_config prediction technical_analysis
    = Ok signal
    /\ downgrade_of base signal.
Proof.
  intros Hbase. unfold generate_trading_signals. rewrite Hbase.
  cbn [mbind result_bind]. eexists. split; [reflexivity|].
  destruct (flag _ "trend_confirmation"), (flag _ "volume_confirmation").
  - eapply downgrade_trans;
      [apply trend_filter_downgrade | apply volume_filter_downgrade].
  - apply trend_filter_downgrade.
  - apply volume_filter_downgrade.
  - apply downgrade_refl.
Qed.

(** C6: with a prediction confidence below 0.6 the generator returns a
    HOLD signal whatever the direction; and whenever a returned signal has
    no entry price, its risk/reward ratio is 0.0. *)
Theorem signal_hold_and_ratio (trading_config : TradingConfig)
  (prediction : Prediction) (technical_analysis : gmap string pyfloat) :
  (flt (confidence prediction) (Fin 0.6) = true ->
   exists signal,
     generate_trading_signals trading_config prediction technical_analysis
     = Ok signal
     /\ action signal = HOLD)
  /\ (forall signal,
        generate_trading_signals trading_config prediction technical_analysis
        = Ok signal ->
        entry_price signal = None ->
        feq (risk_reward_ratio signal) (Fin 0) = true).
Proof.
  split.
  - intros Hlow.
    destruct (base_signal_low_confidence trading_config prediction Hlow)
      as (base & Hbase & Hhold).
    destruct (generate_downgrades_base _ _ technical_analysis _ Hbase)
      as (signal & Hgen & Haction & _).
    exists signal. split; [exact Hgen | congruence].
  - intros signal Hgen Hnone.
    destruct (base_signal trading_config prediction) as [base|e] eqn:Hbase.
    + destruct (generate_downgrades_base _ _ technical_analysis _ Hbase)
        as (signal' & Hgen' & _ & Hentry & _ & _ & Hratio & _).
      assert (signal' = signal) as -> by congruence.
      rewrite Hratio.
      apply (base_signal_no_entry _ _ _ Hbase). congruence.
    + unfold generate_trading_signals in Hgen. rewrite Hbase in Hgen.
      discriminate.
Qed.

Lemma signal_hold_and_ratio_witness :
  exists signal,
    generate_trading_signals default_trading_config
      low_confidence_prediction weak_market = Ok signal
    /\ action signal = HOLD.
Proof.
  apply (signal_hold_and_ratio default_trading_config
           low_confidence_prediction weak_market).
  reflexivity.
Defined.

(** The scenario of the specification: an UP prediction with confidence
    0.85 and target 110.0 under the default risk settings. *)
Example signal_for_confident_up :
  exists signal,
    base_signal default_trading_config
      (mkPrediction UP (Fin 0.85) (Some (Fin 110)) "24h" "") = Ok signal
    /\ action signal = BUY
    /\ strength signal = Strong
    /\ (exists e, entry_price signal = Some e /\ feq e (Fin 107.8) = true)
    /\ (exists s, stop_loss signal = Some s /\ feq s (Fin 103.49) = true)
    /\ (exists t, take_profit signal = Some t /\ feq t (Fin 114.27) = true)
    /\ feq (risk_reward_ratio signal) (Fin 1.5) = true.
Proof.
  eexists. split; [vm_compute; reflexivity|].
  repeat split; try (eexists; split; reflexivity).
Qed.

(** ** Pattern detection *)

(** C8: with fewer than 20 bars, the empty series included,
    [detect_patterns] returns the empty list. *)
Theorem detect_patterns_short_series (det : Detectors)
  (chart_data : ChartData) :
  (length (ohlc_data chart_data) < 20)%nat ->
  detect_patterns det chart_data = Ok [].
Proof.
  intros Hshort. unfold detect_patterns.
  apply Nat.ltb_lt in Hshort. rewrite Hshort, orb_true_r. reflexivity.
Qed.

Lemma detect_patterns_short_series_witness :
  detect_patterns failing_detectors rising_series = Ok [].
Proof.
  apply (detect_patterns_short_series failing_detectors rising_series).
  vm_compute. lia.
Defined.

(** ** Backtesting *)

Lemma run_backtest_short (np : Numpy) (trading_config : TradingConfig)
  (prices : list pyfloat) (timestamps : list Z) (prediction : Prediction) :
  (length prices < 30)%nat ->
  _run_backtest_simulation np trading_config prices timestamps prediction
  = Ok _get_empty_backtest_results.
Proof.
  intros Hshort. unfold _run_backtest_simulation.
  apply Nat.ltb_lt in Hshort. now rewrite Hshort.
Qed.

(** C9: on a history shorter than 30 bars, given as bars or as prices,
    [backtest_prediction] returns the empty report: every numeric field is
    zero and [backtest_period] is "No data". *)
Theorem backtest_short_history (np : Numpy) (trading_config : TradingConfig)
  (prediction : Prediction) (data : ActualData) :
  (data_length data < 30)%nat ->
  backtest_prediction np trading_config prediction (Some data)
  = mkBacktest (Fin 0) 0 0 (Fin 0) (Fin 0) (Fin 0) (Fin 0) (Fin 0) 0 0 0
               (Fin 0) (Fin 0) (Fin 0) (Fin 0) (Fin 0) "No data".
Proof.
  intros Hshort. unfold backtest_prediction.
  destruct (data_length data <? 10)%nat; [reflexivity|].
  destruct data as [bars|prices]; cbn in Hshort.
  - rewrite run_backtest_short by (now rewrite length_map). reflexivity.
  - rewrite run_backtest_short by exact Hshort. reflexivity.
Qed.

Lemma backtest_short_history_witness :
  backtest_prediction fixed_numpy default_trading_config up_prediction
    (Some (Bars (ohlc_data rising_series)))
  = mkBacktest (Fin 0) 0 0 (Fin 0) (Fin 0) (Fin 0) (Fin 0) (Fin 0) 0 0 0
               (Fin 0) (Fin 0) (Fin 0) (Fin 0) (Fin 0) "No data".
Proof.
  apply (backtest_short_history fixed_numpy default_trading_config
           up_prediction (Bars (ohlc_data rising_series))).
  vm_compute. lia.
Defined.

(** A [Prediction] has no attribute [time_horizon_hours]: the property of
    that name belongs to [ChartPredictor]. *)
Lemma prediction_has_no_horizon_hours (prediction : Prediction) :
  getattr prediction "time_horizon_hours"
  = Raise (AttributeError "time_horizon_hours").
Proof. reflexivity. Qed.

Lemma run_backtest_long (np : Numpy) (trading_config : TradingConfig)
  (prices : list pyfloat) (timestamps : list Z) (prediction : Prediction) :
  (30 <= length prices)%nat ->
  _run_backtest_simulation np trading_config prices timestamps prediction
  = Raise (AttributeError "time_horizon_hours").
Proof.
  intros Hlong. unfold _run_backtest_simulation.
  replace (length prices <? 30)%nat with false
    by (symmetry; apply Nat.ltb_ge; exact Hlong).
  rewrite prediction_has_no_horizon_hours. reflexivity.
Qed.

(** C2 does not hold of the code: the bounds of the simulation loop read
    [prediction.time_horizon_hours], which no [Prediction] has, so on a
    history of 30 bars or more the simulation raises before its first
    iteration and [backtest_prediction] falls back to the empty report: no
    prediction is simulated and the accuracy is 0.0, whatever the
    prices. *)
Theorem backtest_never_simulates (np : Numpy)
  (trading_config : TradingConfig) (prediction : Prediction)
  (actual_data : option ActualData) :
  backtest_prediction np trading_config prediction actual_data
  = _get_empty_backtest_results.
Proof.
  unfold backtest_prediction.
  destruct actual_data as [data|]; [|reflexivity].
  destruct (data_length data <? 10)%nat; [reflexivity|].
  destruct data as [bars|prices].
  - destruct (Nat.lt_ge_cases (length (map close bars)) 30) as [Hs|Hl].
    + now rewrite run_backtest_short.
    + now rewrite run_backtest_long.
  - destruct (Nat.lt_ge_cases (length prices) 30) as [Hs|Hl].
    + now rewrite run_backtest_short.
    + now rewrite run_backtest_long.
Qed.

(** Sixty rising prices and the default 24-hour horizon leave sixteen
    indices to simulate, all of which would be UP calls that come true;
    the report is the empty one. *)
Example backtest_on_rising_prices :
  (20 + prediction_horizon default_model_config
   < Z.of_nat (length rising_prices))%Z
  /\ total_predictions
       (backtest_prediction fixed_numpy default_trading_config
          up_prediction (Some (Prices rising_prices))) = 0%Z
  /\ accuracy
       (backtest_prediction fixed_numpy default_trading_config
          up_prediction (Some (Prices rising_prices))) = Fin 0
  /\ backtest_period
       (backtest_prediction fixed_numpy default_trading_config
          up_prediction (Some (Prices rising_prices))) = "No data".
Proof. repeat split; vm_compute; reflexivity. Qed.

(* ===================================================================== *)
(** * Further properties of the code *)
(* ===================================================================== *)

(** ** Order on floats *)

Lemma Qlt_bool_iff (a b : Q) : Qlt_bool a b = true <-> a < b.
Proof.
  unfold Qlt_bool. rewrite negb_true_iff. split.
  - intros H. apply Qnot_le_lt. intros Hle.
    apply Qle_bool_iff in Hle. congruence.
  - intros H. destruct (Qle_bool b a) eqn:E; [|reflexivity].
    apply Qle_bool_iff in E. exfalso. apply (Qlt_not_le _ _ H E).
Qed.

Lemma Qlt_bool_false_iff (a b : Q) : Qlt_bool a b = false <-> b <= a.
Proof.
  unfold Qlt_bool. rewrite negb_false_iff. apply Qle_bool_iff.
Qed.

Lemma Qeq_bool_false_iff (a b : Q) : Qeq_bool a b = false <-> ~ a == b.
Proof.
  split.
  - intros H Heq. apply Qeq_bool_iff in Heq. congruence.
  - intros H. destruct (Qeq_bool a b) eqn:E; [|reflexivity].
    apply Qeq_bool_iff in E. contradiction.
Qed.

Lemma of_nat_nonneg (n : nat) : 0 <= inject_Z (Z.of_nat n).
Proof. change 0 with (inject_Z 0). rewrite <- Zle_Qle. lia. Qed.

Lemma of_nat_le (n m : nat) :
  (n <= m)%nat -> inject_Z (Z.of_nat n) <= inject_Z (Z.of_nat m).
Proof. intros H. rewrite <- Zle_Qle. lia. Qed.

(** ** The data-quality validator, continued *)

Lemma clamp_bounds (b : Q) :
  fle (Fin 0) (max2 (Fin 0) (min2 (Fin 1) (Fin b))) = true
  /\ fle (max2 (Fin 0) (min2 (Fin 1) (Fin b))) (Fin 1) = true.
Proof.
  unfold min2, max2. cbn [flt].
  destruct (Qlt_bool b 1) eqn:Hb1; cbn [flt].
  - apply Qlt_bool_iff in Hb1.
    destruct (Qlt_bool 0 b) eqn:Hb0; cbn [fle].
    + apply Qlt_bool_iff in Hb0. split; apply Qle_bool_iff; lra.
    + split; reflexivity.
  - split; reflexivity.
Qed.

(** X1: whenever the validator returns, the quality score lies in
    [0, 1]. *)
Theorem quality_score_in_unit_interval (chart_data : ChartData)
  (r : ValidationResults) :
  validate_extracted_data chart_data = Ok r ->
  fle (Fin 0) (quality_score r) = true
  /\ fle (quality_score r) (Fin 1) = true.
Proof.
  unfold validate_extracted_data.
  destruct (ohlc_data chart_data) as [|first rest].
  - intros [= <-]. split; reflexivity.
  - destruct (price_changes first rest) as [changes|e]; [|discriminate].
    cbn [mbind result_bind].
    set (n := length (List.filter is_extreme changes)).
    set (k := length (List.filter _ (first :: rest))).
    cbn [fsub fmul fneg fadd of_nat].
    match goal with
    | |- context [min2 (Fin 1) (Fin ?b)] =>
        pose proof (clamp_bounds b) as Hclamp
    end.
    destruct (flt _ (Fin 0.5)); intros [= <-]; exact Hclamp.
Qed.

Lemma quality_score_in_unit_interval_witness :
  fle (Fin 0) (Fin 0.950) = true /\ fle (Fin 0.950) (Fin 1) = true.
Proof.
  apply (quality_score_in_unit_interval gap_series
           (mkValidation true
              ["High number of extreme price changes detected: 1"] []
              (Fin 0.950))).
  vm_compute. reflexivity.
Defined.

Lemma truediv_cases (x y : pyfloat) :
  truediv x y = Ok (fdiv x y) \/ truediv x y = Raise ZeroDivisionError.
Proof.
  destruct y as [b| | |]; cbn; auto. destruct (Qeq_bool b 0); auto.
Qed.

Lemma price_changes_cases (rest : list OHLCData) :
  forall prev,
    (exists changes, price_changes prev rest = Ok changes)
    \/ price_changes prev rest = Raise ZeroDivisionError.
Proof.
  induction rest as [|cur rest IH]; intros prev; cbn [price_changes].
  - left. eauto.
  - destruct (truediv_cases (fabs (fsub (open cur) (close prev)))
                (close prev)) as [-> | ->]; [|right; reflexivity].
    cbn [mbind result_bind].
    destruct (IH cur) as [[tl ->] | ->]; [left; eauto | right; reflexivity].
Qed.

Lemma price_changes_zero_close (rest : list OHLCData) :
  forall (prev : OHLCData) (i : nat) (p : OHLCData),
    (prev :: rest) !! i = Some p ->
    is_Some ((prev :: rest) !! S i) ->
    truthy (close p) = false ->
    price_changes prev rest = Raise ZeroDivisionError.
Proof.
  induction rest as [|cur rest IH]; intros prev i p Hp Hnext Hzero.
  - destruct i; cbn in Hnext; destruct Hnext; discriminate.
  - cbn [price_changes]. destruct i as [|i].
    + injection Hp as <-.
      destruct (close prev) as [q| | |]; try discriminate.
      cbn in Hzero. apply negb_false_iff in Hzero.
      cbn [truediv]. rewrite Hzero. reflexivity.
    + destruct (truediv_cases (fabs (fsub (open cur) (close prev)))
                  (close prev)) as [-> | ->]; [|reflexivity].
      cbn [mbind result_bind].
      rewrite (IH cur i p Hp Hnext Hzero). reflexivity.
Qed.

(** X2: the validator does not return on a series in which a bar that
    has a successor closes at zero: it raises [ZeroDivisionError]. *)
Theorem validate_raises_on_zero_close (chart_data : ChartData) (i : nat)
  (p : OHLCData) :
  ohlc_data chart_data !! i = Some p ->
  is_Some (ohlc_data chart_data !! S i) ->
  truthy (close p) = false ->
  validate_extracted_data chart_data = Raise ZeroDivisionError.
Proof.
  intros Hp Hnext Hzero. unfold validate_extracted_data.
  destruct (ohlc_data chart_data) as [|first rest]; [discriminate|].
  rewrite (price_changes_zero_close rest first i p Hp Hnext Hzero).
  reflexivity.
Qed.

Lemma validate_raises_on_zero_close_witness :
  validate_extracted_data
    (mkChartData [flat_bar 0 0; flat_bar 3600 1] ∅ "1h" "TEST" (Fin 1))
  = Raise ZeroDivisionError.
Proof.
  apply (validate_raises_on_zero_close
           (mkChartData [flat_bar 0 0; flat_bar 3600 1] ∅ "1h" "TEST" (Fin 1))
           0%nat (flat_bar 0 0)).
  - reflexivity.
  - eexists. reflexivity.
  - reflexivity.
Defined.

(** X3: six or more candles that violate
    [low <= min(open, close) <= max(open, close) <= high] make the data
    invalid, whatever the rest of the series looks like. *)
Theorem six_inconsistent_candles_invalid (chart_data : ChartData)
  (r : ValidationResults) :
  validate_extracted_data chart_data = Ok r ->
  (6 <= length (List.filter (fun ohlc => negb (consistent ohlc))
                            (ohlc_data chart_data)))%nat ->
  is_valid r = false
  /\ errors r = ["Data quality score below acceptable threshold"]
  /\ flt (quality_score r) (Fin 0.5) = true.
Proof.
  unfold validate_extracted_data.
  destruct (ohlc_data chart_data) as [|first rest];
    [cbn; intros _ H; lia|].
  destruct (price_changes first rest) as [changes|e]; [|discriminate].
  cbn [mbind result_bind].
  set (n := length (List.filter is_extreme changes)).
  set (k := length (List.filter _ (first :: rest))).
  intros Hr Hk.
  pose proof (of_nat_nonneg n) as Hn.
  pose proof (of_nat_le 6 k Hk) as Hk6. change (inject_Z (Z.of_nat 6)) with 6 in Hk6.
  cbn [fsub fmul fneg fadd of_nat] in Hr.
  set (b := 1 + - (inject_Z (Z.of_nat n) * 0.05)
            + - (inject_Z (Z.of_nat k) * 0.1)) in Hr.
  assert (Hb : b < 0.5) by (subst b; lra).
  assert (Hlow : flt (max2 (Fin 0) (min2 (Fin 1) (Fin b))) (Fin 0.5) = true).
  { unfold min2, max2. cbn [flt].
    replace (Qlt_bool b 1) with true
      by (symmetry; apply Qlt_bool_iff; lra).
    cbn [flt]. destruct (Qlt_bool 0 b); cbn [flt];
      apply Qlt_bool_iff; lra. }
  rewrite Hlow in Hr. injection Hr as <-. cbn. auto.
Qed.

Lemma six_inconsistent_candles_invalid_witness :
  is_valid (mkValidation false
              ["Found 6 candles with inconsistent OHLC values"]
              ["Data quality score below acceptable threshold"]
              (Fin 0.400)) = false
  /\ errors (mkValidation false
               ["Found 6 candles with inconsistent OHLC values"]
               ["Data quality score below acceptable threshold"]
               (Fin 0.400))
     = ["Data quality score below acceptable threshold"]
  /\ flt (quality_score
            (mkValidation false
               ["Found 6 candles with inconsistent OHLC values"]
               ["Data quality score below acceptable threshold"]
               (Fin 0.400))) (Fin 0.5) = true.
Proof.
  apply (six_inconsistent_candles_invalid crossed_series).
  - vm_compute. reflexivity.
  - vm_compute. lia.
Defined.

(** ** Rolling windows *)

Lemma last_rolling_mean (window : nat) (s : list pyfloat) :
  s <> [] ->
  last (rolling_mean window s) = Some (window_mean window (last_n window s)).
Proof.
  intros Hne. unfold rolling_mean. rewrite last_map.
  destruct (length s) as [|m] eqn:Hlen; [destruct s; [congruence|discriminate]|].
  rewrite seq_S, last_snoc. cbn [fmap option_fmap option_map plus].
  rewrite take_ge by lia. reflexivity.
Qed.

Lemma last_n_map {A B} (f : A -> B) (n : nat) (l : list A) :
  last_n n (map f l) = map f (last_n n l).
Proof.
  unfold last_n. rewrite length_map, !map_fmap. symmetry. apply fmap_drop.
Qed.

Lemma length_last_n {A} (n : nat) (l : list A) :
  (n <= length l)%nat -> length (last_n n l) = n.
Proof. intros H. unfold last_n. rewrite length_drop. lia. Qed.

Lemma last_last_n {A} (n : nat) (l : list A) :
  (0 < n)%nat -> last (last_n n l) = last l.
Proof.
  intros Hn. unfold last_n.
  destruct (decide (length l = 0)%nat) as [H0|Hpos].
  - destruct l; [reflexivity | discriminate].
  - rewrite !last_lookup, length_drop, lookup_drop. f_equal. lia.
Qed.

(** ** Moving averages in the indicator map *)

Lemma ma_key_inj (p q : nat) : ma_key p = ma_key q -> p = q.
Proof.
  unfold ma_key. intros H. injection H as H. now apply (inj pretty).
Qed.

(** No other family writes a key that starts with ["MA_"]. *)
Ltac not_ma_key :=
  let H := fresh in
  intros H; unfold ma_key in H; cbv [String.append] in H; discriminate.

Ltac preserve_ma :=
  repeat first
    [ apply preserves_when
    | apply preserves_ret
    | apply preserves_lift
    | apply preserves_getitem
    | apply preserves_setitem; not_ma_key
    | apply preserves_bind; [|intros ?]
    | match goal with
      | |- preserves _ (match ?x with _ => _ end) => destruct x
      | |- preserves _ (let '_ := ?x in _) => destruct x
      end ].

Section MovingAverageFacts.

Variable talib : option TaLib.
Variable manual : ManualIndicators.
Variable tech_config : TechnicalAnalysisConfig.

Lemma rsi_preserves_ma (p : nat) (closes : list pyfloat) :
  preserves (ma_key p) (rsi talib tech_config closes).
Proof using Type. unfold rsi. preserve_ma. Qed.

Lemma macd_preserves_ma (p : nat) (closes : list pyfloat) :
  preserves (ma_key p) (macd talib manual tech_config closes).
Proof using Type. unfold macd. preserve_ma. Qed.

Lemma bollinger_bands_preserves_ma (p : nat) (closes : list pyfloat) :
  preserves (ma_key p) (bollinger_bands talib manual tech_config closes).
Proof using Type. unfold bollinger_bands. preserve_ma. Qed.

Lemma volume_indicators_preserves_ma (p : nat) (volumes : list pyfloat) :
  preserves (ma_key p) (volume_indicators tech_config volumes).
Proof using Type. unfold volume_indicators. preserve_ma. Qed.

Lemma stochastic_preserves_ma (p : nat) (highs lows closes : list pyfloat) :
  preserves (ma_key p)
    (stochastic talib manual tech_config highs lows closes).
Proof using Type. unfold stochastic. preserve_ma. Qed.

(** The loop over the configured periods. *)
Lemma ma_loop (closes : list pyfloat) (periods : list nat) :
  closes <> [] ->
  forall (d : Indicators) (p : nat),
    snd (for_each periods (fun period =>
           when (period <=? length closes)%nat
             (v ← lift (iloc_last (rolling_mean period closes));
              setitem ("MA_" +:+ pretty period) (Some v))) d)
      !! ma_key p
    = if bool_decide (p ∈ periods) && (p <=? length closes)%nat
      then Some (Some (window_mean p (last_n p closes)))
      else d !! ma_key p.
Proof using Type.
  intros Hne. induction periods as [|x l IH]; intros d p.
  - reflexivity.
  - cbn [for_each]. unfold mbind at 1. unfold Try_bind at 1.
    assert (Hbody :
      when (x <=? length closes)%nat
        (v ← lift (iloc_last (rolling_mean x closes));
         setitem ("MA_" +:+ pretty x) (Some v)) d
      = (Ok tt,
         if (x <=? length closes)%nat
         then <[ma_key x := Some (window_mean x (last_n x closes))]> d
         else d)).
    { destruct (x <=? length closes)%nat; [|reflexivity]. cbn [when].
      unfold mbind, Try_bind, lift, iloc_last.
      rewrite (last_rolling_mean _ _ Hne). reflexivity. }
    rewrite Hbody, IH.
    destruct (decide (p ∈ l)) as [Hin|Hnin].
    + rewrite !bool_decide_eq_true_2 by (try right; assumption).
      destruct (p <=? length closes)%nat eqn:Hp; [reflexivity|].
      cbn [andb]. destruct (x <=? length closes)%nat eqn:Hx; [|reflexivity].
      rewrite lookup_insert_ne; [reflexivity|].
      intros Heq. apply ma_key_inj in Heq. subst. congruence.
    + rewrite (bool_decide_eq_false_2 (p ∈ l)) by assumption. cbn [andb].
      destruct (decide (p = x)) as [->|Hne'].
      * rewrite bool_decide_eq_true_2 by left. cbn [andb].
        destruct (x <=? length closes)%nat; [|reflexivity].
        now rewrite lookup_insert_eq.
      * rewrite bool_decide_eq_false_2
          by (intros [?|?]%elem_of_cons; contradiction).
        cbn [andb].
        destruct (x <=? length closes)%nat; [|reflexivity].
        rewrite lookup_insert_ne; [reflexivity|].
        intros Heq. apply ma_key_inj in Heq. congruence.
Qed.

(** X4: on a non-empty series, with or without TA-Lib, the result holds
    the key [MA_<p>] exactly when moving averages are enabled, [p] is one
    of the configured periods and the series has at least [p] bars; its
    value is then the rolling mean of the last [p] closes. *)
Theorem moving_average_entry (chart_data : ChartData) (p : nat) :
  ohlc_data chart_data <> [] ->
  let closes := map close (ohlc_data chart_data) in
  calculate_technical_indicators talib manual tech_config chart_data
    !! ("MA_" +:+ pretty p)
  = if flag (indicators tech_config) "moving_averages"
       && bool_decide (p ∈ ma_periods tech_config)
       && (p <=? length closes)%nat
    then Some (window_mean p (last_n p closes))
    else None.
Proof using Type.
  intros Hne closes. unfold calculate_technical_indicators.
  destruct (ohlc_data chart_data) as [|b df] eqn:Hdata; [congruence|].
  rewrite lookup_omap. unfold try_block. fold closes.
  assert (Hclose : closes <> []) by (subst closes; discriminate).
  rewrite run_then by (apply moving_averages_succeeds; exact Hclose).
  assert (Hrest : preserves (ma_key p)
            (rsi talib tech_config closes;;
             macd talib manual tech_config closes;;
             bollinger_bands talib manual tech_config closes;;
             volume_indicators tech_config (map volume (b :: df));;
             stochastic talib manual tech_config (map high (b :: df))
               (map low (b :: df)) closes)).
  { apply preserves_bind; [apply rsi_preserves_ma | intros _].
    apply preserves_bind; [apply macd_preserves_ma | intros _].
    apply preserves_bind; [apply bollinger_bands_preserves_ma | intros _].
    apply preserves_bind; [apply volume_indicators_preserves_ma | intros _].
    apply stochastic_preserves_ma. }
  change ("MA_" +:+ pretty p) with (ma_key p). rewrite Hrest.
  unfold moving_averages.
  destruct (flag (indicators tech_config) "moving_averages");
    cbn [when andb]; [|reflexivity].
  rewrite (ma_loop closes _ Hclose).
  destruct (bool_decide _ && _); reflexivity.
Qed.

End MovingAverageFacts.

Lemma moving_average_entry_witness :
  calculate_technical_indicators None no_manual default_technical_config
    flat_series !! ("MA_" +:+ pretty 9%nat)
  = if flag (indicators default_technical_config) "moving_averages"
       && bool_decide (9%nat ∈ ma_periods default_technical_config)
       && (9 <=? length (map close (ohlc_data flat_series)))%nat
    then Some (window_mean 9
                 (last_n 9 (map close (ohlc_data flat_series))))
    else None.
Proof.
  apply (moving_average_entry None no_manual default_technical_config
           flat_series 9%nat).
  discriminate.
Defined.

(** The scenario of the specification: thirty flat bars at 100 give
    [MA_9 = 100]. *)
Example ma_9_on_flat_series :
  exists v,
    calculate_technical_indicators None no_manual default_technical_config
      flat_series !! "MA_9" = Some v
    /\ feq v (Fin 100) = true.
Proof. eexists. split; [vm_compute; reflexivity | reflexivity]. Qed.

(** ** Volume indicators on zero volume *)

Lemma succeeds_setitem (key : string) (v : option pyfloat) :
  succeeds (setitem key v).
Proof. intros d. reflexivity. Qed.

Lemma succeeds_then (m k : Try unit) :
  succeeds m -> succeeds k -> succeeds (m ;; k).
Proof.
  intros Hm Hk d. rewrite run_then by apply Hm. apply Hk.
Qed.

Lemma succeeds_when (b : bool) (body : Try unit) :
  succeeds body -> succeeds (when b body).
Proof. intros H. destruct b; [exact H | intros d; reflexivity]. Qed.

(** What [m] wrote under [key] is still there after a continuation that
    leaves [key] alone. *)
Lemma lookup_after {A B} (key : string) (m : Try A) (k : A -> Try B)
  (d : Indicators) :
  (forall a, preserves key (k a)) ->
  snd ((m ≫= k) d) !! key = snd (m d) !! key.
Proof.
  intros Hk. unfold mbind, Try_bind.
  destruct (m d) as [[a|e] d']; cbn [snd]; [apply Hk | reflexivity].
Qed.

Section FallbackFacts.

Variable manual : ManualIndicators.
Variable tech_config : TechnicalAnalysisConfig.

Lemma rsi_succeeds (closes : list pyfloat) :
  succeeds (rsi None tech_config closes).
Proof using Type. unfold rsi. apply succeeds_when, succeeds_setitem. Qed.

Lemma macd_succeeds (closes : list pyfloat) :
  succeeds (macd None manual tech_config closes).
Proof using Type.
  unfold macd. apply succeeds_when.
  destruct (macd_periods tech_config) as [[fast slow] signal].
  apply succeeds_when.
  destruct (_calculate_macd_manual _ _ _ _ _) as [[m s] h].
  repeat apply succeeds_then; apply succeeds_setitem.
Qed.

Lemma bollinger_bands_succeeds (closes : list pyfloat) :
  succeeds (bollinger_bands None manual tech_config closes).
Proof using Type.
  unfold bollinger_bands. do 2 apply succeeds_when.
  destruct (_calculate_bollinger_bands_manual _ _ _ _) as [[u m] l].
  repeat apply succeeds_then; apply succeeds_setitem.
Qed.

Lemma stochastic_preserves_volume_ratio (highs lows closes : list pyfloat) :
  preserves "Volume_Ratio"
    (stochastic None manual tech_config highs lows closes).
Proof using Type. unfold stochastic. preserve. Qed.

(** What the volume family writes when it runs. *)
Lemma volume_indicators_run (volumes : list pyfloat) (cur : pyfloat)
  (d : Indicators) :
  flag (indicators tech_config) "volume" = true ->
  (10 <= length volumes)%nat ->
  last volumes = Some cur ->
  snd (volume_indicators tech_config volumes d) !! "Volume_Ratio"
  = Some (Some (fdiv cur (window_mean 10 (last_n 10 volumes)))).
Proof using Type.
  intros Hflag Hlen Hcur. unfold volume_indicators. rewrite Hflag.
  replace (10 <=? length volumes)%nat with true
    by (symmetry; apply Nat.leb_le; exact Hlen).
  cbn [andb when].
  assert (Hne : volumes <> []) by (intros ->; discriminate).
  unfold mbind, Try_bind, lift, iloc_last, setitem, ChartExtractor.getitem.
  rewrite (last_rolling_mean _ _ Hne), Hcur.
  cbn [snd]. rewrite lookup_insert_eq. cbn [snd].
  now rewrite lookup_insert_eq.
Qed.

Lemma volume_ratio_entry (chart_data : ChartData) (cur : pyfloat) :
  flag (indicators tech_config) "volume" = true ->
  (10 <= length (ohlc_data chart_data))%nat ->
  last (map volume (ohlc_data chart_data)) = Some cur ->
  calculate_technical_indicators None manual tech_config chart_data
    !! "Volume_Ratio"
  = Some (fdiv cur
            (window_mean 10
               (last_n 10 (map volume (ohlc_data chart_data))))).
Proof using Type.
  intros Hflag Hlen Hcur. unfold calculate_technical_indicators.
  destruct (ohlc_data chart_data) as [|b df] eqn:Hdata; [cbn in Hlen; lia|].
  rewrite lookup_omap. unfold try_block.
  set (closes := map close (b :: df)).
  assert (Hclose : closes <> []) by (subst closes; discriminate).
  rewrite run_then by (apply moving_averages_succeeds; exact Hclose).
  rewrite run_then by apply rsi_succeeds.
  rewrite run_then by apply macd_succeeds.
  rewrite run_then by apply bollinger_bands_succeeds.
  rewrite lookup_after
    by (intros _; apply stochastic_preserves_volume_ratio).
  rewrite (volume_indicators_run _ cur) by (try rewrite length_map; assumption).
  reflexivity.
Qed.

End FallbackFacts.

Lemma Qsum_zero (l : list Q) :
  Forall (fun q => q == 0) l -> Qsum l == 0.
Proof.
  induction 1 as [|q l Hq _ IH]; cbn; [reflexivity|].
  rewrite Hq, IH. reflexivity.
Qed.

Lemma window_mean_zero (window : nat) (w : list pyfloat) :
  (0 < window)%nat ->
  length w = window ->
  Forall (fun v => feq v (Fin 0) = true) w ->
  exists a, window_mean window w = Fin a /\ a == 0.
Proof.
  intros Hpos Hlen Hzero.
  assert (Hobs : exists qs, omap observation w = qs
                            /\ length qs = length w
                            /\ Forall (fun q => q == 0) qs).
  { clear Hlen Hpos. induction Hzero as [|v w Hv _ (qs & Hqs & Hl & Hall)].
    - exists []. repeat split. constructor.
    - destruct v as [q| | |]; try discriminate.
      exists (q :: qs). cbn. rewrite Hqs. cbn. repeat split.
      + now rewrite Hl.
      + constructor; [now apply Qeq_bool_iff | exact Hall]. }
  destruct Hobs as (qs & Hqs & Hl & Hall).
  unfold window_mean. rewrite Hqs, Hl, Hlen.
  replace (window <? window)%nat with false
    by (symmetry; apply Nat.ltb_irrefl).
  replace (window =? 0)%nat with false
    by (symmetry; apply Nat.eqb_neq; lia).
  cbn [orb]. eexists. split; [reflexivity|].
  rewrite (Qsum_zero _ Hall). unfold Qdiv. apply Qmult_0_l.
Qed.

(** X5: without TA-Lib, when the volume family is enabled and the last ten
    bars all have zero volume, the result carries ["Volume_Ratio"] with
    the value [nan] (0.0 / 0.0 in numpy); the volume confirmation filter
    then leaves every signal as it is. *)
Theorem volume_ratio_nan_on_zero_volume (manual : ManualIndicators)
  (tech_config : TechnicalAnalysisConfig) (chart_data : ChartData) :
  flag (indicators tech_config) "volume" = true ->
  (10 <= length (ohlc_data chart_data))%nat ->
  Forall (fun v => feq v (Fin 0) = true)
         (last_n 10 (map volume (ohlc_data chart_data))) ->
  let result :=
    calculate_technical_indicators None manual tech_config chart_data in
  result !! "Volume_Ratio" = Some NaN
  /\ forall signal, _apply_volume_filter signal result = signal.
Proof.
  intros Hflag Hlen Hzero result.
  set (volumes := map volume (ohlc_data chart_data)) in *.
  assert (Hvlen : (10 <= length volumes)%nat)
    by (subst volumes; now rewrite length_map).
  destruct (window_mean_zero 10 (last_n 10 volumes)) as (a & Havg & Ha);
    [lia | now apply length_last_n | exact Hzero |].
  destruct (last volumes) as [cur|] eqn:Hcur;
    [|apply last_None in Hcur; rewrite Hcur in Hvlen; cbn in Hvlen; lia].
  assert (Hcur0 : feq cur (Fin 0) = true).
  { rewrite <- (last_last_n 10) in Hcur by lia.
    apply last_Some_elem_of in Hcur.
    rewrite Forall_forall in Hzero. exact (Hzero _ Hcur). }
  assert (Hratio : result !! "Volume_Ratio" = Some NaN).
  { subst result. rewrite (volume_ratio_entry _ _ _ cur Hflag Hlen Hcur).
    fold volumes. rewrite Havg.
    destruct cur as [c| | |]; try discriminate. cbn in Hcur0.
    cbn [fdiv]. apply Qeq_bool_iff in Ha. rewrite Ha.
    unfold inf_signed. apply Qeq_bool_iff, Qeq_alt in Hcur0.
    now rewrite Hcur0. }
  split; [exact Hratio|].
  intros signal. unfold _apply_volume_filter. rewrite Hratio.
  cbn. destruct (action signal); reflexivity.
Qed.

Lemma volume_ratio_nan_on_zero_volume_witness :
  calculate_technical_indicators None no_manual default_technical_config
    zero_volume_series !! "Volume_Ratio" = Some NaN
  /\ forall signal,
       _apply_volume_filter signal
         (calculate_technical_indicators None no_manual
            default_technical_config zero_volume_series) = signal.
Proof.
  apply (volume_ratio_nan_on_zero_volume no_manual default_technical_config
           zero_volume_series).
  - reflexivity.
  - vm_compute. lia.
  - vm_compute. repeat constructor.
Defined.

(** ** The range of the RSI *)

Lemma Qsum_nonneg (l : list Q) :
  Forall (fun q => 0 <= q) l -> 0 <= Qsum l.
Proof.
  induction 1 as [|q l Hq _ IH]; [apply Qle_refl|].
  change (0 <= q + Qsum l). lra.
Qed.

Lemma observations_nonneg (w : list pyfloat) :
  Forall fin_nonneg w -> Forall (fun q => 0 <= q) (omap observation w).
Proof.
  induction 1 as [|x w Hx _ IH]; cbn; [constructor|].
  destruct x as [q| | |]; cbn; try exact IH. constructor; assumption.
Qed.

(** A rolling mean over values that are not negative is [nan] or a
    number that is not negative. *)
Lemma window_mean_nonneg (window : nat) (w : list pyfloat) :
  Forall fin_nonneg w ->
  window_mean window w = NaN
  \/ exists a, window_mean window w = Fin a /\ 0 <= a.
Proof.
  intros Hw. unfold window_mean.
  pose proof (Qsum_nonneg _ (observations_nonneg _ Hw)) as Hsum.
  set (obs := omap observation w) in *.
  destruct (length obs <? window)%nat; [left; reflexivity|].
  destruct (length obs =? 0)%nat eqn:Hz; [left; reflexivity|].
  right. eexists. split; [reflexivity|].
  apply Nat.eqb_neq in Hz.
  apply Qle_shift_div_l.
  - change 0 with (inject_Z 0). rewrite <- Zlt_Qlt. lia.
  - rewrite Qmult_0_l. exact Hsum.
Qed.

Lemma gains_nonneg (delta : list pyfloat) :
  Forall fin_nonneg (where_ (fun d => fgt d (Fin 0)) (Fin 0) delta).
Proof.
  unfold where_. induction delta as [|d delta IH]; [constructor|].
  cbn [map]. constructor; [|exact IH].
  destruct (fgt d (Fin 0)) eqn:Hd; [|apply Qle_refl].
  destruct d as [q| | |]; try exact I.
  apply Qlt_bool_iff in Hd. cbn. lra.
Qed.

Lemma losses_nonneg (delta : list pyfloat) :
  Forall fin_nonneg
         (map fneg (where_ (fun d => flt d (Fin 0)) (Fin 0) delta)).
Proof.
  unfold where_. induction delta as [|d delta IH]; [constructor|].
  cbn [map]. constructor; [|exact IH].
  destruct (flt d (Fin 0)) eqn:Hd; [|cbn; lra].
  destruct d as [q| | |]; try exact I; try discriminate Hd.
  apply Qlt_bool_iff in Hd. cbn. lra.
Qed.

Lemma Forall_last_n {A} (P : A -> Prop) (n : nat) (l : list A) :
  Forall P l -> Forall P (last_n n l).
Proof. intros H. unfold last_n. now apply Forall_drop. Qed.

Lemma Qfloor_bounds (q : Q) (lo hi : Z) :
  inject_Z lo <= q -> q <= inject_Z hi ->
  (lo <= round_half_even q <= hi)%Z.
Proof.
  intros Hlo Hhi. unfold round_half_even.
  pose proof (Qfloor_le q) as Hf.
  pose proof (Qlt_floor q) as Hc.
  assert (Hlf : (lo <= Qfloor q)%Z).
  { rewrite <- (Qfloor_Z lo). now apply Qfloor_resp_le. }
  assert (Hfh : (Qfloor q <= hi)%Z).
  { rewrite <- (Qfloor_Z hi). now apply Qfloor_resp_le. }
  assert (Hup : 0 < q - inject_Z (Qfloor q) -> (Qfloor q + 1 <= hi)%Z).
  { intros Hpos.
    assert (Hlt : inject_Z (Qfloor q) < inject_Z hi) by lra.
    rewrite <- Zlt_Qlt in Hlt. lia. }
  destruct (Qcompare (q - inject_Z (Qfloor q)) (1 # 2)) eqn:Hcmp.
  - apply Qeq_alt in Hcmp. destruct (Z.even (Qfloor q)); [lia|].
    split; [lia|]. apply Hup. lra.
  - lia.
  - apply Qgt_alt in Hcmp. split; [lia|]. apply Hup. lra.
Qed.

Lemma round_within (q : Q) (lo hi : Z) :
  inject_Z lo <= q -> q <= inject_Z hi ->
  exists r, round (Fin q) 2 = Fin r /\ inject_Z lo <= r /\ r <= inject_Z hi.
Proof.
  intros Hlo Hhi. cbn [round]. change (pow10 2) with 100%Z.
  eexists. split; [reflexivity|].
  destruct (Qfloor_bounds (q * inject_Z 100) (lo * 100) (hi * 100))
    as [Hl Hh].
  - rewrite inject_Z_mult. change (inject_Z 100) with 100. lra.
  - rewrite inject_Z_mult. change (inject_Z 100) with 100. lra.
  - set (n := round_half_even (q * inject_Z 100)) in *.
    rewrite Zle_Qle in Hl. rewrite Zle_Qle in Hh.
    rewrite inject_Z_mult in Hl. rewrite inject_Z_mult in Hh.
    change (inject_Z 100) with 100 in *.
    split.
    + apply Qle_shift_div_l; lra.
    + apply Qle_shift_div_r; lra.
Qed.

(** The RSI formula on a mean gain and a mean loss that are not
    negative. *)
Lemma rsi_formula_range (g l : Q) :
  0 <= g -> 0 <= l ->
  let v := fsub (Fin 100)
                (fdiv (Fin 100) (fadd (Fin 1) (fdiv (Fin g) (Fin l)))) in
  v = NaN \/ exists q, v = Fin q /\ 0 <= q /\ q <= 100.
Proof.
  intros Hg Hl. cbn [fdiv].
  destruct (Qeq_bool l 0) eqn:Hl0.
  - unfold inf_signed. destruct (Qcompare g 0) eqn:Hcmp.
    + left. reflexivity.
    + apply Qlt_alt in Hcmp. lra.
    + right. cbn. eexists. split; [reflexivity|]. lra.
  - apply Qeq_bool_false_iff in Hl0.
    assert (Hlpos : 0 < l) by (destruct (Qlt_le_dec 0 l); [assumption|];
                               exfalso; apply Hl0; lra).
    assert (Hr : 0 <= g / l) by (apply Qle_shift_div_l; lra).
    set (r := g / l) in *. cbn [fadd fdiv].
    replace (Qeq_bool (1 + r) 0) with false
      by (symmetry; apply Qeq_bool_false_iff; lra).
    right. cbn [fsub fneg fadd]. eexists. split; [reflexivity|].
    assert (Hu0 : 0 <= 100 / (1 + r)) by (apply Qle_shift_div_l; lra).
    assert (Hu1 : 100 / (1 + r) <= 100) by (apply Qle_shift_div_r; lra).
    lra.
Qed.

(** X6: whenever [_calculate_rsi_manual] returns a value, it lies in
    [0, 100]. *)
Theorem rsi_manual_range (prices : list pyfloat) (period : nat)
  (v : pyfloat) :
  _calculate_rsi_manual prices period = Some v ->
  fle (Fin 0) v = true /\ fle v (Fin 100) = true.
Proof.
  intros Hv.
  destruct (last (rsi_gain prices period)) as [gain|] eqn:Hg.
  2:{ unfold _calculate_rsi_manual, iloc_last in Hv.
      rewrite last_map in Hv.
      apply last_None in Hg.
      assert (Hz : zip_with fdiv (rsi_gain prices period)
                     (rsi_loss prices period) = [])
        by (rewrite Hg; reflexivity).
      rewrite Hz in Hv. discriminate. }
  destruct (last (rsi_loss prices period)) as [loss|] eqn:Hl.
  2:{ apply last_None in Hl. apply (f_equal length) in Hl.
      rewrite length_rsi_loss in Hl.
      assert (Hgl : length (rsi_gain prices period) = 0%nat)
        by (rewrite length_rsi_gain; exact Hl).
      destruct (rsi_gain prices period); [discriminate Hg | discriminate Hgl]. }
  rewrite (rsi_manual_from_means _ _ _ _ Hg Hl) in Hv. cbv zeta in Hv.
  assert (Hne : diff prices <> []).
  { intros Hnil. unfold rsi_gain in Hg. rewrite Hnil in Hg. discriminate. }
  unfold rsi_gain in Hg. unfold rsi_loss in Hl.
  rewrite last_rolling_mean in Hg
    by (unfold where_; destruct (diff prices); [congruence | discriminate]).
  rewrite last_rolling_mean in Hl
    by (unfold where_; destruct (diff prices); [congruence | discriminate]).
  assert (HG : gain = NaN \/ exists a, gain = Fin a /\ 0 <= a).
  { injection Hg as <-.
    apply window_mean_nonneg, Forall_last_n, gains_nonneg. }
  assert (HL : loss = NaN \/ exists a, loss = Fin a /\ 0 <= a).
  { injection Hl as <-.
    apply window_mean_nonneg, Forall_last_n, losses_nonneg. }
  clear Hg Hl.
  destruct HG as [-> | (g & -> & Hg0)]; [discriminate Hv|].
  destruct HL as [-> | (l & -> & Hl0)]; [discriminate Hv|].
  destruct (rsi_formula_range g l Hg0 Hl0) as [Hnan | (q & Hq & Hq0 & Hq1)];
    cbv zeta in *;
    [rewrite Hnan in Hv; discriminate Hv | rewrite Hq in Hv].
  cbn [isnan] in Hv.
  assert (Hround : v = round (Fin q) 2) by (injection Hv as <-; reflexivity).
  destruct (round_within q 0 100) as (r & Hr & Hr0 & Hr1);
    [exact Hq0 | exact Hq1 |].
  rewrite Hround, Hr. split; apply Qle_bool_iff; assumption.
Qed.

Lemma rsi_manual_range_witness :
  fle (Fin 0) (Fin 66.67) = true /\ fle (Fin 66.67) (Fin 100) = true.
Proof.
  apply (rsi_manual_range zigzag_prices 14 (Fin 66.67)).
  vm_compute. reflexivity.
Defined.

(** ** Vote counts and the confidence of a prediction *)

Lemma rsi_vote_one_more (ta : gmap string pyfloat) (v : Votes) :
  one_more_vote v (rsi_vote ta v).
Proof.
  unfold rsi_vote, one_more_vote.
  repeat match goal with
         | |- context [match ?x with _ => _ end] => destruct x
         end; auto.
Qed.

Lemma macd_vote_one_more (ta : gmap string pyfloat) (v : Votes) :
  one_more_vote v (macd_vote ta v).
Proof.
  unfold macd_vote, one_more_vote.
  repeat match goal with
         | |- context [match ?x with _ => _ end] => destruct x
         end; auto.
Qed.

Lemma ma_vote_one_more (cp : pyfloat) (ta : gmap string pyfloat)
  (v : Votes) :
  one_more_vote v (ma_vote cp ta v).
Proof.
  unfold ma_vote, one_more_vote.
  repeat match goal with
         | |- context [match ?x with _ => _ end] => destruct x
         end; auto.
Qed.

Lemma one_more_vote_bounds (v v' : Votes) (n : Z) :
  one_more_vote v v' ->
  (0 <= bullish_signals v)%Z -> (0 <= bearish_signals v)%Z ->
  (bullish_signals v + bearish_signals v <= n)%Z ->
  (0 <= bullish_signals v')%Z /\ (0 <= bearish_signals v')%Z
  /\ (bullish_signals v' + bearish_signals v' <= n + 1)%Z.
Proof.
  intros [-> | [-> | ->]] Hb Hs Hn; cbn; lia.
Qed.

Lemma count_votes_bounds (chart_data : ChartData)
  (ta : gmap string pyfloat) :
  let v := count_votes chart_data ta in
  (0 <= bullish_signals v)%Z /\ (0 <= bearish_signals v)%Z
  /\ (bullish_signals v + bearish_signals v <= 3)%Z.
Proof.
  unfold count_votes.
  destruct (one_more_vote_bounds _ _ 0 (rsi_vote_one_more ta (mkVotes 0 0)))
    as (H1 & H2 & H3); cbn; try lia.
  destruct (one_more_vote_bounds _ _ 1
              (macd_vote_one_more ta (rsi_vote ta (mkVotes 0 0))))
    as (H4 & H5 & H6); try assumption.
  exact (one_more_vote_bounds _ _ 2
           (ma_vote_one_more (current_price_of chart_data) ta _) H4 H5 H6).
Qed.

(** The confidence for a vote difference between 1 and 3. *)
Lemma decided_confidence (d : Z) :
  (1 <= d <= 3)%Z ->
  exists c,
    min2 (Fin 0.9) (fadd (Fin 0.5) (fmul (of_Z d) (Fin 0.15))) = Fin c
    /\ 0.65 <= c /\ c <= 0.9
    /\ (0.8 < c -> d = 3%Z).
Proof.
  intros Hd.
  assert (Hcases : d = 1%Z \/ d = 2%Z \/ d = 3%Z) by lia.
  destruct Hcases as [-> | [-> | ->]]; eexists;
    (split; [vm_compute; reflexivity|]);
    repeat split; try lra; try reflexivity; intros H; lra.
Qed.

(** X7: the predictor casts at most three votes, and its confidence lies
    in [0.5, 0.9]; for a decided direction it is at least 0.65. *)
Theorem prediction_confidence_range (model_config : ModelConfig)
  (chart_data : ChartData) (technical_analysis : gmap string pyfloat) :
  let v := count_votes chart_data technical_analysis in
  let p := predict_price_movement model_config chart_data
             technical_analysis in
  (0 <= bullish_signals v)%Z /\ (0 <= bearish_signals v)%Z
  /\ (bullish_signals v + bearish_signals v <= 3)%Z
  /\ fle (Fin 0.5) (confidence p) = true
  /\ fle (confidence p) (Fin 0.9) = true
  /\ fle (Fin 0.65) (confidence p)
     = negb (bool_decide (direction p = SIDEWAYS)).
Proof.
  intros v p.
  destruct (count_votes_bounds chart_data technical_analysis)
    as (Hb & Hs & Hn). fold v in Hb, Hs, Hn.
  repeat (split; [assumption|]).
  subst p. unfold predict_price_movement. fold v.
  destruct (Z.ltb_spec (bearish_signals v) (bullish_signals v)) as [Hup|Hnup].
  - cbn [direction confidence].
    destruct (decided_confidence (bullish_signals v - bearish_signals v))
      as (c & -> & Hlo & Hhi & _); [lia|].
    repeat split; try (apply Qle_bool_iff; lra).
  - destruct (Z.ltb_spec (bullish_signals v) (bearish_signals v))
      as [Hdown|Hndown].
    + cbn [direction confidence].
      destruct (decided_confidence (bearish_signals v - bullish_signals v))
        as (c & -> & Hlo & Hhi & _); [lia|].
      repeat split; try (apply Qle_bool_iff; lra).
    + cbn [direction confidence]. repeat split.
Qed.

(** ** The target price *)

Lemma truthy_scaled (x : pyfloat) (c : Q) :
  ~ c == 0 -> 0 < c -> truthy (fmul x (Fin c)) = truthy x.
Proof.
  intros Hc Hpos. destruct x as [q| | |]; cbn; try reflexivity.
  - destruct (Qeq_bool q 0) eqn:Hq.
    + apply Qeq_bool_iff in Hq. cbn. apply negb_false_iff, Qeq_bool_iff.
      rewrite Hq. ring.
    + apply Qeq_bool_false_iff in Hq. cbn.
      apply negb_true_iff, Qeq_bool_false_iff.
      intros H. apply Qmult_integral in H. tauto.
  - unfold inf_signed. apply Qgt_alt in Hpos. now rewrite Hpos.
  - unfold inf_signed. apply Qgt_alt in Hpos. now rewrite Hpos.
Qed.

(** X8: the prediction has no target price exactly when the current
    price is zero. *)
Theorem target_price_none_iff (model_config : ModelConfig)
  (chart_data : ChartData) (technical_analysis : gmap string pyfloat) :
  target_price (predict_price_movement model_config chart_data
                  technical_analysis) = None
  <-> truthy (current_price_of chart_data) = false.
Proof.
  unfold predict_price_movement.
  assert (Hround : forall x, round_if x = None <-> truthy x = false).
  { intros x. unfold round_if. destruct (truthy x); split; congruence. }
  destruct (_ <? _)%Z; [|destruct (_ <? _)%Z]; cbn [target_price];
    rewrite Hround; try rewrite truthy_scaled; try reflexivity;
    try (intros H; vm_compute in H; discriminate); reflexivity.
Qed.

(** ** From a prediction to a signal *)

Lemma base_signal_action (trading_config : TradingConfig)
  (prediction : Prediction) (base : TradingSignal) :
  base_signal trading_config prediction = Ok base ->
  (flt (confidence prediction) (Fin 0.6) = true ->
   action base = HOLD /\ strength base = Weak /\ entry_price base = None)
  /\ (flt (confidence prediction) (Fin 0.6) = false ->
      action base = action_for (direction prediction)
      /\ (strength base = Strong ->
          fgt (confidence prediction) (Fin 0.8) = true)).
Proof.
  unfold base_signal.
  destruct (flt (confidence prediction) (Fin 0.6)).
  - intros [= <-]. split; [auto | discriminate].
  - destruct (direction prediction).
    + destruct (_ : result pyfloat) as [r|e]; [|discriminate].
      cbn [mbind result_bind].
      destruct (fgt (confidence prediction) (Fin 0.8)) eqn:Hstrong;
        intros [= <-]; (split; [discriminate|]); intros _;
        cbn [action strength]; (split; [reflexivity|]);
        intros; congruence.
    + destruct (_ : result pyfloat) as [r|e]; [|discriminate].
      cbn [mbind result_bind].
      destruct (fgt (confidence prediction) (Fin 0.8)) eqn:Hstrong;
        intros [= <-]; (split; [discriminate|]); intros _;
        cbn [action strength]; (split; [reflexivity|]);
        intros; congruence.
    + intros [= <-]. split; [discriminate|]. intros _.
      cbn [action strength]. split; [reflexivity | discriminate].
Qed.

(** X9: a signal generated from a prediction of [predict_price_movement]
    is BUY for UP, SELL for DOWN and HOLD for SIDEWAYS; a SIDEWAYS
    prediction always takes the low-confidence branch, so its HOLD is Weak
    and never Medium; and a Strong signal needs all three votes on one
    side. *)
Theorem signal_of_prediction (model_config : ModelConfig)
  (trading_config : TradingConfig) (chart_data : ChartData)
  (technical_analysis filter_analysis : gmap string pyfloat)
  (signal : TradingSignal) :
  let v := count_votes chart_data technical_analysis in
  let p := predict_price_movement model_config chart_data
             technical_analysis in
  generate_trading_signals trading_config p filter_analysis = Ok signal ->
  action signal = action_for (direction p)
  /\ (direction p = SIDEWAYS -> strength signal = Weak)
  /\ (strength signal = Strong ->
      Z.abs (bullish_signals v - bearish_signals v) = 3%Z).
Proof.
  intros v p Hgen.
  destruct (base_signal trading_config p) as [base|e] eqn:Hbase;
    [|unfold generate_trading_signals in Hgen; rewrite Hbase in Hgen;
      discriminate].
  destruct (generate_downgrades_base _ _ filter_analysis _ Hbase)
    as (signal' & Hgen' & Haction & _ & _ & _ & _ & Hrank & _).
  assert (signal' = signal) as -> by congruence.
  destruct (base_signal_action _ _ _ Hbase) as [Hlow Hhigh].
  destruct (count_votes_bounds chart_data technical_analysis)
    as (Hb & Hs & Hn). fold v in Hb, Hs, Hn.
  revert Hlow Hhigh. subst p. unfold predict_price_movement. fold v.
  destruct (Z.ltb_spec (bearish_signals v) (bullish_signals v)) as [Hup|Hnup];
    [|destruct (Z.ltb_spec (bullish_signals v) (bearish_signals v))
        as [Hdown|Hndown]];
    cbn [direction confidence].
  - destruct (decided_confidence (bullish_signals v - bearish_signals v))
      as (c & -> & Hlo & Hhi & Hstrong); [lia|].
    intros _ Hhigh.
    destruct Hhigh as [Hact Hconf];
      [apply Qlt_bool_false_iff; lra|].
    split; [rewrite Haction; exact Hact|]. split; [discriminate|].
    intros Hs3. rewrite Hs3 in Hrank.
    assert (strength base = Strong)
      by (destruct (strength base); cbn in Hrank; solve [reflexivity | lia]).
    specialize (Hconf ltac:(assumption)).
    apply Qlt_bool_iff in Hconf. rewrite (Hstrong Hconf). reflexivity.
  - destruct (decided_confidence (bearish_signals v - bullish_signals v))
      as (c & -> & Hlo & Hhi & Hstrong); [lia|].
    intros _ Hhigh.
    destruct Hhigh as [Hact Hconf];
      [apply Qlt_bool_false_iff; lra|].
    split; [rewrite Haction; exact Hact|]. split; [discriminate|].
    intros Hs3. rewrite Hs3 in Hrank.
    assert (strength base = Strong)
      by (destruct (strength base); cbn in Hrank; solve [reflexivity | lia]).
    specialize (Hconf ltac:(assumption)).
    apply Qlt_bool_iff in Hconf.
    pose proof (Hstrong Hconf). lia.
  - intros Hlow _. destruct (Hlow eq_refl) as (Hact & Hweak & _).
    split; [rewrite Haction; exact Hact|].
    assert (Hsw : strength signal = Weak).
    { rewrite Hweak in Hrank. destruct (strength signal); cbn in Hrank;
        solve [reflexivity | lia]. }
    split; [intros _; exact Hsw | rewrite Hsw; discriminate].
Qed.

Lemma signal_of_prediction_witness :
  action (mkSignal HOLD Weak None None None (Fin 0)
            "Low prediction confidence suggests waiting for clearer signals")
  = action_for
      (direction (predict_price_movement default_model_config
                    no_levels_series zero_macd_analysis))
  /\ (direction (predict_price_movement default_model_config
                   no_levels_series zero_macd_analysis) = SIDEWAYS ->
      strength
        (mkSignal HOLD Weak None None None (Fin 0)
           "Low prediction confidence suggests waiting for clearer signals")
      = Weak)
  /\ (strength
        (mkSignal HOLD Weak None None None (Fin 0)
           "Low prediction confidence suggests waiting for clearer signals")
      = Strong ->
      Z.abs (bullish_signals
               (count_votes no_levels_series zero_macd_analysis)
             - bearish_signals
                 (count_votes no_levels_series zero_macd_analysis)) = 3%Z).
Proof.
  apply (signal_of_prediction default_model_config default_trading_config
           no_levels_series zero_macd_analysis weak_market).
  vm_compute. reflexivity.
Defined.

(** A prediction on which all three votes are bullish gives a Strong BUY
    when no filter is in the way. *)
Example strong_buy_needs_three_votes :
  count_votes no_levels_series bullish_analysis = mkVotes 3 0
  /\ exists signal,
       generate_trading_signals default_trading_config
         (predict_price_movement default_model_config no_levels_series
            bullish_analysis) ∅ = Ok signal
       /\ action signal = BUY /\ strength signal = Strong.
Proof.
  split; [vm_compute; reflexivity|].
  eexists. split; [vm_compute; reflexivity|]. split; reflexivity.
Qed.

(** ** When the signal generator raises *)

(** The distance between an entry price and its stop, [e * (1 - k)] below
    or [e * (1 + k)] above, is never zero when [k] is not. *)
Lemma stop_distance_truthy (e : pyfloat) (k : Q) :
  truthy e = true -> ~ k == 0 ->
  truthy (fsub e (fmul e (fsub (Fin 1) (Fin k)))) = true
  /\ truthy (fsub (fmul e (fadd (Fin 1) (Fin k))) e) = true.
Proof.
  intros He Hk. destruct e as [q| | |]; cbn in He |- *.
  - apply negb_true_iff, Qeq_bool_false_iff in He.
    split; apply negb_true_iff, Qeq_bool_false_iff; intros H;
      apply He.
    + assert (Hq : q * k == 0) by (rewrite <- H; ring).
      apply Qmult_integral in Hq. tauto.
    + assert (Hq : q * k == 0) by (rewrite <- H; ring).
      apply Qmult_integral in Hq. tauto.
  - unfold inf_signed.
    split; repeat match goal with
                  | |- context [Qcompare ?a ?b] => destruct (Qcompare a b)
                  end; reflexivity.
  - unfold inf_signed.
    split; repeat match goal with
                  | |- context [Qcompare ?a ?b] => destruct (Qcompare a b)
                  end; reflexivity.
  - split; reflexivity.
Qed.

Lemma if_truthy_some (x : option pyfloat) (f : pyfloat -> pyfloat)
  (y : pyfloat) :
  if_truthy x f = Some y ->
  exists v, x = Some v /\ truthy v = true /\ y = f v.
Proof.
  destruct x as [v|]; cbn; [|discriminate].
  destruct (truthy v) eqn:Hv; [|discriminate].
  intros [= <-]. eauto.
Qed.

(** X10: for settings in their validated ranges (a risk per trade in
    [0.001, 0.1] and a stop-loss multiplier in [1, 5]),
    [generate_trading_signals] returns a signal for every prediction
    that [predict_price_movement] produces, whatever the chart data and
    the indicators are: the stop differs from the entry, so the division
    for the risk/reward ratio never meets a zero. *)
Theorem generate_returns (trading_config : TradingConfig)
  (model_config : ModelConfig) (chart_data : ChartData)
  (technical_analysis : gmap string pyfloat) (risk mult : Q) :
  max_risk_per_trade trading_config = Fin risk ->
  stop_loss_multiplier trading_config = Fin mult ->
  0.001 <= risk -> risk <= 0.1 -> 1 <= mult -> mult <= 5 ->
  let prediction :=
    predict_price_movement model_config chart_data technical_analysis in
  exists signal,
    generate_trading_signals trading_config prediction technical_analysis
    = Ok signal.
Proof.
  intros Hrisk Hmult Hr0 Hr1 Hm0 Hm1 prediction.
  assert (Hk : ~ risk * mult == 0) by (intros H; nra).
  cut (exists base, base_signal trading_config prediction = Ok base).
  { intros [base Hbase].
    destruct (generate_downgrades_base _ _ technical_analysis _ Hbase)
      as (signal & Hgen & _). eauto. }
  unfold base_signal. rewrite Hrisk, Hmult. cbn [fmul].
  destruct (flt (confidence prediction) (Fin 0.6)); [eauto|].
  destruct (direction prediction); [| |eauto].
  - set (entry := if_truthy (target_price prediction) _).
    destruct entry as [e|] eqn:Hentry; [|cbn; eauto].
    cbn [if_truthy]. destruct (truthy e) eqn:He; [|cbn; eauto].
    destruct (stop_distance_truthy e _ He Hk) as [Hdist _].
    match goal with
    | |- context [if ?c then truediv ?x ?y else _] =>
        destruct c; [rewrite (truediv_truthy x y Hdist)|]
    end; cbn [mbind result_bind]; eauto.
  - set (entry := if_truthy (target_price prediction) _).
    destruct entry as [e|] eqn:Hentry; [|cbn; eauto].
    cbn [if_truthy]. destruct (truthy e) eqn:He; [|cbn; eauto].
    destruct (stop_distance_truthy e _ He Hk) as [_ Hdist].
    match goal with
    | |- context [if ?c then truediv ?x ?y else _] =>
        destruct c; [rewrite (truediv_truthy x y Hdist)|]
    end; cbn [mbind result_bind]; eauto.
Qed.

Lemma generate_returns_witness :
  exists signal,
    generate_trading_signals default_trading_config
      (predict_price_movement default_model_config no_levels_series
         bullish_analysis)
      bullish_analysis = Ok signal.
Proof.
  apply (generate_returns default_trading_config default_model_config
           no_levels_series bullish_analysis 0.02 2).
  - reflexivity.
  - reflexivity.
  - unfold Qle. cbn. lia.
  - unfold Qle. cbn. lia.
  - unfold Qle. cbn. lia.
  - unfold Qle. cbn. lia.
Defined.

(** With a risk of zero the stop coincides with the entry, and a
    confident UP prediction makes the generator raise. *)
Example generate_raises_on_zero_risk :
  generate_trading_signals
    (mkTradingConfig "medium" (Fin 0) (Fin 2) (Fin 3) ∅)
    up_prediction ∅
  = Raise ZeroDivisionError.
Proof. vm_compute. reflexivity. Qed.

(** ** The risk/reward ratio *)

Lemma round_half_even_comp (a b : Q) :
  a == b -> round_half_even a = round_half_even b.
Proof.
  intros H. unfold round_half_even.
  rewrite (Qfloor_comp a b H).
  assert (Hc : Qcompare (a - inject_Z (Qfloor b)) (1 # 2)
               = Qcompare (b - inject_Z (Qfloor b)) (1 # 2)).
  { apply Qcompare_comp; [rewrite H; reflexivity | reflexivity]. }
  rewrite Hc. reflexivity.
Qed.

Lemma round_comp (a b : Q) (d : nat) :
  a == b -> feq (round (Fin a) d) (round (Fin b) d) = true.
Proof.
  intros H. cbn [round feq]. apply Qeq_bool_iff.
  rewrite (round_half_even_comp (a * inject_Z (pow10 d))
             (b * inject_Z (pow10 d))) by (rewrite H; reflexivity).
  reflexivity.
Qed.

(** Decides a zero test on a product whose factors are not zero. *)
Ltac not_zero :=
  let H := fresh "Hz" in
  intros H;
  repeat (apply Qmult_integral in H; destruct H as [H|H]);
  first [ contradiction | lra ].

Ltac zero_tests_false :=
  repeat match goal with
         | |- context [Qeq_bool ?x 0] =>
             replace (Qeq_bool x 0) with false
               by (symmetry; apply Qeq_bool_false_iff; not_zero)
         end.

Section RatioFacts.

Variable trading_config : TradingConfig.
Variable prediction : Prediction.
Variables r m pm t : Q.

Hypothesis Hrisk : max_risk_per_trade trading_config = Fin r.
Hypothesis Hstop : stop_loss_multiplier trading_config = Fin m.
Hypothesis Hprofit : take_profit_multiplier trading_config = Fin pm.
Hypothesis Hk0 : 0 < r * m.
Hypothesis Hk1 : r * m < 1.
Hypothesis Hp0 : 0 < r * pm.
Hypothesis Hp1 : r * pm < 1.
Hypothesis Htarget : target_price prediction = Some (Fin t).
Hypothesis Htz : ~ t == 0.
Hypothesis Hconf : flt (confidence prediction) (Fin 0.6) = false.

Lemma multipliers_not_zero : ~ r == 0 /\ ~ m == 0.
Proof using Hk0.
  split; intros H0; rewrite H0 in Hk0; lra.
Qed.

Lemma base_ratio_up :
  direction prediction = UP ->
  exists base,
    base_signal trading_config prediction = Ok base
    /\ feq (risk_reward_ratio base) (round (Fin (pm / m)) 2) = true.
Proof using Hrisk Hstop Hprofit Hk0 Hk1 Hp0 Hp1 Htarget Htz Hconf.
  intros Hdir. destruct multipliers_not_zero as [Hrz Hmz].
  unfold base_signal.
  rewrite Hconf, Hdir, Htarget, Hrisk, Hstop, Hprofit. cbn [fmul].
  remember (r * m) as k eqn:Ek. remember (r * pm) as kp eqn:Ekp.
  cbn [if_truthy truthy fmul fsub fadd fneg].
  zero_tests_false.
  cbn [negb andb if_truthy truthy truediv fsub fadd fneg fmul].
  zero_tests_false.
  cbn [negb andb if_truthy truthy truediv fsub fadd fneg fmul].
  zero_tests_false. cbn [negb andb].
  assert (Hden : ~ t * 0.98 + - (t * 0.98 * (1 + - k)) == 0).
  { intros H. assert (Hqk : t * k == 0) by lra.
    apply Qmult_integral in Hqk. destruct Hqk; [contradiction | lra]. }
  apply Qeq_bool_false_iff in Hden. rewrite Hden. cbn [fdiv]. rewrite Hden.
  cbn [mbind result_bind]. eexists. split; [reflexivity|].
  cbn [risk_reward_ratio]. apply round_comp.
  apply Qeq_bool_false_iff in Hden. subst k kp.
  field. repeat split; assumption.
Qed.

Lemma base_ratio_down :
  direction prediction = DOWN ->
  exists base,
    base_signal trading_config prediction = Ok base
    /\ feq (risk_reward_ratio base) (round (Fin (pm / m)) 2) = true.
Proof using Hrisk Hstop Hprofit Hk0 Hk1 Hp0 Hp1 Htarget Htz Hconf.
  intros Hdir. destruct multipliers_not_zero as [Hrz Hmz].
  unfold base_signal.
  rewrite Hconf, Hdir, Htarget, Hrisk, Hstop, Hprofit. cbn [fmul].
  remember (r * m) as k eqn:Ek. remember (r * pm) as kp eqn:Ekp.
  cbn [if_truthy truthy fmul fsub fadd fneg].
  zero_tests_false.
  cbn [negb andb if_truthy truthy truediv fsub fadd fneg fmul].
  zero_tests_false.
  cbn [negb andb if_truthy truthy truediv fsub fadd fneg fmul].
  zero_tests_false. cbn [negb andb].
  assert (Hden : ~ t * 1.02 * (1 + k) + - (t * 1.02) == 0).
  { intros H. assert (Hqk : t * k == 0) by lra.
    apply Qmult_integral in Hqk. destruct Hqk; [contradiction | lra]. }
  apply Qeq_bool_false_iff in Hden. rewrite Hden. cbn [fdiv]. rewrite Hden.
  cbn [mbind result_bind]. eexists. split; [reflexivity|].
  cbn [risk_reward_ratio]. apply round_comp.
  apply Qeq_bool_false_iff in Hden. subst k kp.
  field. repeat split; assumption.
Qed.

End RatioFacts.

(** Rounding to two decimals moves a number by at most half a cent. *)
Lemma round_error (q : Q) :
  exists z, round (Fin q) 2 = Fin z /\ Qabs (z - q) <= 0.005.
Proof.
  cbn [round]. change (pow10 2) with 100%Z. change (inject_Z 100) with 100.
  eexists. split; [reflexivity|].
  set (y := q * 100).
  assert (Hy : Qabs (inject_Z (round_half_even y) - y) <= 1 # 2).
  { unfold round_half_even.
    pose proof (Qfloor_le y) as Hf. pose proof (Qlt_floor y) as Hc.
    rewrite inject_Z_plus in Hc. change (inject_Z 1) with 1 in Hc.
    apply Qabs_Qle_condition.
    destruct (Qcompare (y - inject_Z (Qfloor y)) (1 # 2)) eqn:Hcmp.
    - apply Qeq_alt in Hcmp.
      destruct (Z.even (Qfloor y));
        [|rewrite inject_Z_plus; change (inject_Z 1) with 1];
        split; lra.
    - apply Qlt_alt in Hcmp. split; lra.
    - apply Qgt_alt in Hcmp. rewrite inject_Z_plus.
      change (inject_Z 1) with 1. split; lra. }
  apply Qabs_Qle_condition in Hy. apply Qabs_Qle_condition.
  remember (inject_Z (round_half_even y)) as w eqn:Hw. clear Hw.
  unfold y in Hy. clear y. unfold Qdiv. change (/ 100) with (1 # 100).
  split; lra.
Qed.

(** X11: for settings in their validated ranges (risk per trade in
    [0.001, 0.1], stop-loss multiplier in [1, 5], take-profit multiplier
    of at least 1) with risk times take-profit multiplier at most 0.99,
    and a prediction with confidence of at least 0.6, direction UP or
    DOWN and a target price between one cent and 10^12 in magnitude, the
    signal's risk/reward ratio lies within 0.01 of the take-profit
    multiplier over the stop-loss multiplier, whatever the price. *)
Theorem ratio_near_multiplier_ratio (trading_config : TradingConfig)
  (prediction : Prediction) (technical_analysis : gmap string pyfloat)
  (r m pm t : Q) :
  max_risk_per_trade trading_config = Fin r ->
  stop_loss_multiplier trading_config = Fin m ->
  take_profit_multiplier trading_config = Fin pm ->
  0.001 <= r -> r <= 0.1 -> 1 <= m -> m <= 5 ->
  1 <= pm -> r * pm <= 0.99 ->
  target_price prediction = Some (Fin t) ->
  0.01 <= Qabs t -> Qabs t <= 1000000000000 ->
  flt (confidence prediction) (Fin 0.6) = false ->
  direction prediction <> SIDEWAYS ->
  exists signal ratio,
    generate_trading_signals trading_config prediction technical_analysis
    = Ok signal
    /\ risk_reward_ratio signal = Fin ratio
    /\ Qabs (ratio - pm / m) <= 0.01.
Proof.
  intros Hr Hm Hpm Hr0 Hr1 Hm0 Hm1 Hpm0 Hkp Ht Ht0 Ht1 Hconf Hdir.
  assert (Hk0 : 0 < r * m) by nra.
  assert (Hk1 : r * m < 1) by nra.
  assert (Hp0 : 0 < r * pm) by nra.
  assert (Hp1 : r * pm < 1) by lra.
  assert (Htz : ~ t == 0).
  { intros Hz. rewrite Hz in Ht0. change (Qabs 0) with 0 in Ht0. lra. }
  assert (Hbase : exists base,
             base_signal trading_config prediction = Ok base
             /\ feq (risk_reward_ratio base) (round (Fin (pm / m)) 2) = true).
  { destruct (direction prediction) eqn:Hd; [| |congruence].
    - eapply base_ratio_up; eassumption.
    - eapply base_ratio_down; eassumption. }
  destruct Hbase as (base & Hbase & Hratio).
  destruct (generate_downgrades_base _ _ technical_analysis _ Hbase)
    as (signal & Hgen & _ & _ & _ & _ & Hsame & _).
  destruct (round_error (pm / m)) as (z & Hz & Hnear).
  rewrite Hz, <- Hsame in Hratio.
  destruct (risk_reward_ratio signal) as [ratio| | |] eqn:Hsignal;
    try discriminate Hratio.
  cbn [feq] in Hratio. apply Qeq_bool_iff in Hratio.
  exists signal, ratio. split; [exact Hgen|]. split; [exact Hsignal|].
  apply Qabs_Qle_condition in Hnear. apply Qabs_Qle_condition.
  remember (pm / m) as x. split; lra.
Qed.

Lemma ratio_near_multiplier_ratio_witness :
  exists signal ratio,
    generate_trading_signals default_trading_config up_prediction
      weak_market = Ok signal
    /\ risk_reward_ratio signal = Fin ratio
    /\ Qabs (ratio - 3 / 2) <= 0.01.
Proof.
  apply (ratio_near_multiplier_ratio default_trading_config up_prediction
           weak_market 0.02 2 3 105); try reflexivity;
    try (unfold Qle; cbn; lia).
  discriminate.
Defined.

(** ** The pieces of the backtester *)

(** X12: for a non-zero entry price, a simulated long and a simulated
    short trade over the same prices have opposite profit and opposite
    return. *)
Theorem long_and_short_trades_mirror (entry exit risk : Q) :
  ~ entry == 0 ->
  let long := _simulate_trade UP (Fin entry) (Fin exit) (Fin risk) in
  let short := _simulate_trade DOWN (Fin entry) (Fin exit) (Fin risk) in
  exists pl rl ps rs,
    pnl long = Fin pl /\ return_pct long = Fin rl
    /\ pnl short = Fin ps /\ return_pct short = Fin rs
    /\ ps == - pl /\ rs == - rl.
Proof.
  intros Hentry. apply Qeq_bool_false_iff in Hentry.
  cbn [_simulate_trade pnl return_pct fmul fsub fadd fneg fdiv].
  rewrite Hentry. cbn [fmul].
  do 4 eexists. repeat (split; [reflexivity|]).
  apply Qeq_bool_false_iff in Hentry.
  split; field; exact Hentry.
Qed.

Lemma long_and_short_trades_mirror_witness :
  exists pl rl ps rs,
    pnl (_simulate_trade UP (Fin 100) (Fin 110) (Fin 0.02)) = Fin pl
    /\ return_pct (_simulate_trade UP (Fin 100) (Fin 110) (Fin 0.02))
       = Fin rl
    /\ pnl (_simulate_trade DOWN (Fin 100) (Fin 110) (Fin 0.02)) = Fin ps
    /\ return_pct (_simulate_trade DOWN (Fin 100) (Fin 110) (Fin 0.02))
       = Fin rs
    /\ ps == - pl /\ rs == - rl.
Proof.
  apply (long_and_short_trades_mirror 100 110 0.02).
  intros H. vm_compute in H. discriminate.
Defined.

Lemma length_filter_le {A} (f : A -> bool) (l : list A) :
  (length (List.filter f l) <= length l)%nat.
Proof.
  induction l as [|x l IH]; cbn; [lia|]. destruct (f x); cbn; lia.
Qed.

Lemma length_filter_disjoint {A} (f g : A -> bool) (l : list A) :
  (forall x, f x = true -> g x = false) ->
  (length (List.filter f l) + length (List.filter g l) <= length l)%nat.
Proof.
  intros Hfg. induction l as [|x l IH]; cbn; [lia|].
  destruct (f x) eqn:Hf; [rewrite (Hfg x Hf)|destruct (g x)]; cbn; lia.
Qed.

Lemma flt_fgt_disjoint (x y : pyfloat) : fgt x y = true -> flt x y = false.
Proof.
  destruct x as [a| | |], y as [b| | |]; cbn; try congruence.
  intros H. apply Qlt_bool_iff in H. apply Qlt_bool_false_iff. lra.
Qed.

Lemma ratio_in_unit_interval (c t : Z) :
  (0 <= c <= t)%Z -> (0 < t)%Z ->
  exists q, fdiv (of_Z c) (of_Z t) = Fin q /\ 0 <= q /\ q <= 1.
Proof.
  intros Hc Ht. cbn [fdiv of_Z].
  assert (Htq : 0 < inject_Z t)
    by (change 0 with (inject_Z 0); rewrite <- Zlt_Qlt; exact Ht).
  assert (Hcq : 0 <= inject_Z c)
    by (change 0 with (inject_Z 0); rewrite <- Zle_Qle; lia).
  assert (Hct : inject_Z c <= inject_Z t) by (rewrite <- Zle_Qle; lia).
  replace (Qeq_bool (inject_Z t) 0) with false
    by (symmetry; apply Qeq_bool_false_iff; lra).
  eexists. split; [reflexivity|]. split.
  - apply Qle_shift_div_l; lra.
  - apply Qle_shift_div_r; lra.
Qed.

(** X13: in the report of [_calculate_backtest_metrics] the number of
    correct predictions is between 0 and the number of predictions, the
    accuracy lies in [0, 1], winning and losing trades together are at
    most the number of trades, and [recall] and [precision] repeat the
    accuracy and the win rate. *)
Theorem backtest_metrics_consistent (np : Numpy)
  (predictions actuals : list Direction) (trades : list Trade) :
  let report := _calculate_backtest_metrics np predictions actuals trades in
  total_predictions report = Z.of_nat (length predictions)
  /\ (0 <= correct_predictions report <= total_predictions report)%Z
  /\ fle (Fin 0) (accuracy report) = true
  /\ fle (accuracy report) (Fin 1) = true
  /\ total_trades report = Z.of_nat (length trades)
  /\ (0 <= winning_trades report)%Z /\ (0 <= losing_trades report)%Z
  /\ (winning_trades report + losing_trades report
      <= total_trades report)%Z
  /\ recall report = accuracy report
  /\ precision report = win_rate report.
Proof.
  intros report. subst report. unfold _calculate_backtest_metrics.
  set (pairs := zip predictions actuals).
  set (correct := count _ pairs).
  assert (Hcorrect : (0 <= correct
                      <= Z.of_nat (length predictions))%Z).
  { subst correct. unfold count.
    pose proof (length_filter_le
                  (fun pa : Direction * Direction =>
                     bool_decide (pa.1 = pa.2)) pairs) as Hle.
    assert (Hzip : (length pairs <= length predictions)%nat)
      by (subst pairs; rewrite length_zip; lia).
    lia. }
  pose proof (length_filter_disjoint
                (fun t : Trade => fgt (pnl t) (Fin 0))
                (fun t : Trade => flt (pnl t) (Fin 0)) trades
                (fun t => flt_fgt_disjoint (pnl t) (Fin 0))) as Hwl.
  destruct trades as [|tr trades'] eqn:Htrades.
  - cbn [total_predictions correct_predictions accuracy total_trades
         winning_trades losing_trades recall precision win_rate].
    repeat split; try lia; try reflexivity;
      destruct (Z.ltb_spec 0 (Z.of_nat (length predictions))) as [Hpos|Hz];
      try reflexivity;
      destruct (ratio_in_unit_interval correct _ Hcorrect Hpos)
        as (q & -> & Hq0 & Hq1); apply Qle_bool_iff; assumption.
  - rewrite <- Htrades in *. clear Htrades.
    cbn [total_predictions correct_predictions accuracy total_trades
         winning_trades losing_trades recall precision win_rate].
    repeat split; try lia; try reflexivity;
      destruct (Z.ltb_spec 0 (Z.of_nat (length predictions))) as [Hpos|Hz];
      try reflexivity;
      destruct (ratio_in_unit_interval correct _ Hcorrect Hpos)
        as (q & -> & Hq0 & Hq1); apply Qle_bool_iff; assumption.
Qed.

(** ** The simulated prediction *)

Lemma Qlt_bool_comp (a a' b b' : Q) :
  a == a' -> b == b' -> Qlt_bool a b = Qlt_bool a' b'.
Proof.
  intros Ha Hb. unfold Qlt_bool. f_equal. now apply Qleb_comp.
Qed.

(** The least-squares slope of an arithmetic progression is its step. *)
Lemma polyfit_slope10_linear (c s : Q) :
  exists q,
    polyfit_slope10
      (map (fun k => Fin (c + inject_Z (Z.of_nat k) * s)) (seq 0 10))
    = Ok (Fin q)
    /\ q == s.
Proof.
  unfold polyfit_slope10.
  cbn [seq map length Nat.eqb negb forallb is_finite andb zip_with].
  unfold fsum. cbn [foldl fmul fadd fsub fneg fdiv of_nat].
  match goal with
  | |- context [Qeq_bool ?d 0] =>
      replace (Qeq_bool d 0) with false by (vm_compute; reflexivity)
  end.
  eexists. split; [reflexivity|].
  cbn [Z.of_nat Pos.of_succ_nat Pos.succ].
  unfold inject_Z. field.
Qed.

(** X14: when the last ten prices of the history rise by a constant step
    [s] (zero for a flat history), [_simulate_prediction] makes one random
    draw [u] and answers UP if s > 0.001 * u, DOWN if s < -0.001 * u and
    SIDEWAYS otherwise. *)
Theorem simulated_prediction_on_linear_history (np : Numpy)
  (historical_prices : list pyfloat) (draws : nat) (c s u : Q) :
  last_n 10 historical_prices
  = map (fun k => Fin (c + inject_Z (Z.of_nat k) * s)) (seq 0 10) ->
  random_uniform np draws = Fin u ->
  _simulate_prediction np historical_prices draws
  = (Ok (if Qlt_bool (0.001 * u) s then UP
         else if Qlt_bool s (- (0.001) * u) then DOWN
         else SIDEWAYS),
     S draws).
Proof.
  intros Hlast Hdraw. unfold _simulate_prediction.
  assert (Hlen : (10 <= length historical_prices)%nat).
  { apply (f_equal length) in Hlast. unfold last_n in Hlast.
    rewrite length_drop, length_map, length_seq in Hlast. lia. }
  replace (length historical_prices <? 10)%nat with false
    by (symmetry; apply Nat.ltb_ge; exact Hlen).
  rewrite Hlast.
  destruct (polyfit_slope10_linear c s) as (q & -> & Hq).
  rewrite Hdraw. cbn [fmul fneg fgt flt].
  rewrite (Qlt_bool_comp (0.001 * u) (0.001 * u) q s) by
    (reflexivity || exact Hq).
  rewrite (Qlt_bool_comp q s (- (0.001) * u) (- (0.001) * u)) by
    (reflexivity || exact Hq).
  destruct (Qlt_bool (0.001 * u) s); [reflexivity|].
  destruct (Qlt_bool s (- (0.001) * u)); reflexivity.
Qed.

Lemma simulated_prediction_on_linear_history_witness :
  _simulate_prediction fixed_numpy rising_prices 3
  = (Ok (if Qlt_bool (0.001 * 0.75) 1 then UP
         else if Qlt_bool 1 (- (0.001) * 0.75) then DOWN
         else SIDEWAYS),
     4%nat).
Proof.
  apply (simulated_prediction_on_linear_history fixed_numpy rising_prices
           3 150 1 0.75).
  - vm_compute. reflexivity.
  - reflexivity.
Defined.

(** ** The fallback MACD and stochastic oscillator *)

Lemma ewm_scan_constant (alpha c : Q) (old_wt : pyfloat) (n : nat) :
  Manual.ewm_scan alpha (Fin c) old_wt (replicate n (Fin c))
  = replicate n (Fin c).
Proof.
  revert old_wt. induction n as [|n IH]; intros old_wt; [reflexivity|].
  cbn [replicate Manual.ewm_scan isnan negb feq].
  assert (Hc : Qeq_bool c c = true) by (apply Qeq_bool_iff; reflexivity).
  rewrite Hc. cbn [negb]. rewrite IH. reflexivity.
Qed.

Lemma ewm_mean_constant (span : nat) (c : Q) (n : nat) :
  (1 <= span)%nat ->
  Manual.ewm_mean span (replicate n (Fin c)) = Ok (replicate n (Fin c)).
Proof.
  intros Hspan. unfold Manual.ewm_mean.
  destruct (Nat.ltb_spec span 1) as [Hlt|_]; [lia|].
  rewrite map_fmap, fmap_replicate. cbn [Manual.prep_value].
  destruct n as [|n]; [reflexivity|].
  cbn [replicate]. rewrite ewm_scan_constant. reflexivity.
Qed.

Lemma zip_with_replicate {A B C} (f : A -> B -> C) (n : nat) (a : A) (b : B) :
  zip_with f (replicate n a) (replicate n b) = replicate n (f a b).
Proof. induction n as [|n IH]; [reflexivity|]. cbn. now rewrite IH. Qed.

Lemma last_replicate_S {A} (n : nat) (a : A) :
  last (replicate (S n) a) = Some a.
Proof.
  induction n as [|n IH]; [reflexivity|].
  change (replicate (S (S n)) a) with (a :: replicate (S n) a).
  rewrite last_cons, IH. reflexivity.
Qed.

Lemma round_zero (q : Q) (d : nat) :
  q == 0 -> truthy (round (Fin q) d) = false.
Proof.
  intros Hq. cbn [round truthy]. apply negb_false_iff, Qeq_bool_iff.
  rewrite (round_half_even_comp (q * inject_Z (pow10 d)) 0)
    by (rewrite Hq; ring).
  reflexivity.
Qed.

(** The fallback MACD of [S n] copies of one price. *)
Lemma macd_manual_replicate (c : Q) (n fast slow signal : nat) :
  (1 <= fast)%nat -> (1 <= slow)%nat -> (1 <= signal)%nat ->
  exists m s h,
    Manual._calculate_macd_manual (replicate (S n) (Fin c)) fast slow signal
    = (Some (Fin m), Some (Fin s), Some (Fin h))
    /\ m == 0 /\ s == 0 /\ h == 0.
Proof.
  intros Hfast Hslow Hsignal. unfold Manual._calculate_macd_manual.
  rewrite !ewm_mean_constant by assumption.
  cbn [mbind result_bind].
  rewrite zip_with_replicate.
  change (fsub (Fin c) (Fin c)) with (Fin (c + - c)).
  rewrite ewm_mean_constant by assumption.
  cbn [mbind result_bind].
  rewrite zip_with_replicate.
  change (fsub (Fin (c + - c)) (Fin (c + - c)))
    with (Fin (c + - c + - (c + - c))).
  unfold iloc_last. rewrite !last_replicate_S.
  cbn [mbind result_bind Manual.round_or_none isnan round].
  eexists _, _, _. split; [reflexivity|].
  assert (Hz : forall q, q == 0 ->
            inject_Z (round_half_even (q * inject_Z (pow10 4)))
            / inject_Z (pow10 4) == 0).
  { intros q Hq.
    rewrite (round_half_even_comp (q * inject_Z (pow10 4)) 0)
      by (rewrite Hq; ring).
    reflexivity. }
  repeat split; apply Hz; ring.
Qed.

Lemma constant_replicate {A} (a : A) (l : list A) :
  Forall (fun x => x = a) l -> l = replicate (length l) a.
Proof.
  induction 1 as [|x l Hx _ IH]; [reflexivity|].
  cbn. now rewrite Hx, <- IH.
Qed.

(** X15: on a non-empty series of one constant finite price, with spans of
    at least 1, the fallback MACD returns all three values, and all three
    are zero. *)
Theorem macd_manual_constant_prices (prices : list pyfloat) (c : Q)
  (fast slow signal : nat) :
  prices <> [] -> Forall (fun p => p = Fin c) prices ->
  (1 <= fast)%nat -> (1 <= slow)%nat -> (1 <= signal)%nat ->
  exists m s h,
    Manual._calculate_macd_manual prices fast slow signal
    = (Some (Fin m), Some (Fin s), Some (Fin h))
    /\ m == 0 /\ s == 0 /\ h == 0.
Proof.
  intros Hne Hconst Hfast Hslow Hsignal.
  rewrite (constant_replicate (Fin c) prices Hconst).
  destruct (length prices) as [|n] eqn:Hlen;
    [destruct prices; [congruence | discriminate]|].
  now apply macd_manual_replicate.
Qed.

Lemma macd_manual_constant_prices_witness :
  exists m s h,
    Manual._calculate_macd_manual Manual.flat_prices 12 26 9
    = (Some (Fin m), Some (Fin s), Some (Fin h))
    /\ m == 0 /\ s == 0 /\ h == 0.
Proof.
  apply (macd_manual_constant_prices Manual.flat_prices 100 12 26 9);
    try lia.
  - discriminate.
  - unfold Manual.flat_prices. apply Forall_replicate. reflexivity.
Defined.

Lemma length_rolling (agg : nat -> list pyfloat -> pyfloat) (window : nat)
  (s : list pyfloat) :
  length (Manual.rolling agg window s) = length s.
Proof. unfold Manual.rolling. now rewrite length_map, length_seq. Qed.

Lemma last_rolling (agg : nat -> list pyfloat -> pyfloat) (window : nat)
  (s : list pyfloat) :
  s <> [] ->
  last (Manual.rolling agg window s) = Some (agg window (last_n window s)).
Proof.
  intros Hne. unfold Manual.rolling. rewrite last_map.
  destruct (length s) as [|m] eqn:Hlen; [destruct s; [congruence|discriminate]|].
  rewrite seq_S, last_snoc. cbn [fmap option_fmap option_map plus].
  rewrite take_ge by lia. reflexivity.
Qed.

Lemma finite_observations (w : list pyfloat) :
  forallb Manual.is_finite w = true ->
  exists qs, w = map Fin qs /\ omap observation w = qs.
Proof.
  induction w as [|x w IH]; intros Hfin.
  - exists []. split; reflexivity.
  - cbn [forallb] in Hfin. apply andb_true_iff in Hfin as [Hx Hw].
    destruct (IH Hw) as (qs & Hqs & Hobs).
    destruct x as [q| | |]; try discriminate Hx.
    exists (q :: qs). split; [cbn; now rewrite <- Hqs|].
    cbn. now rewrite Hobs.
Qed.

Lemma Qmin_list_le (l : list Q) :
  forall x, Manual.Qmin_list x l <= x
            /\ Forall (fun y => Manual.Qmin_list x l <= y) l.
Proof.
  unfold Manual.Qmin_list.
  induction l as [|y l IH]; intros x; cbn [foldl].
  - split; [apply Qle_refl | constructor].
  - destruct (IH (Qmin x y)) as [Hm Hall]. split.
    + eapply Qle_trans; [exact Hm | apply Q.le_min_l].
    + constructor; [|exact Hall].
      eapply Qle_trans; [exact Hm | apply Q.le_min_r].
Qed.

Lemma Qmax_list_ge (l : list Q) :
  forall x, x <= Manual.Qmax_list x l
            /\ Forall (fun y => y <= Manual.Qmax_list x l) l.
Proof.
  unfold Manual.Qmax_list.
  induction l as [|y l IH]; intros x; cbn [foldl].
  - split; [apply Qle_refl | constructor].
  - destruct (IH (Qmax x y)) as [Hm Hall]. split.
    + eapply Qle_trans; [apply Q.le_max_l | exact Hm].
    + constructor; [|exact Hall].
      eapply Qle_trans; [apply Q.le_max_r | exact Hm].
Qed.

(** The minimum of a full window of numbers is a number below each of
    them. *)
Lemma window_min_finite (window : nat) (w : list pyfloat) :
  (0 < window)%nat -> length w = window ->
  forallb Manual.is_finite w = true ->
  exists m, Manual.window_min window w = Fin m
            /\ forall q, Fin q ∈ w -> m <= q.
Proof.
  intros Hpos Hlen Hfin.
  destruct (finite_observations w Hfin) as (qs & Hw & Hobs).
  unfold Manual.window_min. rewrite Hobs.
  assert (Hlq : length qs = window).
  { rewrite <- Hlen, Hw, length_map. reflexivity. }
  destruct qs as [|x obs]; [cbn in Hlq; lia|].
  rewrite Hlq, Nat.ltb_irrefl. eexists. split; [reflexivity|].
  intros q Hq. rewrite Hw, map_fmap in Hq.
  apply list_elem_of_fmap in Hq as (q' & [= ->] & Hin).
  destruct (Qmin_list_le obs x) as [Hx Hall].
  apply elem_of_cons in Hin as [-> | Hin]; [exact Hx|].
  rewrite Forall_forall in Hall. now apply Hall.
Qed.

Lemma window_max_finite (window : nat) (w : list pyfloat) :
  (0 < window)%nat -> length w = window ->
  forallb Manual.is_finite w = true ->
  exists m, Manual.window_max window w = Fin m
            /\ forall q, Fin q ∈ w -> q <= m.
Proof.
  intros Hpos Hlen Hfin.
  destruct (finite_observations w Hfin) as (qs & Hw & Hobs).
  unfold Manual.window_max. rewrite Hobs.
  assert (Hlq : length qs = window).
  { rewrite <- Hlen, Hw, length_map. reflexivity. }
  destruct qs as [|x obs]; [cbn in Hlq; lia|].
  rewrite Hlq, Nat.ltb_irrefl. eexists. split; [reflexivity|].
  intros q Hq. rewrite Hw, map_fmap in Hq.
  apply list_elem_of_fmap in Hq as (q' & [= ->] & Hin).
  destruct (Qmax_list_ge obs x) as [Hx Hall].
  apply elem_of_cons in Hin as [-> | Hin]; [exact Hx|].
  rewrite Forall_forall in Hall. now apply Hall.
Qed.

Lemma last_elem_of_last_n {A} (n : nat) (l : list A) (x : A) :
  (0 < n)%nat -> last l = Some x -> x ∈ last_n n l.
Proof.
  intros Hn Hl. rewrite <- (last_last_n n l Hn) in Hl.
  rewrite last_lookup in Hl. eapply list_elem_of_lookup_2. exact Hl.
Qed.

(** The last %K of the fallback stochastic oscillator, from the last close
    and the extremes of the last 14 bars. *)
Lemma stochastic_k_last (high low close : list pyfloat) (c : pyfloat) :
  (14 <= length low)%nat ->
  length high = length low -> length close = length low ->
  last close = Some c ->
  let lowest := Manual.window_min 14 (last_n 14 low) in
  let highest := Manual.window_max 14 (last_n 14 high) in
  fst (Manual._calculate_stochastic_manual high low close)
  = Manual.round_or_none
      (fmul (Fin 100) (fdiv (fsub c lowest) (fsub highest lowest))) 2.
Proof.
  intros Hlen Hh Hc Hlast lowest highest.
  unfold Manual._calculate_stochastic_manual. cbv zeta.
  set (LL := Manual.rolling Manual.window_min 14 low).
  set (HH := Manual.rolling Manual.window_max 14 high).
  assert (HLL : last LL = Some lowest).
  { apply last_rolling. destruct low; [cbn in Hlen; lia | discriminate]. }
  assert (HHH : last HH = Some highest).
  { apply last_rolling. destruct high; [cbn in Hh; lia | discriminate]. }
  assert (HlLL : length LL = length low) by apply length_rolling.
  assert (HlHH : length HH = length low)
    by (unfold HH; rewrite length_rolling; exact Hh).
  set (K := map (fmul (Fin 100))
              (zip_with fdiv (zip_with fsub close LL)
                 (zip_with fsub HH LL))).
  assert (HK : last K
               = Some (fmul (Fin 100)
                         (fdiv (fsub c lowest) (fsub highest lowest)))).
  { unfold K. rewrite last_map.
    rewrite (last_zip_with fdiv _ _ (fsub c lowest) (fsub highest lowest)).
    - reflexivity.
    - rewrite !length_zip_with. lia.
    - apply last_zip_with; [lia | exact Hlast | exact HLL].
    - apply last_zip_with; [lia | exact HHH | exact HLL]. }
  assert (HiK : iloc_last K
                = Ok (fmul (Fin 100)
                        (fdiv (fsub c lowest) (fsub highest lowest))))
    by (unfold iloc_last; rewrite HK; reflexivity).
  rewrite HiK. cbn [mbind result_bind].
  assert (HD : Manual.rolling window_mean 3 K <> []).
  { intros Hnil. apply (f_equal length) in Hnil.
    rewrite length_rolling in Hnil.
    destruct K; [discriminate HK | discriminate Hnil]. }
  destruct (iloc_last_nonempty _ HD) as [d Hd]. rewrite Hd.
  reflexivity.
Qed.

(** X16: on series of one length with at least 14 bars, whose last 14
    highs and lows are numbers and whose last bar has
    low <= close <= high, a %K returned by the fallback stochastic
    oscillator lies in [0, 100]; it is returned whenever the last bar has
    low < high. *)
Theorem stochastic_k_range (high low close : list pyfloat) (h l c : Q) :
  (14 <= length low)%nat ->
  length high = length low -> length close = length low ->
  forallb Manual.is_finite (last_n 14 high) = true ->
  forallb Manual.is_finite (last_n 14 low) = true ->
  last high = Some (Fin h) -> last low = Some (Fin l) ->
  last close = Some (Fin c) ->
  l <= c -> c <= h ->
  let stoch_k := fst (Manual._calculate_stochastic_manual high low close) in
  (forall k, stoch_k = Some k ->
             fle (Fin 0) k = true /\ fle k (Fin 100) = true)
  /\ (l < h -> stoch_k <> None).
Proof.
  intros Hlen Hh Hc Hfh Hfl Hlh Hll Hlc Hlo Hhi stoch_k. subst stoch_k.
  rewrite (stochastic_k_last high low close (Fin c) Hlen Hh Hc Hlc).
  cbv zeta.
  destruct (window_min_finite 14 (last_n 14 low)) as (ll & -> & Hmin);
    [lia | apply length_last_n; lia | exact Hfl |].
  destruct (window_max_finite 14 (last_n 14 high)) as (hh & -> & Hmax);
    [lia | apply length_last_n; lia | exact Hfh |].
  assert (Hl1 : ll <= l)
    by (apply Hmin, last_elem_of_last_n; [lia | exact Hll]).
  assert (Hh1 : h <= hh)
    by (apply Hmax, last_elem_of_last_n; [lia | exact Hlh]).
  change (fsub (Fin c) (Fin ll)) with (Fin (c + - ll)).
  change (fsub (Fin hh) (Fin ll)) with (Fin (hh + - ll)).
  cbn [fdiv].
  destruct (Qeq_bool (hh + - ll) 0) eqn:Hrange.
  - apply Qeq_bool_iff in Hrange.
    assert (Hnum : c + - ll == 0) by lra.
    unfold inf_signed. apply Qeq_alt in Hnum. rewrite Hnum.
    cbn [fmul Manual.round_or_none isnan]. split.
    + intros k Hk. discriminate Hk.
    + intros Hlt. exfalso. lra.
  - apply Qeq_bool_false_iff in Hrange.
    assert (Hpos : 0 < hh + - ll) by lra.
    cbn [fmul Manual.round_or_none isnan].
    destruct (round_within (100 * ((c + - ll) / (hh + - ll))) 0 100)
      as (r & Hr & Hr0 & Hr1).
    + change (inject_Z 0) with 0.
      apply Qmult_le_0_compat; [lra|].
      apply Qle_shift_div_l; [exact Hpos | lra].
    + change (inject_Z 100) with 100.
      assert (Hq : (c + - ll) / (hh + - ll) <= 1)
        by (apply Qle_shift_div_r; [exact Hpos | lra]).
      lra.
    + rewrite Hr. split.
      * intros k [= <-]. cbn [fle].
        split; apply Qle_bool_iff; [exact Hr0 | exact Hr1].
      * intros _. discriminate.
Qed.

Lemma stochastic_k_range_witness :
  let stoch_k :=
    fst (Manual._calculate_stochastic_manual Manual.swing_highs
           Manual.swing_lows Manual.swing_closes) in
  (forall k, stoch_k = Some k ->
             fle (Fin 0) k = true /\ fle k (Fin 100) = true)
  /\ (97 < 105 -> stoch_k <> None).
Proof.
  apply (stochastic_k_range Manual.swing_highs Manual.swing_lows
           Manual.swing_closes 105 97 104).
  - vm_compute. lia.
  - reflexivity.
  - reflexivity.
  - vm_compute. reflexivity.
  - vm_compute. reflexivity.
  - reflexivity.
  - reflexivity.
  - reflexivity.
  - unfold Qle. cbn. lia.
  - unfold Qle. cbn. lia.
Defined.

(** ** The fallback MACD inside the engine *)

Lemma rsi_fallback_succeeds (manual : ManualIndicators)
  (tech_config : TechnicalAnalysisConfig) (closes : list pyfloat) :
  succeeds (rsi None tech_config closes).
Proof.
  intros d. unfold rsi.
  destruct (flag _ _ && _); reflexivity.
Qed.

(** Without TA-Lib, with the MACD family enabled and at least [slow] bars,
    the three MACD entries of the result are the values of the fallback,
    an entry being absent when its value is [None]. *)
Lemma macd_entries (manual : ManualIndicators)
  (tech_config : TechnicalAnalysisConfig) (chart_data : ChartData)
  (fast slow signal : nat) (m s h : option pyfloat) :
  flag (indicators tech_config) "macd" = true ->
  macd_periods tech_config = (fast, slow, signal) ->
  (slow <= length (ohlc_data chart_data))%nat ->
  ohlc_data chart_data <> [] ->
  ChartExtractor._calculate_macd_manual manual
    (map close (ohlc_data chart_data)) fast slow signal = (m, s, h) ->
  let result :=
    calculate_technical_indicators None manual tech_config chart_data in
  result !! "MACD" = m /\ result !! "MACD_Signal" = s
  /\ result !! "MACD_Histogram" = h.
Proof.
  intros Hflag Hperiods Hlen Hne Hmacd result. subst result.
  unfold calculate_technical_indicators.
  destruct (ohlc_data chart_data) as [|b df] eqn:Hdata; [congruence|].
  rewrite !lookup_omap. unfold try_block.
  set (closes := map close (b :: df)) in *.
  rewrite run_then
    by (apply moving_averages_succeeds; subst closes; discriminate).
  set (d1 := snd (moving_averages tech_config closes ∅)).
  rewrite run_then by (apply rsi_fallback_succeeds; exact manual).
  set (d2 := snd (rsi None tech_config closes d1)).
  assert (Hrun : macd None manual tech_config closes d2
                 = (Ok tt, <["MACD_Histogram" := h]>
                             (<["MACD_Signal" := s]>
                                (<["MACD" := m]> d2)))).
  { unfold macd. rewrite Hflag, Hperiods. cbn [when].
    replace (slow <=? length closes)%nat with true
      by (symmetry; apply Nat.leb_le; subst closes;
          rewrite length_map; exact Hlen).
    cbn [when]. rewrite Hmacd. reflexivity. }
  rewrite run_then by (rewrite Hrun; reflexivity).
  rewrite Hrun. cbn [snd].
  set (rest := bollinger_bands None manual tech_config closes;;
               volume_indicators tech_config (map volume (b :: df));;
               stochastic None manual tech_config (map high (b :: df))
                 (map low (b :: df)) closes).
  assert (Hrest : forall key,
            key = "MACD" \/ key = "MACD_Signal" \/ key = "MACD_Histogram" ->
            preserves key rest).
  { intros key Hkey. unfold rest.
    apply preserves_bind; [|intros _; apply preserves_bind; [|intros _]].
    - unfold bollinger_bands.
      destruct Hkey as [-> | [-> | ->]]; preserve.
    - unfold volume_indicators.
      destruct Hkey as [-> | [-> | ->]]; preserve.
    - unfold stochastic.
      destruct Hkey as [-> | [-> | ->]]; preserve. }
  rewrite !Hrest by tauto.
  repeat split;
    repeat (rewrite lookup_insert_ne by discriminate);
    rewrite lookup_insert_eq; reflexivity.
Qed.

Lemma map_constant {A B} (f : A -> B) (b : B) (l : list A) :
  Forall (fun x => f x = b) l -> map f l = replicate (length l) b.
Proof.
  induction 1 as [|x l Hx _ IH]; [reflexivity|].
  cbn. now rewrite Hx, IH.
Qed.

(** X17: without TA-Lib, on a series whose bars all close at one finite
    price, with the MACD family enabled, spans of at least 1 and at least
    [slow] bars, the result carries ["MACD"] and ["MACD_Signal"] with the
    value zero, whatever the other indicator families do; the predictor
    then casts no MACD vote. *)
Theorem flat_market_casts_no_macd_vote
  (bollinger : list pyfloat -> nat -> pyfloat
               -> option pyfloat * option pyfloat * option pyfloat)
  (tech_config : TechnicalAnalysisConfig) (chart_data : ChartData)
  (fast slow signal : nat) (c : Q) :
  flag (indicators tech_config) "macd" = true ->
  macd_periods tech_config = (fast, slow, signal) ->
  (1 <= fast)%nat -> (1 <= slow)%nat -> (1 <= signal)%nat ->
  (slow <= length (ohlc_data chart_data))%nat ->
  Forall (fun bar => close bar = Fin c) (ohlc_data chart_data) ->
  let technical_analysis :=
    calculate_technical_indicators None (Manual.indicators bollinger)
      tech_config chart_data in
  (exists m s,
     technical_analysis !! "MACD" = Some (Fin m)
     /\ technical_analysis !! "MACD_Signal" = Some (Fin s)
     /\ m == 0 /\ s == 0)
  /\ forall votes, macd_vote technical_analysis votes = votes.
Proof.
  intros Hflag Hperiods Hfast Hslow Hsignal Hlen Hflat technical_analysis.
  assert (Hne : ohlc_data chart_data <> []).
  { intros Hnil. rewrite Hnil in Hlen. cbn in Hlen. lia. }
  assert (Hcloses : map close (ohlc_data chart_data)
                    = replicate (S (pred (length (ohlc_data chart_data))))
                        (Fin c)).
  { rewrite (map_constant close (Fin c) _ Hflat). f_equal.
    destruct (ohlc_data chart_data); [congruence | reflexivity]. }
  destruct (macd_manual_replicate c
              (pred (length (ohlc_data chart_data))) fast slow signal
              Hfast Hslow Hsignal)
    as (m & s & h & Hmacd & Hm & Hs & _).
  rewrite <- Hcloses in Hmacd.
  destruct (macd_entries (Manual.indicators bollinger) tech_config
              chart_data fast slow signal _ _ _
              Hflag Hperiods Hlen Hne Hmacd) as (HM & HS & _).
  fold technical_analysis in HM, HS. split.
  - exists m, s. repeat split; assumption.
  - intros votes. unfold macd_vote. rewrite HM, HS.
    cbn [truthy].
    apply Qeq_bool_iff in Hm. rewrite Hm. reflexivity.
Qed.

Lemma flat_market_casts_no_macd_vote_witness :
  let technical_analysis :=
    calculate_technical_indicators None
      (Manual.indicators (fun _ _ _ => (None, None, None)))
      default_technical_config flat_series in
  (exists m s,
     technical_analysis !! "MACD" = Some (Fin m)
     /\ technical_analysis !! "MACD_Signal" = Some (Fin s)
     /\ m == 0 /\ s == 0)
  /\ forall votes, macd_vote technical_analysis votes = votes.
Proof.
  apply (flat_market_casts_no_macd_vote (fun _ _ _ => (None, None, None))
           default_technical_config flat_series 12 26 9 100).
  - reflexivity.
  - reflexivity.
  - lia.
  - lia.
  - lia.
  - vm_compute. lia.
  - unfold flat_series. cbn [ohlc_data].
    apply Forall_forall. intros bar Hbar.
    rewrite map_fmap in Hbar.
    apply list_elem_of_fmap in Hbar as (i & -> & _). reflexivity.
Defined.

(** ** The reversal-pattern detectors *)

(** The confidence of a pair of extrema that are [gap] extrema apart. *)
Lemma pair_confidence_range (gap : nat) :
  (1 <= gap)%nat ->
  let confidence :=
    min2 (Fin 0.85)
         (fadd (Fin 0.5) (fmul (Fin (inject_Z (Z.of_nat gap))) (Fin 0.05))) in
  fle (Fin 0.55) confidence = true /\ fle confidence (Fin 0.85) = true.
Proof.
  intros Hgap. cbn [fmul fadd]. unfold min2. cbn [flt].
  assert (Hg : 1 <= inject_Z (Z.of_nat gap)).
  { change 1 with (inject_Z 1). rewrite <- Zle_Qle. lia. }
  remember (inject_Z (Z.of_nat gap)) as g.
  destruct (Qlt_bool (0.5 + g * 0.05) 0.85) eqn:Hlt; cbn [fle].
  - apply Qlt_bool_iff in Hlt. split; apply Qle_bool_iff; lra.
  - split; apply Qle_bool_iff; lra.
Qed.

Lemma double_bottom_second_shape (date_str : Z -> string)
  (highs : list pyfloat) (chart_data : ChartData) (first : nat * pyfloat)
  (later : list (nat * pyfloat)) :
  forall (gap : nat) (p : ChartPredictor.Pattern),
    (1 <= gap)%nat ->
    Patterns.double_bottom_second date_str highs chart_data first gap later
    = Ok (Some p) ->
    name p = "Double Bottom" /\ pattern_type p = bullish
    /\ fle (Fin 0.55) (pattern_confidence p) = true
    /\ fle (pattern_confidence p) (Fin 0.85) = true.
Proof.
  destruct first as [idx1 low1].
  induction later as [|[idx2 low2] later IH]; intros gap p Hgap Hrun.
  - discriminate Hrun.
  - cbn [Patterns.double_bottom_second] in Hrun.
    destruct (flt (fdiv (fabs (fsub low1 low2)) low1) (Fin 0.02));
      [|apply (IH (S gap)); [lia | exact Hrun]].
    destruct (Patterns.py_max (Patterns.slice highs idx1 idx2))
      as [between_high|e]; cbn [mbind result_bind] in Hrun;
      [|discriminate Hrun].
    destruct (fgt _ (Fin 0.05));
      [|apply (IH (S gap)); [lia | exact Hrun]].
    destruct (Patterns.bar_date date_str chart_data idx1) as [start|e];
      cbn [mbind result_bind] in Hrun; [|discriminate Hrun].
    destruct (Patterns.bar_date date_str chart_data idx2) as [stop|e];
      cbn [mbind result_bind] in Hrun; [|discriminate Hrun].
    injection Hrun as <-. cbn [name pattern_type pattern_confidence].
    split; [reflexivity|]. split; [reflexivity|].
    apply (pair_confidence_range gap Hgap).
Qed.

Lemma double_top_second_shape (date_str : Z -> string)
  (lows : list pyfloat) (chart_data : ChartData) (first : nat * pyfloat)
  (later : list (nat * pyfloat)) :
  forall (gap : nat) (p : ChartPredictor.Pattern),
    (1 <= gap)%nat ->
    Patterns.double_top_second date_str lows chart_data first gap later
    = Ok (Some p) ->
    name p = "Double Top" /\ pattern_type p = bearish
    /\ fle (Fin 0.55) (pattern_confidence p) = true
    /\ fle (pattern_confidence p) (Fin 0.85) = true.
Proof.
  destruct first as [idx1 high1].
  induction later as [|[idx2 high2] later IH]; intros gap p Hgap Hrun.
  - discriminate Hrun.
  - cbn [Patterns.double_top_second] in Hrun.
    destruct (flt (fdiv (fabs (fsub high1 high2)) high1) (Fin 0.02));
      [|apply (IH (S gap)); [lia | exact Hrun]].
    destruct (Patterns.py_min (Patterns.slice lows idx1 idx2))
      as [between_low|e]; cbn [mbind result_bind] in Hrun;
      [|discriminate Hrun].
    destruct (fgt _ (Fin 0.05));
      [|apply (IH (S gap)); [lia | exact Hrun]].
    destruct (Patterns.bar_date date_str chart_data idx1) as [start|e];
      cbn [mbind result_bind] in Hrun; [|discriminate Hrun].
    destruct (Patterns.bar_date date_str chart_data idx2) as [stop|e];
      cbn [mbind result_bind] in Hrun; [|discriminate Hrun].
    injection Hrun as <-. cbn [name pattern_type pattern_confidence].
    split; [reflexivity|]. split; [reflexivity|].
    apply (pair_confidence_range gap Hgap).
Qed.

Lemma length_option_list {A} (o : option A) :
  (length (option_list o) <= 1)%nat.
Proof. destruct o; cbn; lia. Qed.

(** X18: every pattern [_detect_double_bottom] returns is a bullish
    "Double Bottom" with a confidence in [0.55, 0.85], and there is at
    most one pattern for each local minimum but the last. *)
Theorem double_bottom_patterns (date_str : Z -> string)
  (closes highs lows : list pyfloat) (chart_data : ChartData)
  (patterns : list ChartPredictor.Pattern) :
  Patterns._detect_double_bottom date_str closes highs lows chart_data
  = Ok patterns ->
  (length patterns <= length (Patterns.local_mins lows) - 1)%nat
  /\ Forall (fun p => name p = "Double Bottom" /\ pattern_type p = bullish
                      /\ fle (Fin 0.55) (pattern_confidence p) = true
                      /\ fle (pattern_confidence p) (Fin 0.85) = true)
            patterns.
Proof.
  unfold Patterns._detect_double_bottom.
  destruct (length lows <? 20)%nat.
  { intros [= <-]. split; [cbn; lia | constructor]. }
  generalize (Patterns.local_mins lows) as mins. revert patterns.
  intros patterns mins. revert patterns.
  induction mins as [|first later IH]; intros patterns Hrun.
  - injection Hrun as <-. split; [cbn; lia | constructor].
  - cbn [Patterns.double_bottom_pairs] in Hrun.
    destruct (Patterns.double_bottom_second date_str highs chart_data
                first 1 later) as [found|e] eqn:Hfound;
      cbn [mbind result_bind] in Hrun; [|discriminate Hrun].
    destruct (Patterns.double_bottom_pairs date_str highs chart_data later)
      as [rest|e] eqn:Hrest; cbn [mbind result_bind] in Hrun;
      [|discriminate Hrun].
    injection Hrun as <-.
    destruct (IH rest eq_refl) as [Hlen Hall]. split.
    + destruct later as [|second later'].
      * cbn in Hfound. injection Hfound as <-.
        cbn in Hrest. injection Hrest as <-. cbn. lia.
      * rewrite length_app. pose proof (length_option_list found).
        cbn [length] in *. lia.
    + apply Forall_app. split; [|exact Hall].
      destruct found as [p|]; cbn [option_list]; constructor;
        [|constructor].
      apply (double_bottom_second_shape date_str highs chart_data first
               later 1 p); [lia | exact Hfound].
Qed.

Lemma double_bottom_patterns_witness :
  (length [mkPattern "Double Bottom" (Fin 0.550) "6" "18" bullish
             "Double bottom at $100.00 and $100.00"]
   <= length (Patterns.local_mins Patterns.w_lows) - 1)%nat
  /\ Forall (fun p => name p = "Double Bottom" /\ pattern_type p = bullish
                      /\ fle (Fin 0.55) (pattern_confidence p) = true
                      /\ fle (pattern_confidence p) (Fin 0.85) = true)
            [mkPattern "Double Bottom" (Fin 0.550) "6" "18" bullish
               "Double bottom at $100.00 and $100.00"].
Proof.
  apply (double_bottom_patterns Patterns.day_number Patterns.w_lows
           Patterns.w_highs Patterns.w_lows Patterns.w_series).
  vm_compute. reflexivity.
Defined.

(** X19: every pattern [_detect_double_top] returns is a bearish
    "Double Top" with a confidence in [0.55, 0.85], and there is at most
    one pattern for each local maximum but the last. *)
Theorem double_top_patterns (date_str : Z -> string)
  (closes highs lows : list pyfloat) (chart_data : ChartData)
  (patterns : list ChartPredictor.Pattern) :
  Patterns._detect_double_top date_str closes highs lows chart_data
  = Ok patterns ->
  (length patterns <= length (Patterns.local_maxs highs) - 1)%nat
  /\ Forall (fun p => name p = "Double Top" /\ pattern_type p = bearish
                      /\ fle (Fin 0.55) (pattern_confidence p) = true
                      /\ fle (pattern_confidence p) (Fin 0.85) = true)
            patterns.
Proof.
  unfold Patterns._detect_double_top.
  destruct (length highs <? 20)%nat.
  { intros [= <-]. split; [cbn; lia | constructor]. }
  generalize (Patterns.local_maxs highs) as maxs. revert patterns.
  intros patterns maxs. revert patterns.
  induction maxs as [|first later IH]; intros patterns Hrun.
  - injection Hrun as <-. split; [cbn; lia | constructor].
  - cbn [Patterns.double_top_pairs] in Hrun.
    destruct (Patterns.double_top_second date_str lows chart_data
                first 1 later) as [found|e] eqn:Hfound;
      cbn [mbind result_bind] in Hrun; [|discriminate Hrun].
    destruct (Patterns.double_top_pairs date_str lows chart_data later)
      as [rest|e] eqn:Hrest; cbn [mbind result_bind] in Hrun;
      [|discriminate Hrun].
    injection Hrun as <-.
    destruct (IH rest eq_refl) as [Hlen Hall]. split.
    + destruct later as [|second later'].
      * cbn in Hfound. injection Hfound as <-.
        cbn in Hrest. injection Hrest as <-. cbn. lia.
      * rewrite length_app. pose proof (length_option_list found).
        cbn [length] in *. lia.
    + apply Forall_app. split; [|exact Hall].
      destruct found as [p|]; cbn [option_list]; constructor;
        [|constructor].
      apply (double_top_second_shape date_str lows chart_data first
               later 1 p); [lia | exact Hfound].
Qed.

Lemma double_top_patterns_witness :
  (length [mkPattern "Double Top" (Fin 0.550) "6" "18" bearish
             "Double top at $120.00 and $120.00"]
   <= length (Patterns.local_maxs Patterns.m_highs) - 1)%nat
  /\ Forall (fun p => name p = "Double Top" /\ pattern_type p = bearish
                      /\ fle (Fin 0.55) (pattern_confidence p) = true
                      /\ fle (pattern_confidence p) (Fin 0.85) = true)
            [mkPattern "Double Top" (Fin 0.550) "6" "18" bearish
               "Double top at $120.00 and $120.00"].
Proof.
  apply (double_top_patterns Patterns.day_number Patterns.m_highs
           Patterns.m_highs Patterns.m_lows Patterns.m_series).
  vm_compute. reflexivity.
Defined.

Lemma flt_not_fle (x y : pyfloat) : flt x y = true -> fle y x = false.
Proof.
  destruct x as [a| | |], y as [b| | |]; cbn; try congruence.
  unfold Qlt_bool. intros H. now apply negb_true_iff in H.
Qed.

Lemma rising_lookup (a : list pyfloat) :
  Patterns.rising a = true ->
  forall i x y, a !! i = Some x -> a !! S i = Some y -> flt x y = true.
Proof.
  induction a as [|x0 a IH]; intros Hr i x y Hx Hy; [discriminate Hx|].
  destruct a as [|y0 a']; [discriminate Hy|].
  cbn [Patterns.rising] in Hr. apply andb_true_iff in Hr as [H0 Hr].
  destruct i as [|i].
  - cbn in Hx, Hy. congruence.
  - apply (IH Hr i x y); [exact Hx | exact Hy].
Qed.

Lemma falling_lookup (a : list pyfloat) :
  Patterns.falling a = true ->
  forall i x y, a !! i = Some x -> a !! S i = Some y -> flt y x = true.
Proof.
  induction a as [|x0 a IH]; intros Hr i x y Hx Hy; [discriminate Hx|].
  destruct a as [|y0 a']; [discriminate Hy|].
  cbn [Patterns.falling] in Hr. apply andb_true_iff in Hr as [H0 Hr].
  destruct i as [|i].
  - cbn in Hx, Hy. congruence.
  - apply (IH Hr i x y); [exact Hx | exact Hy].
Qed.

Lemma filter_none {A} (f : A -> bool) (l : list A) :
  (forall x, In x l -> f x = false) -> List.filter f l = [].
Proof.
  induction l as [|x l IH]; intros H; [reflexivity|].
  cbn. rewrite (H x) by (left; reflexivity).
  apply IH. intros y Hy. apply H. right. exact Hy.
Qed.

Lemma item_lookup (a : list pyfloat) (i : nat) :
  (i < length a)%nat -> a !! i = Some (Patterns.item a i).
Proof.
  intros Hi. unfold Patterns.item.
  destruct (lookup_lt_is_Some_2 a i Hi) as [x Hx]. now rewrite Hx.
Qed.

(** Inside a series that rises or falls throughout, no bar is a local
    minimum or a local maximum. *)
Lemma monotone_no_local_mins (a : list pyfloat) :
  Patterns.rising a = true \/ Patterns.falling a = true ->
  Patterns.local_mins a = [].
Proof.
  intros Hmono. unfold Patterns.local_mins.
  rewrite filter_none; [reflexivity|].
  intros i Hi. apply in_seq in Hi. unfold Patterns.window in *.
  change (seq 1 5) with [1; 2; 3; 4; 5]%nat. cbn [forallb].
  destruct Hmono as [Hr | Hf].
  - assert (H : flt (Patterns.item a (i - 1)) (Patterns.item a i) = true).
    { apply (rising_lookup a Hr (i - 1)).
      - apply item_lookup. lia.
      - replace (S (i - 1)) with i by lia. apply item_lookup. lia. }
    rewrite (flt_not_fle _ _ H). reflexivity.
  - assert (H : flt (Patterns.item a (i + 1)) (Patterns.item a i) = true).
    { apply (falling_lookup a Hf i).
      - apply item_lookup. lia.
      - replace (S i) with (i + 1)%nat by lia. apply item_lookup. lia. }
    rewrite (flt_not_fle _ _ H). apply andb_false_r.
Qed.

Lemma monotone_no_local_maxs (a : list pyfloat) :
  Patterns.rising a = true \/ Patterns.falling a = true ->
  Patterns.local_maxs a = [].
Proof.
  intros Hmono. unfold Patterns.local_maxs.
  rewrite filter_none; [reflexivity|].
  intros i Hi. apply in_seq in Hi. unfold Patterns.window in *.
  change (seq 1 5) with [1; 2; 3; 4; 5]%nat. cbn [forallb]. unfold fge.
  destruct Hmono as [Hr | Hf].
  - assert (H : flt (Patterns.item a i) (Patterns.item a (i + 1)) = true).
    { apply (rising_lookup a Hr i).
      - apply item_lookup. lia.
      - replace (S i) with (i + 1)%nat by lia. apply item_lookup. lia. }
    rewrite (flt_not_fle _ _ H). apply andb_false_r.
  - assert (H : flt (Patterns.item a i) (Patterns.item a (i - 1)) = true).
    { apply (falling_lookup a Hf (i - 1)).
      - apply item_lookup. lia.
      - replace (S (i - 1)) with i by lia. apply item_lookup. lia. }
    rewrite (flt_not_fle _ _ H). reflexivity.
Qed.

(** X20: on a series whose lows rise (or fall) from every bar to the next
    and whose highs do, too, the double-bottom, double-top and
    head-and-shoulders detectors return no pattern, and none of them
    raises. *)
Theorem no_reversal_in_monotone_series (date_str : Z -> string)
  (closes highs lows : list pyfloat) (chart_data : ChartData) :
  Patterns.rising lows = true \/ Patterns.falling lows = true ->
  Patterns.rising highs = true \/ Patterns.falling highs = true ->
  Patterns._detect_double_bottom date_str closes highs lows chart_data
  = Ok []
  /\ Patterns._detect_double_top date_str closes highs lows chart_data
     = Ok []
  /\ Patterns._detect_head_shoulders date_str closes highs lows chart_data
     = Ok [].
Proof.
  intros Hlows Hhighs.
  unfold Patterns._detect_double_bottom, Patterns._detect_double_top,
    Patterns._detect_head_shoulders.
  rewrite (monotone_no_local_mins lows Hlows),
    (monotone_no_local_maxs highs Hhighs).
  repeat split.
  - destruct (length lows <? 20)%nat; reflexivity.
  - destruct (length highs <? 20)%nat; reflexivity.
  - destruct (length highs <? 25)%nat; reflexivity.
Qed.

Lemma no_reversal_in_monotone_series_witness :
  Patterns._detect_double_bottom Patterns.day_number Patterns.rising_highs
    Patterns.rising_highs Patterns.rising_lows Patterns.rising_bars = Ok []
  /\ Patterns._detect_double_top Patterns.day_number Patterns.rising_highs
       Patterns.rising_highs Patterns.rising_lows Patterns.rising_bars
     = Ok []
  /\ Patterns._detect_head_shoulders Patterns.day_number
       Patterns.rising_highs Patterns.rising_highs Patterns.rising_lows
       Patterns.rising_bars = Ok [].
Proof.
  apply (no_reversal_in_monotone_series Patterns.day_number
           Patterns.rising_highs Patterns.rising_highs Patterns.rising_lows
           Patterns.rising_bars).
  - left. vm_compute. reflexivity.
  - left. vm_compute. reflexivity.
Defined.

Lemma is_price_cases (x : pyfloat) :
  Patterns.is_price x = true -> exists q, x = Fin q /\ 0 < q.
Proof.
  destruct x as [q| | |]; try discriminate. cbn. intros H.
  apply Qlt_bool_iff in H. eauto.
Qed.

Lemma local_maxs_prices (highs : list pyfloat) :
  forallb Patterns.is_price highs = true ->
  Forall (fun m => Patterns.is_price (snd m) = true)
         (Patterns.local_maxs highs).
Proof.
  intros Hprices. unfold Patterns.local_maxs.
  apply Forall_forall. intros m Hm.
  rewrite map_fmap in Hm.
  apply list_elem_of_fmap in Hm as (i & -> & Hi). cbn [snd].
  apply list_elem_of_In, filter_In in Hi as [Hi _].
  apply in_seq in Hi. unfold Patterns.window in Hi.
  rewrite forallb_forall in Hprices. apply Hprices.
  apply list_elem_of_In. eapply list_elem_of_lookup_2.
  apply item_lookup. lia.
Qed.

(** One head-and-shoulders candidate with three positive peaks. *)
Lemma head_shoulders_candidate_shape (date_str : Z -> string)
  (chart_data : ChartData) (left_shoulder head right_shoulder : nat * pyfloat)
  (found : list ChartPredictor.Pattern) :
  Patterns.is_price (snd left_shoulder) = true ->
  Patterns.is_price (snd right_shoulder) = true ->
  Patterns.is_price (snd head) = true ->
  Patterns.head_shoulders_candidate date_str chart_data left_shoulder head
    right_shoulder = Ok found ->
  (length found <= 1)%nat
  /\ Forall (fun p => name p = "Head and Shoulders"
                      /\ pattern_type p = bearish
                      /\ flt (Fin 0.7) (pattern_confidence p) = true
                      /\ fle (pattern_confidence p) (Fin 0.8) = true)
            found.
Proof.
  intros Hl Hr Hh.
  destruct left_shoulder as [il l], head as [ih h],
    right_shoulder as [ir r]. cbn [snd] in Hl, Hr, Hh.
  apply is_price_cases in Hl as (ql & -> & Hql).
  apply is_price_cases in Hr as (qr & -> & Hqr).
  apply is_price_cases in Hh as (qh & -> & Hqh).
  unfold Patterns.head_shoulders_candidate. cbv zeta. cbn [fst snd].
  destruct (fgt (Fin qh) (fmul (Fin ql) (Fin 1.02))) eqn:Hc1;
    cbn [andb]; [|intros [= <-]; split; [cbn; lia | constructor]].
  destruct (fgt (Fin qh) (fmul (Fin qr) (Fin 1.02))) eqn:Hc2;
    cbn [andb]; [|intros [= <-]; split; [cbn; lia | constructor]].
  destruct (flt _ (Fin 0.08));
    [|intros [= <-]; split; [cbn; lia | constructor]].
  destruct ((3 <? _)%Z && (3 <? _)%Z);
    [|intros [= <-]; split; [cbn; lia | constructor]].
  destruct (Patterns.bar_date date_str chart_data il) as [start|e];
    cbn [mbind result_bind]; [|discriminate].
  destruct (Patterns.bar_date date_str chart_data ir) as [stop|e];
    cbn [mbind result_bind]; [|discriminate].
  intros [= <-]. split; [cbn; lia|].
  constructor; [|constructor].
  cbn [name pattern_type pattern_confidence].
  split; [reflexivity|]. split; [reflexivity|].
  unfold fgt in Hc1, Hc2. cbn [fmul flt] in Hc1, Hc2.
  apply Qlt_bool_iff in Hc1. apply Qlt_bool_iff in Hc2.
  assert (Hmax : exists m, max2 (Fin ql) (Fin qr) = Fin m
                           /\ 0 < m /\ m * 1.02 < qh).
  { unfold max2. cbn [flt].
    destruct (Qlt_bool ql qr); eexists; (split; [reflexivity|]);
      split; assumption. }
  destruct Hmax as (m & -> & Hm & Hhm).
  cbn [fdiv].
  assert (Hm0 : Qeq_bool m 0 = false)
    by (apply Qeq_bool_false_iff; lra).
  rewrite Hm0.
  assert (Hratio : 1.02 < qh / m).
  { apply Qlt_shift_div_l; [exact Hm | lra]. }
  change (fsub (Fin (qh / m)) (Fin 1)) with (Fin (qh / m + - 1)).
  cbn [fmul fadd]. remember (qh / m) as ratio.
  unfold min2. cbn [flt].
  destruct (Qlt_bool (0.6 + (ratio + - 1) * 5) 0.8) eqn:Hlt;
    cbn [flt fle].
  - apply Qlt_bool_iff in Hlt. split.
    + apply Qlt_bool_iff. lra.
    + apply Qle_bool_iff. lra.
  - split.
    + apply Qlt_bool_iff. lra.
    + apply Qle_bool_iff. lra.
Qed.

(** X21: on highs that are all positive numbers, every pattern
    [_detect_head_shoulders] returns is a bearish "Head and Shoulders"
    with a confidence above 0.7 and at most 0.8, and there are at most
    [len(local_maxs) - 2] of them. *)
Theorem head_shoulders_patterns (date_str : Z -> string)
  (closes highs lows : list pyfloat) (chart_data : ChartData)
  (patterns : list ChartPredictor.Pattern) :
  forallb Patterns.is_price highs = true ->
  Patterns._detect_head_shoulders date_str closes highs lows chart_data
  = Ok patterns ->
  (length patterns <= length (Patterns.local_maxs highs) - 2)%nat
  /\ Forall (fun p => name p = "Head and Shoulders"
                      /\ pattern_type p = bearish
                      /\ flt (Fin 0.7) (pattern_confidence p) = true
                      /\ fle (pattern_confidence p) (Fin 0.8) = true)
            patterns.
Proof.
  intros Hprices. unfold Patterns._detect_head_shoulders. cbv zeta.
  destruct (length highs <? 25)%nat.
  { intros [= <-]. split; [cbn; lia | constructor]. }
  destruct (3 <=? length (Patterns.local_maxs highs))%nat.
  2:{ intros [= <-]. split; [cbn; lia | constructor]. }
  pose proof (local_maxs_prices highs Hprices) as Hmaxs.
  revert patterns Hmaxs.
  generalize (Patterns.local_maxs highs) as maxs.
  induction maxs as [|left_shoulder rest IH]; intros patterns Hmaxs Hrun.
  - injection Hrun as <-. split; [cbn; lia | constructor].
  - cbn [Patterns.head_shoulders_scan] in Hrun.
    destruct rest as [|head [|right_shoulder rest']].
    + injection Hrun as <-. split; [cbn; lia | constructor].
    + injection Hrun as <-. split; [cbn; lia | constructor].
    + inversion Hmaxs as [|? ? Hl Hrest]; subst.
      inversion Hrest as [|? ? Hh Hrest']; subst.
      inversion Hrest' as [|? ? Hr _]; subst.
      destruct (Patterns.head_shoulders_candidate date_str chart_data
                  left_shoulder head right_shoulder) as [found|e] eqn:Hfound;
        cbn [mbind result_bind] in Hrun; [|discriminate Hrun].
      destruct (Patterns.head_shoulders_scan date_str chart_data
                  (head :: right_shoulder :: rest')) as [later|e] eqn:Hlater;
        cbn [mbind result_bind] in Hrun; [|discriminate Hrun].
      injection Hrun as <-.
      destruct (IH later Hrest eq_refl) as [Hlen Hall].
      destruct (head_shoulders_candidate_shape date_str chart_data
                  left_shoulder head right_shoulder found Hl Hr Hh Hfound)
        as [Hlen1 Hall1].
      split.
      * rewrite length_app. cbn [length] in *. lia.
      * apply Forall_app. split; assumption.
Qed.

Lemma head_shoulders_patterns_witness :
  (length [mkPattern "Head and Shoulders" (Fin 0.8) "7" "23" bearish
             "Head at $120.00, shoulders at $110.00 and $111.00"]
   <= length (Patterns.local_maxs Patterns.hs_highs) - 2)%nat
  /\ Forall (fun p => name p = "Head and Shoulders"
                      /\ pattern_type p = bearish
                      /\ flt (Fin 0.7) (pattern_confidence p) = true
                      /\ fle (pattern_confidence p) (Fin 0.8) = true)
            [mkPattern "Head and Shoulders" (Fin 0.8) "7" "23" bearish
               "Head at $120.00, shoulders at $110.00 and $111.00"].
Proof.
  apply (head_shoulders_patterns Patterns.day_number Patterns.hs_highs
           Patterns.hs_highs Patterns.hs_highs Patterns.hs_series).
  - vm_compute. reflexivity.
  - vm_compute. reflexivity.
Defined.

(** ** The market-data fetcher *)

Lemma fle_refl (x : pyfloat) : isnan x = false -> fle x x = true.
Proof.
  destruct x as [q| | |]; cbn; try congruence.
  intros _. apply Qle_bool_iff, Qle_refl.
Qed.

Lemma fle_trans (x y z : pyfloat) :
  fle x y = true -> fle y z = true -> fle x z = true.
Proof.
  destruct x as [a| | |], y as [b| | |], z as [c| | |]; cbn;
    try congruence.
  intros H1 H2. apply Qle_bool_iff in H1. apply Qle_bool_iff in H2.
  apply Qle_bool_iff. eapply Qle_trans; eassumption.
Qed.

Lemma fle_total (x y : pyfloat) :
  isnan x = false -> isnan y = false -> flt x y = false -> fle y x = true.
Proof.
  destruct x as [a| | |], y as [b| | |]; cbn; try congruence.
  intros _ _ H. apply Qlt_bool_false_iff in H. now apply Qle_bool_iff.
Qed.

Lemma flt_fle (x y : pyfloat) : flt x y = true -> fle x y = true.
Proof.
  destruct x as [a| | |], y as [b| | |]; cbn; try congruence.
  intros H. apply Qlt_bool_iff in H. apply Qle_bool_iff. lra.
Qed.

Lemma flt_isnan (x y : pyfloat) :
  flt x y = true -> isnan x = false /\ isnan y = false.
Proof. destruct x, y; cbn; try congruence; auto. Qed.

Lemma fle_isnan (x y : pyfloat) :
  fle x y = true -> isnan x = false /\ isnan y = false.
Proof. destruct x, y; cbn; try congruence; auto. Qed.

Lemma max2_bounds (a b : pyfloat) :
  isnan a = false -> isnan b = false ->
  isnan (max2 a b) = false
  /\ fle a (max2 a b) = true /\ fle b (max2 a b) = true.
Proof.
  intros Ha Hb. unfold max2. destruct (flt a b) eqn:Hlt.
  - split; [exact Hb|]. split; [now apply flt_fle | now apply fle_refl].
  - split; [exact Ha|]. split; [now apply fle_refl | now apply fle_total].
Qed.

Lemma min2_bounds (a b : pyfloat) :
  isnan a = false -> isnan b = false ->
  isnan (min2 a b) = false
  /\ fle (min2 a b) a = true /\ fle (min2 a b) b = true.
Proof.
  intros Ha Hb. unfold min2. destruct (flt b a) eqn:Hlt.
  - split; [exact Hb|]. split; [now apply flt_fle | now apply fle_refl].
  - split; [exact Ha|]. split; [now apply fle_refl | now apply fle_total].
Qed.

Lemma foldl_max2_ge (l : list pyfloat) :
  forall acc,
    isnan acc = false -> Forall (fun y => isnan y = false) l ->
    fle acc (foldl max2 acc l) = true
    /\ Forall (fun y => fle y (foldl max2 acc l) = true) l.
Proof.
  induction l as [|z l IH]; intros acc Hacc Hl; cbn [foldl].
  - split; [now apply fle_refl | constructor].
  - inversion Hl as [|? ? Hz Hl']; subst.
    destruct (max2_bounds acc z Hacc Hz) as (Hm & Ha & Hb).
    destruct (IH (max2 acc z) Hm Hl') as [Hge Hall].
    split; [eapply fle_trans; eassumption|].
    constructor; [eapply fle_trans; eassumption | exact Hall].
Qed.

Lemma foldl_min2_le (l : list pyfloat) :
  forall acc,
    isnan acc = false -> Forall (fun y => isnan y = false) l ->
    fle (foldl min2 acc l) acc = true
    /\ Forall (fun y => fle (foldl min2 acc l) y = true) l.
Proof.
  induction l as [|z l IH]; intros acc Hacc Hl; cbn [foldl].
  - split; [now apply fle_refl | constructor].
  - inversion Hl as [|? ? Hz Hl']; subst.
    destruct (min2_bounds acc z Hacc Hz) as (Hm & Ha & Hb).
    destruct (IH (min2 acc z) Hm Hl') as [Hge Hall].
    split; [eapply fle_trans; eassumption|].
    constructor; [eapply fle_trans; eassumption | exact Hall].
Qed.

Lemma filter_not_nan (s : list pyfloat) :
  Forall (fun y => isnan y = false)
         (List.filter (fun x => negb (isnan x)) s).
Proof.
  apply Forall_forall. intros y Hy.
  apply list_elem_of_In, filter_In in Hy as [_ Hy].
  now apply negb_true_iff in Hy.
Qed.

(** [Series.max()] is at least, and [Series.min()] at most, every value of
    the series that is not missing. *)
Lemma series_max_ge (s : list pyfloat) (y : pyfloat) :
  In y s -> isnan y = false -> fle y (LiveDataFetcher.series_max s) = true.
Proof.
  intros Hin Hy. unfold LiveDataFetcher.series_max.
  assert (Hf : In y (List.filter (fun x => negb (isnan x)) s))
    by (apply filter_In; split; [exact Hin | now rewrite Hy]).
  pose proof (filter_not_nan s) as Hnn.
  destruct (List.filter (fun x => negb (isnan x)) s) as [|x l];
    [destruct Hf|].
  inversion Hnn as [|? ? Hx Hl]; subst.
  destruct (foldl_max2_ge l x Hx Hl) as [Hacc Hall].
  destruct Hf as [-> | Hf]; [exact Hacc|].
  rewrite Forall_forall in Hall. apply Hall, list_elem_of_In, Hf.
Qed.

Lemma series_min_le (s : list pyfloat) (y : pyfloat) :
  In y s -> isnan y = false -> fle (LiveDataFetcher.series_min s) y = true.
Proof.
  intros Hin Hy. unfold LiveDataFetcher.series_min.
  assert (Hf : In y (List.filter (fun x => negb (isnan x)) s))
    by (apply filter_In; split; [exact Hin | now rewrite Hy]).
  pose proof (filter_not_nan s) as Hnn.
  destruct (List.filter (fun x => negb (isnan x)) s) as [|x l];
    [destruct Hf|].
  inversion Hnn as [|? ? Hx Hl]; subst.
  destruct (foldl_min2_le l x Hx Hl) as [Hacc Hall].
  destruct Hf as [-> | Hf]; [exact Hacc|].
  rewrite Forall_forall in Hall. apply Hall, list_elem_of_In, Hf.
Qed.

(** What a successful fetch returns, in terms of the rows received. *)
Lemma fetch_result
  (history : string -> string -> string
             -> result (list LiveDataFetcher.HistoryRow))
  (upper : string -> string)
  (request : LiveDataFetcher.MarketDataRequest) (chart_data : ChartData) :
  LiveDataFetcher.fetch_chart_data history upper request = Ok chart_data ->
  LiveDataFetcher.source request = "yahoo"
  /\ exists rows last_row,
       history (LiveDataFetcher.symbol request)
         (LiveDataFetcher.period request)
         (LiveDataFetcher.interval request) = Ok rows
       /\ last rows = Some last_row
       /\ ohlc_data chart_data
          = map (fun row =>
                   mkOHLC (LiveDataFetcher.row_timestamp row)
                     (LiveDataFetcher.Open row) (LiveDataFetcher.High row)
                     (LiveDataFetcher.Low row) (LiveDataFetcher.Close row)
                     (default (Fin 0) (LiveDataFetcher.Volume row))) rows
       /\ price_levels chart_data
          = <["current_price" := LiveDataFetcher.Close last_row]>
            (<["high_52w" := LiveDataFetcher.series_max
                               (map LiveDataFetcher.High rows)]>
            (<["low_52w" := LiveDataFetcher.series_min
                              (map LiveDataFetcher.Low rows)]>
            (<["support_1" := fmul (LiveDataFetcher.Close last_row)
                                (Fin 0.95)]>
            (<["resistance_1" := fmul (LiveDataFetcher.Close last_row)
                                   (Fin 1.05)]> ∅))))
       /\ timeframe chart_data
          = LiveDataFetcher._map_interval_to_timeframe
              (LiveDataFetcher.interval request)
       /\ extraction_confidence chart_data = Fin 1.
Proof.
  unfold LiveDataFetcher.fetch_chart_data.
  destruct (String.eqb_spec (LiveDataFetcher.source request) "yahoo")
    as [Hsource|_]; [|discriminate].
  intros Hrun. split; [exact Hsource|].
  unfold LiveDataFetcher._fetch_yahoo_data in Hrun.
  destruct (history _ _ _) as [rows|e]; cbn [mbind result_bind] in Hrun;
    [|discriminate Hrun].
  destruct rows as [|row rows]; [discriminate Hrun|].
  destruct (last (row :: rows)) as [last_row|] eqn:Hlast.
  2:{ apply last_None in Hlast. discriminate Hlast. }
  unfold iloc_last in Hrun. rewrite last_map, Hlast in Hrun.
  cbn [fmap option_fmap option_map mbind result_bind] in Hrun.
  injection Hrun as <-. exists (row :: rows), last_row.
  repeat split; try reflexivity. exact Hlast.
Qed.

(** X22: chart data that [fetch_chart_data] returns came from the Yahoo
    branch, has one bar per row received (at least one), confidence 1.0,
    and a ["current_price"] level equal to the close of its last bar:
    on fetched data the predictor's default price of 150.0 is never
    used. *)
Theorem fetched_current_price
  (history : string -> string -> string
             -> result (list LiveDataFetcher.HistoryRow))
  (upper : string -> string)
  (request : LiveDataFetcher.MarketDataRequest) (chart_data : ChartData) :
  LiveDataFetcher.fetch_chart_data history upper request = Ok chart_data ->
  LiveDataFetcher.source request = "yahoo"
  /\ extraction_confidence chart_data = Fin 1
  /\ exists rows bar,
       history (LiveDataFetcher.symbol request)
         (LiveDataFetcher.period request)
         (LiveDataFetcher.interval request) = Ok rows
       /\ length (ohlc_data chart_data) = length rows
       /\ last (ohlc_data chart_data) = Some bar
       /\ price_levels chart_data !! "current_price" = Some (close bar)
       /\ current_price_of chart_data = close bar.
Proof.
  intros Hrun.
  destruct (fetch_result history upper request chart_data Hrun)
    as (Hsource & rows & last_row & Hhist & Hlast & Hdata & Hlevels
        & _ & Hconf).
  split; [exact Hsource|]. split; [exact Hconf|].
  eexists rows, _. split; [exact Hhist|].
  split; [rewrite Hdata; apply length_map|].
  split; [rewrite Hdata, last_map, Hlast; reflexivity|].
  cbn [close]. unfold current_price_of.
  rewrite Hlevels, lookup_insert_eq. split; reflexivity.
Qed.

Lemma fetched_current_price_witness :
  LiveDataFetcher.source LiveDataFetcher.sample_request = "yahoo"
  /\ extraction_confidence LiveDataFetcher.sample_chart = Fin 1
  /\ exists rows bar,
       LiveDataFetcher.sample_history "AAPL" "1mo" "60m" = Ok rows
       /\ length (ohlc_data LiveDataFetcher.sample_chart) = length rows
       /\ last (ohlc_data LiveDataFetcher.sample_chart) = Some bar
       /\ price_levels LiveDataFetcher.sample_chart !! "current_price"
          = Some (close bar)
       /\ current_price_of LiveDataFetcher.sample_chart = close bar.
Proof.
  apply (fetched_current_price LiveDataFetcher.sample_history id
           LiveDataFetcher.sample_request LiveDataFetcher.sample_chart).
  reflexivity.
Defined.

(** X23: when the last bar of fetched chart data has
    low <= close <= high, the levels satisfy
    low_52w <= current_price <= high_52w, whatever the other rows hold
    (missing values and infinities included). *)
Theorem fetched_levels_ordered
  (history : string -> string -> string
             -> result (list LiveDataFetcher.HistoryRow))
  (upper : string -> string)
  (request : LiveDataFetcher.MarketDataRequest) (chart_data : ChartData)
  (bar : OHLCData) :
  LiveDataFetcher.fetch_chart_data history upper request = Ok chart_data ->
  last (ohlc_data chart_data) = Some bar ->
  fle (low bar) (close bar) = true ->
  fle (close bar) (high bar) = true ->
  exists low_52w high_52w,
    price_levels chart_data !! "low_52w" = Some low_52w
    /\ price_levels chart_data !! "high_52w" = Some high_52w
    /\ fle low_52w (current_price_of chart_data) = true
    /\ fle (current_price_of chart_data) high_52w = true.
Proof.
  intros Hrun Hbar Hlow Hhigh.
  destruct (fetch_result history upper request chart_data Hrun)
    as (_ & rows & last_row & _ & Hlast & Hdata & Hlevels & _).
  rewrite Hdata, last_map, Hlast in Hbar. injection Hbar as <-.
  cbn [low close high] in Hlow, Hhigh.
  assert (Hin : In last_row rows).
  { apply list_elem_of_In. rewrite last_lookup in Hlast.
    eapply list_elem_of_lookup_2. exact Hlast. }
  unfold current_price_of. rewrite Hlevels.
  rewrite lookup_insert_eq. cbn [default].
  eexists _, _.
  split; [rewrite !lookup_insert_ne by discriminate;
          apply lookup_insert_eq|].
  split; [rewrite lookup_insert_ne by discriminate;
          apply lookup_insert_eq|].
  split.
  - eapply fle_trans; [|exact Hlow].
    apply series_min_le.
    + apply in_map_iff. exists last_row. split; [reflexivity | exact Hin].
    + apply (fle_isnan _ _ Hlow).
  - eapply fle_trans; [exact Hhigh|].
    apply series_max_ge.
    + apply in_map_iff. exists last_row. split; [reflexivity | exact Hin].
    + apply (fle_isnan _ _ Hhigh).
Qed.

Lemma fetched_levels_ordered_witness :
  exists low_52w high_52w,
    price_levels LiveDataFetcher.sample_chart !! "low_52w" = Some low_52w
    /\ price_levels LiveDataFetcher.sample_chart !! "high_52w"
       = Some high_52w
    /\ fle low_52w (current_price_of LiveDataFetcher.sample_chart) = true
    /\ fle (current_price_of LiveDataFetcher.sample_chart) high_52w = true.
Proof.
  apply (fetched_levels_ordered LiveDataFetcher.sample_history id
           LiveDataFetcher.sample_request LiveDataFetcher.sample_chart
           LiveDataFetcher.sample_last_bar).
  - reflexivity.
  - reflexivity.
  - reflexivity.
  - reflexivity.
Defined.

(** X24: [_map_interval_to_timeframe] is idempotent: a timeframe it
    returns is mapped to itself, so chart data never carries one of the
    spellings 60m, 90m, 1wk, 1mo or 3mo. *)
Theorem map_interval_idempotent (interval : string) :
  let timeframe := LiveDataFetcher._map_interval_to_timeframe interval in
  LiveDataFetcher._map_interval_to_timeframe timeframe = timeframe
  /\ timeframe ∉ ["60m"; "90m"; "1wk"; "1mo"; "3mo"].
Proof.
  cbv zeta.
  assert (Hmap : LiveDataFetcher._map_interval_to_timeframe interval
                 = LiveDataFetcher._map_interval_to_timeframe interval)
    by reflexivity.
  unfold LiveDataFetcher._map_interval_to_timeframe at 2 in Hmap.
  cbv zeta in Hmap.
  match type of Hmap with
  | context [default interval (?m !! interval)] =>
      destruct (m !! interval) as [v|] eqn:Hlookup
  end; cbn [default] in Hmap; rewrite Hmap.
  - apply elem_of_list_to_map_2 in Hlookup.
    repeat (apply elem_of_cons in Hlookup as [[= -> ->] | Hlookup];
            [split; [vm_compute; reflexivity
                    | intros Hin; repeat (apply elem_of_cons in Hin
                                            as [Hin | Hin];
                                          [discriminate Hin|]);
                      inversion Hin]|]).
    inversion Hlookup.
  - split; [exact Hmap|].
    intros Hin.
    repeat (apply elem_of_cons in Hin as [-> | Hin];
            [vm_compute in Hlookup; discriminate Hlookup|]).
    inversion Hin.
Qed.

(** ** The TradingView URL parser *)

From Stdlib Require Import Ascii.

Lemma prefix_contains_app (a b s : string) :
  String.prefix (a +:+ b) s = true -> LiveDataFetcher.contains b s = true.
Proof.
  revert s. induction a as [|x a IH]; intros s H.
  - change (String.prefix b s = true) in H.
    destruct s; cbn [LiveDataFetcher.contains]; rewrite H; reflexivity.
  - change (String.prefix (String x (a +:+ b)) s = true) in H.
    destruct s as [|y s]; [discriminate H|].
    cbn [String.prefix] in H.
    destruct (Ascii.ascii_dec x y); [|discriminate H].
    cbn [LiveDataFetcher.contains]. rewrite (IH s H).
    apply orb_true_r.
Qed.

Lemma contains_tail (sub : string) (c : Ascii.ascii) (s : string) :
  LiveDataFetcher.contains sub (String c s) = false ->
  String.prefix sub (String c s) = false
  /\ LiveDataFetcher.contains sub s = false.
Proof. cbn [LiveDataFetcher.contains]. apply orb_false_elim. Qed.

(** A string without the separator is one piece. *)
Lemma split_from_no_separator (sep b : string) :
  (forall s, String.prefix sep s = true ->
             LiveDataFetcher.contains b s = true) ->
  forall s cur,
    LiveDataFetcher.contains b s = false ->
    LiveDataFetcher.split_from sep 0 cur s = [cur +:+ s].
Proof.
  intros Hsep. induction s as [|c s IH]; intros cur Hs.
  - cbn. now rewrite append_empty_r.
  - cbn [LiveDataFetcher.split_from].
    destruct (String.prefix sep (String c s)) eqn:Hp.
    + apply Hsep in Hp. congruence.
    + apply contains_tail in Hs as [_ Hs].
      rewrite (IH _ Hs), append_assoc. reflexivity.
Qed.

Lemma prefix_char (c a : Ascii.ascii) (s : string) :
  String.prefix (String c "") (String a s)
  = if Ascii.ascii_dec c a then true else false.
Proof.
  cbn [String.prefix]. destruct (Ascii.ascii_dec c a); [|reflexivity].
  destruct s; reflexivity.
Qed.

Lemma contains_char_app (c : Ascii.ascii) (a b : string) :
  LiveDataFetcher.contains (String c "") (a +:+ b)
  = LiveDataFetcher.contains (String c "") a
    || LiveDataFetcher.contains (String c "") b.
Proof.
  induction a as [|x a IH].
  - reflexivity.
  - change (String x a +:+ b) with (String x (a +:+ b)).
    cbn [LiveDataFetcher.contains]. rewrite !prefix_char, IH.
    now rewrite orb_assoc.
Qed.

(** A prefix of [s1 ++ c ++ s2] without [c] lies inside [s1]. *)
Lemma prefix_before_char (c : Ascii.ascii) (s2 : string) :
  forall s1 sep,
    LiveDataFetcher.contains (String c "") sep = false ->
    String.prefix sep (s1 +:+ String c s2) = true ->
    String.prefix sep s1 = true.
Proof.
  induction s1 as [|y s1 IH]; intros sep Hsep Hp.
  - change ("" +:+ String c s2) with (String c s2) in Hp.
    destruct sep as [|x sep]; [reflexivity|].
    apply contains_tail in Hsep as [Hx _]. rewrite prefix_char in Hx.
    cbn [String.prefix] in Hp.
    destruct (Ascii.ascii_dec x c) as [->|]; [|discriminate Hp].
    destruct (Ascii.ascii_dec c c); [discriminate Hx | congruence].
  - change (String y s1 +:+ String c s2)
      with (String y (s1 +:+ String c s2)) in Hp.
    destruct sep as [|x sep]; [reflexivity|].
    apply contains_tail in Hsep as [_ Hsep].
    cbn [String.prefix] in Hp |- *.
    destruct (Ascii.ascii_dec x y); [|discriminate Hp].
    apply (IH sep Hsep Hp).
Qed.

(** Reading up to a character [c] that cannot be part of a separator: the
    piece grows by everything before [c], provided no separator ends
    there. *)
Lemma split_from_through (sep b : string) (c : Ascii.ascii) (rest : string) :
  (forall s, String.prefix sep s = true ->
             LiveDataFetcher.contains b s = true) ->
  LiveDataFetcher.contains (String c "") sep = false ->
  forall s cur,
    LiveDataFetcher.contains b s = false ->
    LiveDataFetcher.split_from sep 0 cur (s +:+ String c rest)
    = LiveDataFetcher.split_from sep 0 (cur +:+ s) (String c rest).
Proof.
  intros Hsep Hc. induction s as [|y s IH]; intros cur Hs.
  - change ("" +:+ String c rest) with (String c rest).
    now rewrite append_empty_r.
  - change (String y s +:+ String c rest)
      with (String y (s +:+ String c rest)).
    cbn [LiveDataFetcher.split_from].
    destruct (String.prefix sep (String y (s +:+ String c rest))) eqn:Hp.
    + apply (prefix_before_char c rest (String y s) sep Hc) in Hp.
      apply Hsep in Hp. congruence.
    + apply contains_tail in Hs as [_ Hs].
      rewrite (IH _ Hs), append_assoc. reflexivity.
Qed.

(** The first piece of a split extends the piece being read. *)
Lemma split_from_first (sep : string) :
  forall s cur, exists x pieces,
    LiveDataFetcher.split_from sep 0 cur s = (cur +:+ x) :: pieces.
Proof.
  induction s as [|c s IH]; intros cur.
  - exists "", []. cbn. now rewrite append_empty_r.
  - cbn [LiveDataFetcher.split_from].
    destruct (String.prefix sep (String c s)).
    + exists "". eexists. now rewrite append_empty_r.
    + destruct (IH (cur +:+ String c "")) as (x & pieces & ->).
      exists (String c x), pieces. now rewrite append_assoc.
Qed.

Lemma split_from_step (sep cur : string) (c : Ascii.ascii) (s : string) :
  String.prefix sep (String c s) = false ->
  LiveDataFetcher.split_from sep 0 cur (String c s)
  = LiveDataFetcher.split_from sep 0 (cur +:+ String c "") s.
Proof. intros H. cbn [LiveDataFetcher.split_from]. now rewrite H. Qed.

Lemma split_from_match (sep cur : string) (c : Ascii.ascii) (s : string) :
  String.prefix sep (String c s) = true ->
  LiveDataFetcher.split_from sep 0 cur (String c s)
  = cur :: LiveDataFetcher.split_from sep (String.length sep - 1) "" s.
Proof. intros H. cbn [LiveDataFetcher.split_from]. now rewrite H. Qed.

(** Reading up to a one-character separator. *)
Lemma split_char_until (c : Ascii.ascii) (rest : string) :
  forall s cur,
    LiveDataFetcher.contains (String c "") s = false ->
    LiveDataFetcher.split_from (String c "") 0 cur (s +:+ String c rest)
    = (cur +:+ s)
        :: LiveDataFetcher.split_from (String c "") 0 "" rest.
Proof.
  induction s as [|y s IH]; intros cur Hs.
  - change ("" +:+ String c rest) with (String c rest).
    rewrite split_from_match, append_empty_r; [reflexivity|].
    rewrite prefix_char. now destruct (Ascii.ascii_dec c c).
  - change (String y s +:+ String c rest)
      with (String y (s +:+ String c rest)).
    apply contains_tail in Hs as [Hy Hs]. rewrite prefix_char in Hy.
    rewrite split_from_step by (now rewrite prefix_char).
    rewrite (IH _ Hs), append_assoc. reflexivity.
Qed.

(** The last piece of a split at a one-character separator. *)
Lemma last_split_char (c : Ascii.ascii) (sym : string) :
  LiveDataFetcher.contains (String c "") sym = false ->
  forall s cur,
    last (LiveDataFetcher.split_from (String c "") 0 cur
            (s +:+ String c sym)) = Some sym.
Proof.
  intros Hsym.
  assert (Hone : forall s, String.prefix (String c "") s = true ->
                           LiveDataFetcher.contains (String c "") s = true).
  { intros s H. destruct s; cbn [LiveDataFetcher.contains];
      rewrite H; reflexivity. }
  induction s as [|y s IH]; intros cur.
  - rewrite (split_char_until c sym "" cur) by reflexivity.
    rewrite (split_from_no_separator _ _ Hone sym "" Hsym). reflexivity.
  - change (String y s +:+ String c sym)
      with (String y (s +:+ String c sym)).
    destruct (String.prefix (String c "") (String y (s +:+ String c sym)))
      eqn:Hp.
    + rewrite (split_from_match _ _ _ _ Hp). cbn [String.length Nat.sub].
      rewrite last_cons, IH. reflexivity.
    + rewrite (split_from_step _ _ _ _ Hp). apply IH.
Qed.

Lemma prefix_symbol_contains (s : string) :
  String.prefix "symbol=" s = true -> LiveDataFetcher.contains "=" s = true.
Proof. apply (prefix_contains_app "symbol" "="). Qed.

Lemma prefix_char_contains (c : Ascii.ascii) (s : string) :
  String.prefix (String c "") s = true ->
  LiveDataFetcher.contains (String c "") s = true.
Proof.
  intros H. destruct s; cbn [LiveDataFetcher.contains]; rewrite H;
    reflexivity.
Qed.

Lemma prefix_app (sub t : string) : String.prefix sub (sub +:+ t) = true.
Proof.
  induction sub as [|x sub IH].
  - change ("" +:+ t) with t. destruct t; reflexivity.
  - change (String x sub +:+ t) with (String x (sub +:+ t)).
    cbn [String.prefix]. destruct (Ascii.ascii_dec x x); [exact IH|].
    congruence.
Qed.

Lemma contains_intro (a sub t : string) :
  LiveDataFetcher.contains sub (a +:+ sub +:+ t) = true.
Proof.
  induction a as [|x a IH].
  - change ("" +:+ sub +:+ t) with (sub +:+ t).
    destruct (sub +:+ t) eqn:E; cbn [LiveDataFetcher.contains];
      rewrite <- E, prefix_app; reflexivity.
  - change (String x a +:+ sub +:+ t) with (String x (a +:+ sub +:+ t)).
    cbn [LiveDataFetcher.contains]. rewrite IH. apply orb_true_r.
Qed.

(** X25: the URL of a TradingView chart for [exchange:symbol], with or
    without further query parameters, parses to a request for that symbol
    with period 1mo, interval 1h and source yahoo, provided the exchange
    and the symbol hold no [&] and no [=] and the symbol no [:]. *)
Theorem parse_url_round_trip (exchange sym query : string) :
  LiveDataFetcher.contains "&" exchange = false ->
  LiveDataFetcher.contains "=" exchange = false ->
  LiveDataFetcher.contains "&" sym = false ->
  LiveDataFetcher.contains "=" sym = false ->
  LiveDataFetcher.contains ":" sym = false ->
  query = "" \/ String.prefix "&" query = true ->
  LiveDataFetcher.parse_url
    ("https://www.tradingview.com/chart/?symbol="
     +:+ exchange +:+ ":" +:+ sym +:+ query)
  = Some (LiveDataFetcher.mkRequest sym "1mo" "1h" "yahoo").
Proof.
  intros Hea Hee Hsa Hse Hsc Hquery.
  set (R := exchange +:+ ":" +:+ sym).
  assert (HRa : LiveDataFetcher.contains "&" R = false).
  { unfold R. rewrite !contains_char_app, Hea, Hsa. reflexivity. }
  assert (HRe : LiveDataFetcher.contains "=" R = false).
  { unfold R. rewrite !contains_char_app, Hee, Hse. reflexivity. }
  assert (Htail : exchange +:+ ":" +:+ sym +:+ query = R +:+ query).
  { unfold R. now rewrite !append_assoc. }
  rewrite Htail. clear Htail.
  (* the piece after the first "symbol=" *)
  assert (Hafter : exists t,
            LiveDataFetcher.split "symbol="
              ("https://www.tradingview.com/chart/?symbol=" +:+ R +:+ query)
            !! 1%nat = Some (R +:+ t)
            /\ (t = "" \/ exists x, t = "&" +:+ x)).
  { unfold LiveDataFetcher.split.
    remember (R +:+ query) as T eqn:HT.
    match goal with
    | |- context [LiveDataFetcher.split_from _ _ _ ?u] =>
        let v := eval cbv beta iota delta [String.append] in u in
        change u with v
    end.
    do 35 (rewrite split_from_step by reflexivity).
    rewrite split_from_match by (apply (prefix_app "symbol=" T)).
    cbn [String.length Nat.sub LiveDataFetcher.split_from].
    change ((?p :: ?l) !! 1%nat) with (l !! 0%nat).
    rewrite <- head_lookup.
    subst T. destruct Hquery as [-> | Hq].
    - exists "". split; [|left; reflexivity].
      rewrite (split_from_no_separator "symbol=" "=" prefix_symbol_contains)
        by (now rewrite append_empty_r).
      reflexivity.
    - destruct query as [|a q]; [discriminate Hq|].
      rewrite prefix_char in Hq.
      destruct (Ascii.ascii_dec _ a) as [<-|]; [|discriminate Hq].
      rewrite (split_from_through "symbol=" "=" "&"%char q
                 prefix_symbol_contains eq_refl R "" HRe).
      rewrite split_from_step by reflexivity.
      destruct (split_from_first "symbol=" q
                  (("" +:+ R) +:+ "&")) as (x & pieces & ->).
      exists ("&" +:+ x). split; [|right; eauto].
      cbn [head]. now rewrite !append_assoc. }
  destruct Hafter as (t & Hafter & Ht).
  assert (Hhead : head (LiveDataFetcher.split "&" (R +:+ t)) = Some R).
  { unfold LiveDataFetcher.split. destruct Ht as [-> | [x ->]].
    - rewrite append_empty_r.
      rewrite (split_from_no_separator "&" "&" (prefix_char_contains "&"%char)
                 R "" HRa).
      reflexivity.
    - change ("&" +:+ x) with (String "&"%char x).
      rewrite (split_char_until "&"%char x R "" HRa). reflexivity. }
  assert (Hlast : last (LiveDataFetcher.split ":" R) = Some sym).
  { unfold LiveDataFetcher.split, R.
    apply (last_split_char ":"%char sym Hsc). }
  unfold LiveDataFetcher.parse_url.
  replace (LiveDataFetcher.contains "tradingview.com"
             ("https://www.tradingview.com/chart/?symbol=" +:+ R +:+ query))
    with true
    by (symmetry;
        apply (contains_intro "https://www." "tradingview.com"
                 ("/chart/?symbol=" +:+ R +:+ query))).
  replace (LiveDataFetcher.contains "symbol="
             ("https://www.tradingview.com/chart/?symbol=" +:+ R +:+ query))
    with true
    by (symmetry;
        apply (contains_intro "https://www.tradingview.com/chart/?"
                 "symbol=" (R +:+ query))).
  cbn [negb]. rewrite Hafter, Hhead, Hlast. reflexivity.
Qed.

Lemma parse_url_round_trip_witness :
  LiveDataFetcher.parse_url
    ("https://www.tradingview.com/chart/?symbol="
     +:+ "NASDAQ" +:+ ":" +:+ "AAPL" +:+ "&interval=60")
  = Some (LiveDataFetcher.mkRequest "AAPL" "1mo" "1h" "yahoo").
Proof.
  apply (parse_url_round_trip "NASDAQ" "AAPL" "&interval=60").
  - reflexivity.
  - reflexivity.
  - reflexivity.
  - reflexivity.
  - reflexivity.
  - right. reflexivity.
Defined.

(** The pieces of a split at a one-character separator hold no
    separator, and no character that the string did not hold. *)
Lemma split_char_pieces (c d : ascii) :
  forall s cur,
    LiveDataFetcher.contains (String d "") cur = false ->
    d = c \/ LiveDataFetcher.contains (String d "") s = false ->
    Forall (fun piece => LiveDataFetcher.contains (String d "") piece = false)
           (LiveDataFetcher.split_from (String c "") 0 cur s).
Proof.
  induction s as [|y s IH]; intros cur Hcur Hs.
  - cbn. constructor; [exact Hcur | constructor].
  - assert (Hs' : d = c
                  \/ LiveDataFetcher.contains (String d "") s = false).
    { destruct Hs as [Hs | Hs]; [left; exact Hs | right].
      now apply contains_tail in Hs as [_ Hs]. }
    destruct (String.prefix (String c "") (String y s)) eqn:Hp.
    + rewrite (split_from_match _ _ _ _ Hp). cbn [String.length Nat.sub].
      constructor; [exact Hcur|]. apply IH; [reflexivity | exact Hs'].
    + rewrite (split_from_step _ _ _ _ Hp). apply IH; [|exact Hs'].
      rewrite contains_char_app, Hcur. cbn [orb LiveDataFetcher.contains].
      rewrite prefix_char, orb_false_r. rewrite prefix_char in Hp.
      destruct Hs as [-> | Hs]; [exact Hp|].
      apply contains_tail in Hs as [Hy _]. now rewrite prefix_char in Hy.
Qed.

(** X26: a request [parse_url] returns has period 1mo, interval 1h and
    source yahoo, so that [fetch_chart_data] takes the Yahoo branch for
    it, and its symbol holds neither [:] nor [&]. *)
Theorem parse_url_request
  (history : string -> string -> string
             -> result (list LiveDataFetcher.HistoryRow))
  (upper : string -> string) (url : string)
  (request : LiveDataFetcher.MarketDataRequest) :
  LiveDataFetcher.parse_url url = Some request ->
  LiveDataFetcher.period request = "1mo"
  /\ LiveDataFetcher.interval request = "1h"
  /\ LiveDataFetcher.source request = "yahoo"
  /\ LiveDataFetcher.contains ":" (LiveDataFetcher.symbol request) = false
  /\ LiveDataFetcher.contains "&" (LiveDataFetcher.symbol request) = false
  /\ LiveDataFetcher.fetch_chart_data history upper request
     = LiveDataFetcher._fetch_yahoo_data history upper request.
Proof.
  unfold LiveDataFetcher.parse_url.
  destruct (negb (LiveDataFetcher.contains "tradingview.com" url));
    [discriminate|].
  destruct (LiveDataFetcher.contains "symbol=" url); [|discriminate].
  destruct (LiveDataFetcher.split "symbol=" url !! 1%nat) as [after|];
    [|discriminate].
  destruct (head (LiveDataFetcher.split "&" after)) as [symbol_part|]
    eqn:Hpart; [|discriminate].
  destruct (last (LiveDataFetcher.split ":" symbol_part)) as [symbol|]
    eqn:Hsymbol; [|discriminate].
  intros [= <-]. cbn [LiveDataFetcher.period LiveDataFetcher.interval
                      LiveDataFetcher.source LiveDataFetcher.symbol].
  assert (Hamp : LiveDataFetcher.contains "&" symbol_part = false).
  { rewrite head_lookup in Hpart.
    apply list_elem_of_lookup_2 in Hpart.
    pose proof (split_char_pieces "&" "&" after "" eq_refl
                  (or_introl eq_refl)) as Hall.
    rewrite Forall_forall in Hall. now apply Hall. }
  rewrite last_lookup in Hsymbol.
  apply list_elem_of_lookup_2 in Hsymbol.
  repeat split.
  - pose proof (split_char_pieces ":" ":" symbol_part "" eq_refl
                  (or_introl eq_refl)) as Hall.
    rewrite Forall_forall in Hall. now apply Hall.
  - pose proof (split_char_pieces ":" "&" symbol_part "" eq_refl
                  (or_intror Hamp)) as Hall.
    rewrite Forall_forall in Hall. now apply Hall.
Qed.

Lemma parse_url_request_witness :
  "1mo" = "1mo" /\ "1h" = "1h" /\ "yahoo" = "yahoo"
  /\ LiveDataFetcher.contains ":" "AAPL" = false
  /\ LiveDataFetcher.contains "&" "AAPL" = false
  /\ LiveDataFetcher.fetch_chart_data LiveDataFetcher.sample_history id
       (LiveDataFetcher.mkRequest "AAPL" "1mo" "1h" "yahoo")
     = LiveDataFetcher._fetch_yahoo_data LiveDataFetcher.sample_history id
         (LiveDataFetcher.mkRequest "AAPL" "1mo" "1h" "yahoo").
Proof.
  apply (parse_url_request LiveDataFetcher.sample_history id
           "https://www.tradingview.com/chart/?symbol=NASDAQ:AAPL"
           (LiveDataFetcher.mkRequest "AAPL" "1mo" "1h" "yahoo")).
  vm_compute. reflexivity.
Defined.

(** ** The pipeline on a market that does not move *)

Lemma diff_from_replicate (c : Q) (n : nat) :
  diff_from (Fin c) (replicate n (Fin c)) = replicate n (Fin (c + - c)).
Proof.
  induction n as [|n IH]; [reflexivity|].
  cbn [replicate diff_from]. rewrite IH. reflexivity.
Qed.

Lemma flat_changes_zero (c : Q) (n : nat) :
  Forall (fun v => feq v (Fin 0) = true)
         (where_ (fun d => fgt d (Fin 0)) (Fin 0) (diff (replicate n (Fin c))))
  /\ Forall (fun v => feq v (Fin 0) = true)
            (map fneg (where_ (fun d => flt d (Fin 0)) (Fin 0)
                         (diff (replicate n (Fin c))))).
Proof.
  destruct n as [|n]; [split; constructor|].
  cbn [replicate diff]. rewrite diff_from_replicate.
  assert (Hgt : fgt (Fin (c + - c)) (Fin 0) = false).
  { unfold fgt. cbn [flt]. apply Qlt_bool_false_iff. lra. }
  assert (Hlt : flt (Fin (c + - c)) (Fin 0) = false).
  { cbn [flt]. apply Qlt_bool_false_iff. lra. }
  unfold where_. cbn [map]. rewrite !map_fmap, !fmap_replicate.
  rewrite Hgt, Hlt. cbn [fgt flt].
  split; constructor; try reflexivity; apply Forall_replicate; reflexivity.
Qed.

Lemma window_mean_zero_or_nan (window : nat) (w : list pyfloat) :
  Forall (fun v => feq v (Fin 0) = true) w ->
  window_mean window w = NaN
  \/ exists a, window_mean window w = Fin a /\ a == 0.
Proof.
  intros Hzero.
  assert (Hobs : Forall (fun q => q == 0) (omap observation w)).
  { induction Hzero as [|v w Hv _ IH]; [constructor|].
    destruct v as [q| | |]; try discriminate.
    cbn. constructor; [now apply Qeq_bool_iff|exact IH]. }
  unfold window_mean. cbv zeta.
  destruct (_ || _); [left; reflexivity|].
  right. eexists. split; [reflexivity|].
  rewrite (Qsum_zero _ Hobs). unfold Qdiv. ring.
Qed.

(** On a series of one constant price the fallback RSI has no value. *)
Lemma rsi_manual_flat (c : Q) (n period : nat) :
  _calculate_rsi_manual (replicate n (Fin c)) period = None.
Proof.
  destruct (flat_changes_zero c n) as [Hgains Hlosses].
  destruct (last (rsi_gain (replicate n (Fin c)) period)) as [gain|] eqn:Hg.
  2:{ unfold _calculate_rsi_manual, iloc_last. rewrite last_map.
      apply last_None in Hg. rewrite Hg. reflexivity. }
  destruct (last (rsi_loss (replicate n (Fin c)) period)) as [loss|] eqn:Hl.
  2:{ apply last_None in Hl. apply (f_equal length) in Hl.
      rewrite length_rsi_loss in Hl.
      assert (Hgl : length (rsi_gain (replicate n (Fin c)) period) = 0%nat)
        by (rewrite length_rsi_gain; exact Hl).
      destruct (rsi_gain _ _); [discriminate Hg | discriminate Hgl]. }
  rewrite (rsi_manual_from_means _ _ _ _ Hg Hl). cbv zeta.
  assert (Hne : diff (replicate n (Fin c)) <> []).
  { intros Hnil. unfold rsi_gain in Hg. rewrite Hnil in Hg. discriminate. }
  unfold rsi_gain in Hg. unfold rsi_loss in Hl.
  rewrite last_rolling_mean in Hg
    by (unfold where_; destruct (diff _); [congruence | discriminate]).
  rewrite last_rolling_mean in Hl
    by (unfold where_; destruct (diff _); [congruence | discriminate]).
  assert (HG : gain = NaN \/ exists a, gain = Fin a /\ a == 0).
  { injection Hg as <-.
    apply window_mean_zero_or_nan, Forall_last_n, Hgains. }
  assert (HL : loss = NaN \/ exists a, loss = Fin a /\ a == 0).
  { injection Hl as <-.
    apply window_mean_zero_or_nan, Forall_last_n, Hlosses. }
  clear Hg Hl.
  destruct HG as [-> | (g & -> & Hg0)]; [reflexivity|].
  destruct HL as [-> | (l & -> & Hl0)]; [reflexivity|].
  cbn [fdiv]. apply Qeq_bool_iff in Hl0. rewrite Hl0.
  unfold inf_signed. apply Qeq_alt in Hg0. rewrite Hg0. reflexivity.
Qed.

(** On a series of one constant price the fallback MACD is zero, or has
    no value when a span is below 1. *)
Lemma macd_manual_flat (c : Q) (n fast slow signal : nat) :
  exists m s h,
    Manual._calculate_macd_manual (replicate (S n) (Fin c)) fast slow signal
    = (m, s, h)
    /\ (m = None \/ exists q, m = Some (Fin q) /\ q == 0).
Proof.
  destruct (le_lt_dec 1 fast) as [Hfast|Hfast];
    [destruct (le_lt_dec 1 slow) as [Hslow|Hslow];
     [destruct (le_lt_dec 1 signal) as [Hsignal|Hsignal]|]|].
  - destruct (macd_manual_replicate c n fast slow signal Hfast Hslow Hsignal)
      as (m & s & h & Hrun & Hm & _).
    eexists _, _, _. split; [exact Hrun|]. right. eauto.
  - exists None, None, None. split; [|left; reflexivity].
    unfold Manual._calculate_macd_manual.
    rewrite !ewm_mean_constant by assumption. cbn [mbind result_bind].
    rewrite zip_with_replicate. unfold Manual.ewm_mean.
    destruct (Nat.ltb_spec signal 1); [reflexivity | lia].
  - exists None, None, None. split; [|left; reflexivity].
    unfold Manual._calculate_macd_manual.
    rewrite (ewm_mean_constant fast) by assumption.
    cbn [mbind result_bind]. unfold Manual.ewm_mean.
    destruct (Nat.ltb_spec slow 1); [reflexivity | lia].
  - exists None, None, None. split; [|left; reflexivity].
    unfold Manual._calculate_macd_manual, Manual.ewm_mean.
    destruct (Nat.ltb_spec fast 1); [reflexivity | lia].
Qed.

Lemma Qsum_replicate (c : Q) (n : nat) :
  Qsum (replicate n c) == inject_Z (Z.of_nat n) * c.
Proof.
  induction n as [|n IH]; [cbn; ring|].
  cbn [replicate Qsum foldr]. change (foldr Qplus 0 (replicate n c))
    with (Qsum (replicate n c)).
  rewrite IH, Nat2Z.inj_succ. unfold Z.succ. rewrite inject_Z_plus.
  change (inject_Z 1) with 1. ring.
Qed.

(** The mean of a window of one constant price is that price, when there
    is one. *)
Lemma window_mean_constant (c : Q) (window n : nat) :
  window_mean window (replicate n (Fin c)) = NaN
  \/ exists m, window_mean window (replicate n (Fin c)) = Fin m /\ m == c.
Proof.
  assert (Hobs : omap observation (replicate n (Fin c)) = replicate n c).
  { induction n as [|n IH]; [reflexivity|]. cbn. now rewrite IH. }
  unfold window_mean. cbv zeta. rewrite Hobs, length_replicate.
  destruct (n =? 0)%nat eqn:Hn; [rewrite orb_true_r; left; reflexivity|].
  destruct (n <? window)%nat; [left; reflexivity|].
  right. eexists. split; [reflexivity|].
  apply Nat.eqb_neq in Hn. rewrite Qsum_replicate.
  field. intros H. unfold Qeq in H. cbn in H. lia.
Qed.

Lemma last_n_replicate {A} (p n : nat) (a : A) :
  last_n p (replicate n a) = replicate (n - (n - p)) a.
Proof. unfold last_n. rewrite length_replicate. apply drop_replicate. Qed.

Ltac preserve_key :=
  repeat first
    [ apply preserves_when
    | apply preserves_ret
    | apply preserves_lift
    | apply preserves_getitem
    | apply preserves_setitem;
      (let H := fresh in
       intros H; cbv [String.append] in H; discriminate)
    | apply preserves_for_each; intros ?
    | apply preserves_bind; [|intros ?]
    | match goal with
      | |- preserves _ (match ?x with _ => _ end) => destruct x
      | |- preserves _ (let '_ := ?x in _) => destruct x
      end ].

Section FlatMarket.

Variable manual : ManualIndicators.
Variable tech_config : TechnicalAnalysisConfig.
Variable chart_data : ChartData.
Variable c : Q.

Hypothesis Hne : ohlc_data chart_data <> [].
Hypothesis Hflat :
  Forall (fun bar => close bar = Fin c) (ohlc_data chart_data).

Lemma flat_closes :
  map close (ohlc_data chart_data)
  = replicate (S (pred (length (ohlc_data chart_data)))) (Fin c).
Proof using Hne Hflat.
  rewrite (map_constant close (Fin c) _ Hflat). f_equal.
  destruct (ohlc_data chart_data); [congruence | reflexivity].
Qed.

(** Without TA-Lib, a flat market has no RSI entry. *)
Lemma flat_rsi_absent :
  calculate_technical_indicators None manual tech_config chart_data !! "RSI"
  = None.
Proof using Hne Hflat.
  pose proof flat_closes as Hcloses.
  unfold calculate_technical_indicators.
  destruct (ohlc_data chart_data) as [|b df] eqn:Hdata; [congruence|].
  rewrite lookup_omap. unfold try_block.
  set (closes := map close (b :: df)) in *.
  rewrite run_then
    by (apply moving_averages_succeeds; subst closes; discriminate).
  set (d1 := snd (moving_averages tech_config closes ∅)).
  assert (Hd1 : d1 !! "RSI" = None).
  { unfold d1. rewrite moving_averages_preserves_rsi. reflexivity. }
  rewrite run_then by (apply rsi_fallback_succeeds; exact manual).
  assert (Hrest : preserves "RSI"
            (macd None manual tech_config closes;;
             bollinger_bands None manual tech_config closes;;
             volume_indicators tech_config (map volume (b :: df));;
             stochastic None manual tech_config (map high (b :: df))
               (map low (b :: df)) closes)).
  { apply preserves_bind; [apply macd_preserves_rsi | intros _].
    apply preserves_bind; [apply bollinger_bands_preserves_rsi | intros _].
    apply preserves_bind; [apply volume_indicators_preserves_rsi | intros _].
    apply stochastic_preserves_rsi. }
  rewrite Hrest. unfold rsi.
  destruct (flag _ _ && _); cbn [when].
  - cbn [setitem snd]. rewrite lookup_insert_eq, Hcloses, rsi_manual_flat.
    reflexivity.
  - cbn. rewrite Hd1. reflexivity.
Qed.

(** An indicator map without a MACD entry when the family is off or the
    series is shorter than the slow span. *)
Lemma macd_absent (fast slow signal : nat) :
  macd_periods tech_config = (fast, slow, signal) ->
  flag (indicators tech_config) "macd"
  && (slow <=? length (ohlc_data chart_data))%nat = false ->
  calculate_technical_indicators None manual tech_config chart_data !! "MACD"
  = None.
Proof using Hne.
  clear Hflat. intros Hperiods Hoff.
  unfold calculate_technical_indicators.
  destruct (ohlc_data chart_data) as [|b df] eqn:Hdata; [congruence|].
  rewrite lookup_omap. unfold try_block.
  set (closes := map close (b :: df)) in *.
  rewrite run_then
    by (apply moving_averages_succeeds; subst closes; discriminate).
  set (d1 := snd (moving_averages tech_config closes ∅)).
  assert (Hd1 : d1 !! "MACD" = None).
  { unfold d1.
    assert (Hp : preserves "MACD" (moving_averages tech_config closes))
      by (unfold moving_averages; preserve_key).
    rewrite Hp. reflexivity. }
  rewrite run_then by (apply rsi_fallback_succeeds; exact manual).
  set (d2 := snd (rsi None tech_config closes d1)).
  assert (Hd2 : d2 !! "MACD" = None).
  { unfold d2.
    assert (Hp : preserves "MACD" (rsi None tech_config closes))
      by (unfold rsi; preserve_key).
    rewrite Hp. exact Hd1. }
  assert (Hrun : macd None manual tech_config closes d2 = (Ok tt, d2)).
  { unfold macd. rewrite Hperiods.
    destruct (flag (indicators tech_config) "macd"); [|reflexivity].
    cbn [andb when] in *.
    replace (length closes) with (length (b :: df))
      by (subst closes; now rewrite length_map).
    rewrite Hoff. reflexivity. }
  rewrite run_then by (rewrite Hrun; reflexivity).
  rewrite Hrun. cbn [snd].
  assert (Hrest : preserves "MACD"
            (bollinger_bands None manual tech_config closes;;
             volume_indicators tech_config (map volume (b :: df));;
             stochastic None manual tech_config (map high (b :: df))
               (map low (b :: df)) closes)).
  { apply preserves_bind; [|intros _; apply preserves_bind; [|intros _]].
    - unfold bollinger_bands. preserve_key.
    - unfold volume_indicators. preserve_key.
    - unfold stochastic. preserve_key. }
  rewrite Hrest, Hd2. reflexivity.
Qed.

(** The entry of a moving average, with or without TA-Lib. *)
Lemma ma_entry_cases (talib : option TaLib) (p : nat) :
  calculate_technical_indicators talib manual tech_config chart_data
    !! ma_key p = None
  \/ calculate_technical_indicators talib manual tech_config chart_data
       !! ma_key p
     = Some (window_mean p (last_n p (map close (ohlc_data chart_data)))).
Proof using Hne.
  clear Hflat. unfold calculate_technical_indicators.
  destruct (ohlc_data chart_data) as [|b df] eqn:Hdata; [congruence|].
  rewrite lookup_omap. unfold try_block.
  set (closes := map close (b :: df)) in *.
  assert (Hclose : closes <> []) by (subst closes; discriminate).
  rewrite run_then by (apply moving_averages_succeeds; exact Hclose).
  assert (Hrest : preserves (ma_key p)
            (rsi talib tech_config closes;;
             macd talib manual tech_config closes;;
             bollinger_bands talib manual tech_config closes;;
             volume_indicators tech_config (map volume (b :: df));;
             stochastic talib manual tech_config (map high (b :: df))
               (map low (b :: df)) closes)).
  { apply preserves_bind; [apply rsi_preserves_ma | intros _].
    apply preserves_bind; [apply macd_preserves_ma | intros _].
    apply preserves_bind; [apply bollinger_bands_preserves_ma | intros _].
    apply preserves_bind; [apply volume_indicators_preserves_ma | intros _].
    apply stochastic_preserves_ma. }
  rewrite Hrest. unfold moving_averages.
  destruct (flag (indicators tech_config) "moving_averages");
    cbn [when]; [|left; reflexivity].
  rewrite (ma_loop closes _ Hclose).
  destruct (bool_decide _ && _); [right | left]; reflexivity.
Qed.

End FlatMarket.

(** Two moving averages of a flat market cast no vote. *)
Lemma ma_vote_flat (c : Q) (m9 m21 : option pyfloat)
  (technical_analysis : gmap string pyfloat) (votes : Votes) :
  technical_analysis !! "MA_9" = m9 ->
  technical_analysis !! "MA_21" = m21 ->
  (m9 = None \/ m9 = Some NaN \/ exists a, m9 = Some (Fin a) /\ a == c) ->
  (m21 = None \/ m21 = Some NaN \/ exists a, m21 = Some (Fin a) /\ a == c) ->
  ma_vote (Fin c) technical_analysis votes = votes.
Proof.
  intros H9 H21 Hm9 Hm21. unfold ma_vote. rewrite H9, H21.
  destruct Hm9 as [-> | Hm9]; [reflexivity|].
  destruct Hm21 as [-> | Hm21]; [destruct m9; reflexivity|].
  assert (Hgt : forall x y, Some x = m9 -> Some y = m21 ->
                  fgt x y = false /\ flt x y = false).
  { intros x y <- <-.
    destruct Hm9 as [[= ->] | (a & [= ->] & Ha)];
      destruct Hm21 as [[= ->] | (b & [= ->] & Hb)];
      unfold fgt; cbn [flt]; try (split; reflexivity).
    split; apply Qlt_bool_false_iff; lra. }
  destruct m9 as [x|]; [|reflexivity].
  destruct m21 as [y|]; [|reflexivity].
  destruct (Hgt x y eq_refl eq_refl) as [-> ->]. cbn [andb].
  destruct (truthy x && truthy y); reflexivity.
Qed.

(** Without TA-Lib, the indicators of a flat market cast no vote at
    all. *)
Lemma flat_market_no_votes
  (bollinger : list pyfloat -> nat -> pyfloat
               -> option pyfloat * option pyfloat * option pyfloat)
  (tech_config : TechnicalAnalysisConfig) (chart_data : ChartData) (c : Q) :
  ohlc_data chart_data <> [] ->
  Forall (fun bar => close bar = Fin c) (ohlc_data chart_data) ->
  current_price_of chart_data = Fin c ->
  count_votes chart_data
    (calculate_technical_indicators None (Manual.indicators bollinger)
       tech_config chart_data)
  = mkVotes 0 0.
Proof.
  intros Hne Hflat Hprice.
  set (manual := Manual.indicators bollinger).
  set (ta := calculate_technical_indicators None manual tech_config
               chart_data).
  pose proof (flat_closes chart_data c Hne Hflat) as Hcloses.
  unfold count_votes. cbv zeta. rewrite Hprice.
  assert (Hrsi : rsi_vote ta (mkVotes 0 0) = mkVotes 0 0).
  { unfold rsi_vote, ta.
    now rewrite (flat_rsi_absent manual tech_config chart_data c Hne Hflat). }
  rewrite Hrsi.
  assert (Hmacd : macd_vote ta (mkVotes 0 0) = mkVotes 0 0).
  { unfold macd_vote. cbv zeta.
    destruct (macd_periods tech_config) as [[fast slow] signal] eqn:Hperiods.
    destruct (flag (indicators tech_config) "macd"
              && (slow <=? length (ohlc_data chart_data))%nat) eqn:Hon.
    - apply andb_true_iff in Hon as [Hflag Hlen].
      apply Nat.leb_le in Hlen.
      destruct (macd_manual_flat c (pred (length (ohlc_data chart_data)))
                  fast slow signal) as (m & s & h & Hrun & Hm).
      rewrite <- Hcloses in Hrun.
      destruct (macd_entries manual tech_config chart_data fast slow signal
                  m s h Hflag Hperiods Hlen Hne Hrun) as (HM & _).
      fold ta in HM. rewrite HM.
      destruct Hm as [-> | (q & -> & Hq)]; [reflexivity|].
      destruct (ta !! "MACD_Signal"); [|reflexivity].
      cbn [truthy]. apply Qeq_bool_iff in Hq. rewrite Hq. reflexivity.
    - unfold ta.
      rewrite (macd_absent manual tech_config chart_data Hne fast slow
                 signal Hperiods Hon).
      reflexivity. }
  rewrite Hmacd.
  assert (Hma : forall p,
            ta !! ma_key p = None \/ ta !! ma_key p = Some NaN
            \/ exists a, ta !! ma_key p = Some (Fin a) /\ a == c).
  { intros p.
    destruct (ma_entry_cases manual tech_config chart_data Hne None p)
      as [Hp | Hp]; fold ta in Hp; [left; exact Hp|].
    rewrite Hp, Hcloses, last_n_replicate.
    destruct (window_mean_constant c p
                (S (pred (length (ohlc_data chart_data)))
                 - (S (pred (length (ohlc_data chart_data))) - p)))
      as [-> | (a & -> & Ha)]; [right; left; reflexivity|].
    right. right. eauto. }
  apply (ma_vote_flat c (ta !! "MA_9") (ta !! "MA_21"));
    [reflexivity | reflexivity | apply (Hma 9%nat) | apply (Hma 21%nat)].
Qed.

(** Prediction and signal for fetched chart data of a flat market. *)
Lemma flat_market_prediction
  (history : string -> string -> string
             -> result (list LiveDataFetcher.HistoryRow))
  (upper : string -> string)
  (bollinger : list pyfloat -> nat -> pyfloat
               -> option pyfloat * option pyfloat * option pyfloat)
  (tech_config : TechnicalAnalysisConfig) (model_config : ModelConfig)
  (trading_config : TradingConfig)
  (request : LiveDataFetcher.MarketDataRequest)
  (rows : list LiveDataFetcher.HistoryRow) (c : Q) (chart_data : ChartData) :
  history (LiveDataFetcher.symbol request) (LiveDataFetcher.period request)
    (LiveDataFetcher.interval request) = Ok rows ->
  Forall (fun row => LiveDataFetcher.Close row = Fin c) rows ->
  LiveDataFetcher.fetch_chart_data history upper request = Ok chart_data ->
  let technical_analysis :=
    calculate_technical_indicators None (Manual.indicators bollinger)
      tech_config chart_data in
  let prediction :=
    predict_price_movement model_config chart_data technical_analysis in
  direction prediction = SIDEWAYS
  /\ confidence prediction = Fin 0.5
  /\ exists signal,
       generate_trading_signals trading_config prediction technical_analysis
       = Ok signal
       /\ action signal = HOLD /\ strength signal = Weak
       /\ entry_price signal = None.
Proof.
  intros Hhist Hflat Hfetch technical_analysis prediction.
  destruct (fetch_result history upper request chart_data Hfetch)
    as (_ & rows' & last_row & Hhist' & Hlast & Hdata & Hlevels & _).
  rewrite Hhist in Hhist'. injection Hhist' as <-.
  assert (Hne : ohlc_data chart_data <> []).
  { rewrite Hdata. destruct rows; [discriminate Hlast | discriminate]. }
  assert (Hcloses : Forall (fun bar => close bar = Fin c)
                           (ohlc_data chart_data)).
  { rewrite Hdata, map_fmap. apply Forall_fmap.
    eapply Forall_impl; [exact Hflat|]. intros row Hrow. exact Hrow. }
  assert (Hprice : current_price_of chart_data = Fin c).
  { unfold current_price_of. rewrite Hlevels, lookup_insert_eq.
    cbn [default]. rewrite Forall_forall in Hflat. apply Hflat.
    rewrite last_lookup in Hlast. eapply list_elem_of_lookup_2.
    exact Hlast. }
  pose proof (flat_market_no_votes bollinger tech_config chart_data c
                Hne Hcloses Hprice) as Hvotes.
  fold technical_analysis in Hvotes.
  assert (Hprediction :
            direction prediction = SIDEWAYS
            /\ confidence prediction = Fin 0.5).
  { unfold prediction, predict_price_movement. cbv zeta.
    rewrite Hvotes. split; reflexivity. }
  destruct Hprediction as [Hdir Hconf].
  split; [exact Hdir|]. split; [exact Hconf|].
  assert (Hlow : flt (confidence prediction) (Fin 0.6) = true)
    by (rewrite Hconf; reflexivity).
  destruct (base_signal_low_confidence trading_config prediction Hlow)
    as (base & Hbase & _).
  destruct (base_signal_action trading_config prediction base Hbase)
    as [Hshape _].
  destruct (Hshape Hlow) as (Haction & Hstrength & Hentry).
  destruct (generate_downgrades_base trading_config prediction
              technical_analysis base Hbase)
    as (signal & Hsignal & Hact & Hent & _ & _ & _ & Hrank & _).
  exists signal. split; [exact Hsignal|].
  split; [rewrite Hact; exact Haction|].
  split; [|rewrite Hent; exact Hentry].
  rewrite Hstrength in Hrank. destruct (strength signal); cbn in Hrank;
    [lia | lia | reflexivity].
Qed.

(** X27: on history rows that all close at one finite price, without
    TA-Lib, a run of the analysis pipeline that returns reports a
    SIDEWAYS prediction of confidence 0.5 and a Weak HOLD signal without
    entry price, for every configuration; the run returns whenever the
    fetch and the pattern detection do. *)
Theorem flat_market_run
  (history : string -> string -> string
             -> result (list LiveDataFetcher.HistoryRow))
  (upper : string -> string)
  (bollinger : list pyfloat -> nat -> pyfloat
               -> option pyfloat * option pyfloat * option pyfloat)
  (detectors : Detectors)
  (tech_config : TechnicalAnalysisConfig) (model_config : ModelConfig)
  (trading_config : TradingConfig) (now : string)
  (request : LiveDataFetcher.MarketDataRequest)
  (rows : list LiveDataFetcher.HistoryRow) (c : Q) :
  history (LiveDataFetcher.symbol request) (LiveDataFetcher.period request)
    (LiveDataFetcher.interval request) = Ok rows ->
  Forall (fun row => LiveDataFetcher.Close row = Fin c) rows ->
  let run :=
    LiveDataWorker.run history upper None (Manual.indicators bollinger)
      detectors tech_config model_config trading_config now in
  (forall results,
     run request = Ok results ->
     direction (LiveDataWorker.predictions results) = SIDEWAYS
     /\ confidence (LiveDataWorker.predictions results) = Fin 0.5
     /\ action (LiveDataWorker.signals results) = HOLD
     /\ strength (LiveDataWorker.signals results) = Weak
     /\ entry_price (LiveDataWorker.signals results) = None)
  /\ (forall chart_data patterns,
        LiveDataFetcher.fetch_chart_data history upper request
        = Ok chart_data ->
        detect_patterns detectors chart_data = Ok patterns ->
        exists results, run request = Ok results).
Proof.
  intros Hhist Hflat run. subst run. unfold LiveDataWorker.run. split.
  - intros results Hrun.
    destruct (LiveDataFetcher.fetch_chart_data history upper request)
      as [chart_data|e] eqn:Hfetch; cbn [mbind result_bind] in Hrun;
      [|discriminate Hrun].
    destruct (detect_patterns detectors chart_data) as [patterns|e];
      cbn [mbind result_bind] in Hrun; [|discriminate Hrun].
    destruct (flat_market_prediction history upper bollinger tech_config
                model_config trading_config request rows c chart_data
                Hhist Hflat Hfetch)
      as (Hdir & Hconf & signal & Hsignal & Hact & Hstr & Hent).
    cbv zeta in Hsignal. rewrite Hsignal in Hrun.
    cbn [mbind result_bind] in Hrun. injection Hrun as <-.
    cbn [LiveDataWorker.predictions LiveDataWorker.signals].
    repeat split; assumption.
  - intros chart_data patterns Hfetch Hpatterns.
    rewrite Hfetch. cbn [mbind result_bind].
    rewrite Hpatterns. cbn [mbind result_bind].
    destruct (flat_market_prediction history upper bollinger tech_config
                model_config trading_config request rows c chart_data
                Hhist Hflat Hfetch)
      as (_ & _ & signal & Hsignal & _).
    cbv zeta in Hsignal. rewrite Hsignal. cbn [mbind result_bind].
    eexists. reflexivity.
Qed.

Lemma flat_market_run_witness :
  let run :=
    LiveDataWorker.run LiveDataWorker.flat_history id None
      (Manual.indicators (fun _ _ _ => (None, None, None)))
      LiveDataWorker.reversal_detectors default_technical_config
      default_model_config default_trading_config "2024-01-01T00:00:00" in
  (forall results,
     run LiveDataFetcher.sample_request = Ok results ->
     direction (LiveDataWorker.predictions results) = SIDEWAYS
     /\ confidence (LiveDataWorker.predictions results) = Fin 0.5
     /\ action (LiveDataWorker.signals results) = HOLD
     /\ strength (LiveDataWorker.signals results) = Weak
     /\ entry_price (LiveDataWorker.signals results) = None)
  /\ (forall chart_data patterns,
        LiveDataFetcher.fetch_chart_data LiveDataWorker.flat_history id
          LiveDataFetcher.sample_request = Ok chart_data ->
        detect_patterns LiveDataWorker.reversal_detectors chart_data
        = Ok patterns ->
        exists results, run LiveDataFetcher.sample_request = Ok results).
Proof.
  apply (flat_market_run LiveDataWorker.flat_history id
           (fun _ _ _ => (None, None, None))
           LiveDataWorker.reversal_detectors default_technical_config
           default_model_config default_trading_config
           "2024-01-01T00:00:00" LiveDataFetcher.sample_request
           LiveDataWorker.flat_rows 100).
  - reflexivity.
  - unfold LiveDataWorker.flat_rows. rewrite map_fmap.
    apply Forall_fmap, Forall_forall. intros i _. reflexivity.
Defined.

(** The pipeline on the thirty flat rows does return. *)
Example flat_market_run_returns :
  exists results,
    LiveDataWorker.run LiveDataWorker.flat_history id None
      (Manual.indicators (fun _ _ _ => (None, None, None)))
      LiveDataWorker.reversal_detectors default_technical_config
      default_model_config default_trading_config "2024-01-01T00:00:00"
      LiveDataFetcher.sample_request = Ok results
    /\ LiveDataWorker.patterns results = [].
Proof. eexists. split; [vm_compute; reflexivity | reflexivity]. Qed.
